(** * auto_sqlServerBackup.py: a scheduled SQL Server backup job

    A shallow embedding of [src/auto_sqlServerBackup.py].  The script is
    almost entirely glue between the operating system, the ODBC driver,
    an SMTP relay and the [schedule] library, so the embedding threads an
    explicit [World] (clock, file system, scripted outcomes of the
    external calls, log, event trace) through every function and keeps
    Python's exceptions as an explicit [Raise] result.  State changes made
    before an exception is raised are kept, as in Python. *)

From Stdlib Require Import Ascii String List Arith Lia Bool.
From stdpp Require Import base option strings pretty list gmap.

Local Open Scope string_scope.
Local Open Scope list_scope.

(** ** Python strings *)

Module PyStr.

(** [str(n)] for a non-negative integer. *)
Definition str (n : nat) : string := pretty n.

Fixpoint zeros (k : nat) : string :=
  match k with
  | O => ""
  | S k' => String "0" (zeros k')
  end.

(** [s.zfill(width)] for a string without sign. *)
Definition zfill (width : nat) (s : string) : string :=
  zeros (width - String.length s) +:+ s.

Definition is_sep (c : ascii) : bool := Ascii.eqb c "/".

Definition startswith_sep (s : string) : bool :=
  match s with
  | String c _ => is_sep c
  | EmptyString => false
  end.

Fixpoint endswith_sep (s : string) : bool :=
  match s with
  | EmptyString => false
  | String c EmptyString => is_sep c
  | String _ r => endswith_sep r
  end.

Fixpoint contains_sep (s : string) : bool :=
  match s with
  | EmptyString => false
  | String c r => is_sep c || contains_sep r
  end.

Fixpoint all_sep (s : string) : bool :=
  match s with
  | EmptyString => true
  | String c r => is_sep c && all_sep r
  end.

(** [s.rstrip('/')]. *)
Fixpoint rstrip_sep (s : string) : string :=
  match s with
  | EmptyString => EmptyString
  | String c r =>
      match rstrip_sep r with
      | EmptyString => if is_sep c then EmptyString else String c EmptyString
      | r' => String c r'
      end
  end.

(** [(p[:i], p[i:])] with [i = p.rfind('/') + 1]. *)
Fixpoint cut_at_last_sep (p : string) : string * string :=
  match p with
  | EmptyString => (EmptyString, EmptyString)
  | String c r =>
      if contains_sep r then
        let '(h, t) := cut_at_last_sep r in (String c h, t)
      else if is_sep c then (String c EmptyString, r)
      else (EmptyString, String c r)
  end.

End PyStr.

(** ** [posixpath] *)

Module OsPath.
Import PyStr.

(** [os.path.join(a, b)] with one extra component. *)
Definition join (a b : string) : string :=
  if startswith_sep b then b
  else if (String.eqb a "" || endswith_sep a)%bool then a +:+ b
  else a +:+ "/" +:+ b.

(** [os.path.split(p)]. *)
Definition split (p : string) : string * string :=
  let '(head, tail) := cut_at_last_sep p in
  if (negb (String.eqb head "") && negb (all_sep head))%bool
  then (rstrip_sep head, tail)
  else (head, tail).

End OsPath.

(** ** Dates and times *)

Record DateTime : Type := mkDateTime {
  year : nat; month : nat; day : nat;
  hour : nat; minute : nat; second : nat
}.

(** [datetime.date]: the calendar part of a clock reading. *)
Record Date : Type := mkDate { d_year : nat; d_month : nat; d_day : nat }.

Definition date_of (t : DateTime) : Date :=
  mkDate (year t) (month t) (day t).

(** The ranges Python's [datetime] enforces on its fields (the day bound
    is the coarse one, month lengths play no part in formatting). *)
Definition valid_date (d : Date) : Prop :=
  1 <= d_year d < 10 * 1000 /\ 1 <= d_month d <= 12 /\ 1 <= d_day d <= 31.

Definition valid_datetime (t : DateTime) : Prop :=
  valid_date (date_of t) /\ hour t < 24 /\ minute t < 60 /\ second t < 60.

Module Strftime.
Import PyStr.

(** [%Y]: year with century, four digits as documented. *)
Definition pct_Y (t : DateTime) : string := zfill 4 (str (year t)).
Definition pct_m (t : DateTime) : string := zfill 2 (str (month t)).
Definition pct_d (t : DateTime) : string := zfill 2 (str (day t)).
Definition pct_H (t : DateTime) : string := zfill 2 (str (hour t)).
Definition pct_M (t : DateTime) : string := zfill 2 (str (minute t)).
Definition pct_S (t : DateTime) : string := zfill 2 (str (second t)).

(** The [%Y%m%d] prefix of the stamp. *)
Definition Ymd (t : DateTime) : string := pct_Y t +:+ pct_m t +:+ pct_d t.

(** The [%H%M%S] suffix of the stamp. *)
Definition HMS (t : DateTime) : string := pct_H t +:+ pct_M t +:+ pct_S t.

(** [t.strftime('%Y%m%d_%H%M%S')]. *)
Definition Ymd_HMS (t : DateTime) : string := Ymd t +:+ "_" +:+ HMS t.

End Strftime.

(** ** Exceptions *)

(** The [Exception] subclasses the calls of this script raise.  All of
    them are caught by [except Exception]. *)
Inductive exn_class : Type :=
  | FileExistsError
  | FileNotFoundError
  | NotADirectoryError
  | PermissionError
  | PyodbcError
  | SMTPException
  | UnboundLocalError
  | TypeError.

Record exn : Type := mkExn { exn_cls : exn_class; exn_text : string }.

(** [OSError] and its subclasses: the spec's [FilesystemError]. *)
Definition is_OSError (e : exn) : bool :=
  match exn_cls e with
  | FileExistsError | FileNotFoundError | NotADirectoryError | PermissionError => true
  | _ => false
  end.

Inductive result (A : Type) : Type :=
  | Ok (a : A)
  | Raise (e : exn).
Arguments Ok {A} a.
Arguments Raise {A} e.

(** ** The world outside the interpreter *)

(** What the file system holds at a path. *)
Inductive node : Type :=
  | Dir (writable : bool)
  | File.

Inductive conn_state : Type := ConnOpen | ConnClosed.

Inductive log_level : Type := INFO | ERROR.

(** Calls that leave the process, in the order they were made. *)
Inductive event : Type :=
  | EvMkdir (path : string)
  | EvConnect (connection_string : string)
  | EvCursor (handle : nat)
  | EvExecute (handle : nat) (sql : string)
  | EvCommit (handle : nat)
  | EvClose (handle : nat)
  | EvNotify (subject body to_email : string)
  | EvSmtpOpen (server : string) (port : Z)
  | EvStartTls
  | EvLogin (user password : string)
  | EvSendmail (from_email to_email subject body : string)
  | EvSmtpQuit
  | EvRunJob
  | EvJobDone
  | EvSleep (seconds : nat).

Record World : Type := mkWorld {
  clock_now : DateTime;                (* what the next clock read returns *)
  clock_next : list DateTime;          (* the readings after that one *)
  fs : gmap string node;               (* local file system, by path *)
  cwd_writable : bool;                 (* entries may be created in the cwd *)
  db_outcomes : list (option string);  (* per ODBC call: None = it works, Some msg = it raises *)
  smtp_outcomes : list (option string);(* per SMTP call, likewise *)
  conns : list conn_state;             (* ODBC connections, by handle *)
  log : list (log_level * string);     (* database_backup.log *)
  trace : list event
}.

Definition set_clock (t : DateTime) (ts : list DateTime) (w : World) : World :=
  mkWorld t ts (fs w) (cwd_writable w) (db_outcomes w) (smtp_outcomes w)
          (conns w) (log w) (trace w).

Definition set_fs (m : gmap string node) (w : World) : World :=
  mkWorld (clock_now w) (clock_next w) m (cwd_writable w) (db_outcomes w)
          (smtp_outcomes w) (conns w) (log w) (trace w).

Definition set_db_outcomes (o : list (option string)) (w : World) : World :=
  mkWorld (clock_now w) (clock_next w) (fs w) (cwd_writable w) o
          (smtp_outcomes w) (conns w) (log w) (trace w).

Definition set_smtp_outcomes (o : list (option string)) (w : World) : World :=
  mkWorld (clock_now w) (clock_next w) (fs w) (cwd_writable w) (db_outcomes w)
          o (conns w) (log w) (trace w).

Definition set_conns (c : list conn_state) (w : World) : World :=
  mkWorld (clock_now w) (clock_next w) (fs w) (cwd_writable w) (db_outcomes w)
          (smtp_outcomes w) c (log w) (trace w).

Definition set_log (l : list (log_level * string)) (w : World) : World :=
  mkWorld (clock_now w) (clock_next w) (fs w) (cwd_writable w) (db_outcomes w)
          (smtp_outcomes w) (conns w) l (trace w).

Definition set_trace (t : list event) (w : World) : World :=
  mkWorld (clock_now w) (clock_next w) (fs w) (cwd_writable w) (db_outcomes w)
          (smtp_outcomes w) (conns w) (log w) t.

(** ** Effectful computations *)

(** A computation reads and changes a state and either returns or
    raises; the state it leaves behind is kept in both cases. *)
Definition M (S A : Type) : Type := S -> result A * S.

(** Computations on the world alone: every function of the script but
    [perform_backup], whose local variables are modelled too. *)
Abbreviation W := (M World).

Definition ret {S A} (a : A) : M S A := fun s => (Ok a, s).

Definition raise {S A} (e : exn) : M S A := fun s => (Raise e, s).

Definition bind {S A B} (c : M S A) (k : A -> M S B) : M S B :=
  fun s =>
    match c s with
    | (Ok a, s') => k a s'
    | (Raise e, s') => (Raise e, s')
    end.

(** [try: body / except Exception as e: handler e]. *)
Definition try_except {S A} (body : M S A) (handler : exn -> M S A) : M S A :=
  fun s =>
    match body s with
    | (Ok a, s') => (Ok a, s')
    | (Raise e, s') => handler e s'
    end.

Declare Scope py_scope.
Delimit Scope py_scope with py.
Notation "x <- c ;; k" := (bind c (fun x => k))
  (at level 100, c at next level, right associativity) : py_scope.
Notation "c ;; k" := (bind c (fun _ => k))
  (at level 100, right associativity) : py_scope.
Local Open Scope py_scope.

(** [for x in xs: body x]. *)
Fixpoint for_each {S A} (xs : list A) (body : A -> M S unit) : M S unit :=
  match xs with
  | [] => ret tt
  | x :: xs' => body x ;; for_each xs' body
  end.

Definition emit (ev : event) : W unit :=
  fun w => (Ok tt, set_trace (trace w ++ [ev]) w).

Definition logging_info (msg : string) : W unit :=
  fun w => (Ok tt, set_log (log w ++ [(INFO, msg)]) w).

Definition logging_error (msg : string) : W unit :=
  fun w => (Ok tt, set_log (log w ++ [(ERROR, msg)]) w).

(** A clock read returns the current reading and moves to the next one. *)
Definition read_clock : W DateTime :=
  fun w =>
    match clock_next w with
    | [] => (Ok (clock_now w), w)
    | t :: ts => (Ok (clock_now w), set_clock t ts w)
    end.

(** [datetime.date.today()]. *)
Definition date_today : W Date := t <- read_clock ;; ret (date_of t).

(** [datetime.datetime.now()]. *)
Definition datetime_now : W DateTime := read_clock.

(** ** [os]: the calls the script makes *)

Module Os.
Import PyStr.

(** [os.path.exists(path)]: [os.stat] succeeds. *)
Definition path_exists (path : string) : W bool :=
  fun w => (Ok (bool_decide (is_Some (fs w !! path))), w).

(** The directory an entry is created in; the empty head of a
    relative one-component path is the current directory. *)
Definition parent_node (w : World) (head : string) : option node :=
  if String.eqb head "" then Some (Dir (cwd_writable w)) else fs w !! head.

Definition quoted (path : string) : string := "'" +:+ path +:+ "'".

(** [os.mkdir(name)]: one level, no parents.  The kernel resolves the
    parent first, then refuses an existing name, then checks that the
    parent may be written. *)
Definition mkdir (name : string) : W unit :=
  emit (EvMkdir name) ;;
  fun w =>
    if String.eqb name "" then
      (Raise (mkExn FileNotFoundError
                ("[Errno 2] No such file or directory: " +:+ quoted name)), w)
    else
      match parent_node w (fst (OsPath.split name)) with
      | None =>
          (Raise (mkExn FileNotFoundError
                    ("[Errno 2] No such file or directory: " +:+ quoted name)), w)
      | Some File =>
          (Raise (mkExn NotADirectoryError
                    ("[Errno 20] Not a directory: " +:+ quoted name)), w)
      | Some (Dir writable) =>
          match fs w !! name with
          | Some _ =>
              (Raise (mkExn FileExistsError
                        ("[Errno 17] File exists: " +:+ quoted name)), w)
          | None =>
              if writable then (Ok tt, set_fs (<[name := Dir true]> (fs w)) w)
              else
                (Raise (mkExn PermissionError
                          ("[Errno 13] Permission denied: " +:+ quoted name)), w)
          end
      end.

(** [os.makedirs(name)] with [exist_ok=False]: create the missing
    ancestors, then the leaf; the final [mkdir] re-raises whatever it
    gets.  The recursion is on the head of the path, which is shorter
    than the path; [fuel] bounds it. *)
Fixpoint makedirs_fuel (fuel : nat) (name : string) : W unit :=
  let '(head, tail) := OsPath.split name in
  let '(head, tail) :=
    if String.eqb tail "" then OsPath.split head else (head, tail) in
  head_exists <- path_exists head ;;
  if (negb (String.eqb head "") && negb (String.eqb tail "")
      && negb head_exists)%bool
  then
    match fuel with
    | O => raise (mkExn FileNotFoundError "path too deep")
    | S fuel' =>
        try_except (makedirs_fuel fuel' head)
          (fun e =>
             match exn_cls e with
             | FileExistsError => ret tt
             | _ => raise e
             end) ;;
        if String.eqb tail "." then ret tt else mkdir name
    end
  else mkdir name.

Definition makedirs (name : string) : W unit :=
  makedirs_fuel (String.length name) name.

End Os.

(** ** [pyodbc]: the calls the script makes *)

Module Pyodbc.

(** The scripted outcome of the next ODBC call; an exhausted script
    means the call works. *)
Definition next_outcome : W (option string) :=
  fun w =>
    match db_outcomes w with
    | [] => (Ok None, w)
    | o :: rest => (Ok o, set_db_outcomes rest w)
    end.

Definition scripted : W unit :=
  o <- next_outcome ;;
  match o with
  | Some msg => raise (mkExn PyodbcError msg)
  | None => ret tt
  end.

(** Calls on a closed handle are refused by the driver. *)
Definition require_open (handle : nat) : W unit :=
  fun w =>
    match conns w !! handle with
    | Some ConnOpen => (Ok tt, w)
    | _ => (Raise (mkExn PyodbcError "Attempt to use a closed connection."), w)
    end.

(** [pyodbc.connect(connection_string)]: a new open handle. *)
Definition connect (connection_string : string) : W nat :=
  emit (EvConnect connection_string) ;;
  scripted ;;
  fun w => (Ok (length (conns w)), set_conns (conns w ++ [ConnOpen]) w).

(** [connection.cursor()]; the cursor is identified with its handle. *)
Definition cursor (handle : nat) : W nat :=
  emit (EvCursor handle) ;;
  require_open handle ;;
  scripted ;;
  ret handle.

(** [cursor.execute(sql)]. *)
Definition execute (handle : nat) (sql : string) : W unit :=
  emit (EvExecute handle sql) ;;
  require_open handle ;;
  scripted.

(** [cursor.commit()]. *)
Definition commit (handle : nat) : W unit :=
  emit (EvCommit handle) ;;
  require_open handle ;;
  scripted.

(** [connection.close()]: the handle is closed when the call works. *)
Definition close (handle : nat) : W unit :=
  emit (EvClose handle) ;;
  require_open handle ;;
  scripted ;;
  fun w => (Ok tt, set_conns (<[handle := ConnClosed]> (conns w)) w).

End Pyodbc.

(** ** [smtplib]: the calls the script makes *)

Module Smtplib.

Definition next_outcome : W (option string) :=
  fun w =>
    match smtp_outcomes w with
    | [] => (Ok None, w)
    | o :: rest => (Ok o, set_smtp_outcomes rest w)
    end.

Definition scripted : W unit :=
  o <- next_outcome ;;
  match o with
  | Some msg => raise (mkExn SMTPException msg)
  | None => ret tt
  end.

(** [smtplib.SMTP(server, port)]. *)
Definition SMTP (server : string) (port : Z) : W unit :=
  emit (EvSmtpOpen server port) ;; scripted.

Definition starttls : W unit := emit EvStartTls ;; scripted.

Definition login (user password : string) : W unit :=
  emit (EvLogin user password) ;; scripted.

Definition sendmail (from_email to_email subject body : string) : W unit :=
  emit (EvSendmail from_email to_email subject body) ;; scripted.

(** [SMTP.__exit__]: QUIT is sent however the block ended. *)
Definition quit : W unit := emit EvSmtpQuit ;; scripted.

(** [with smtplib.SMTP(server, port) as server: block].  An exception
    raised while leaving replaces the one raised by the block. *)
Definition with_SMTP {A} (server : string) (port : Z) (block : W A) : W A :=
  SMTP server port ;;
  fun w =>
    let '(r, w1) := block w in
    match quit w1 with
    | (Ok _, w2) => (r, w2)
    | (Raise e, w2) => (Raise e, w2)
    end.

End Smtplib.

(** ** The script *)

Definition connect_to_sql_server (server database username password : string)
  : W nat :=
  try_except
    (let connection_string :=
       "DRIVER={ODBC Driver 18 for SQL Server};SERVER=" +:+ server
       +:+ ";DATABASE=" +:+ database +:+ ";UID=" +:+ username
       +:+ ";PWD=" +:+ password +:+ ";Encrypt=no;TrustServerCertificate=yes;" in
     connection <- Pyodbc.connect connection_string ;;
     logging_info "Connected to SQL Server successfully." ;;
     ret connection)
    (fun e =>
       logging_error ("Failed to connect to SQL Server: " +:+ exn_text e) ;;
       raise e).

Definition create_backup_directory (base_dir : string) : W string :=
  today <- date_today ;;
  let year_dir := OsPath.join base_dir (PyStr.str (d_year today)) in
  let month_dir := OsPath.join year_dir (PyStr.zfill 2 (PyStr.str (d_month today))) in
  let day_dir := OsPath.join month_dir (PyStr.zfill 2 (PyStr.str (d_day today))) in
  for_each [year_dir; month_dir; day_dir]
    (fun directory =>
       found <- Os.path_exists directory ;;
       if negb found then
         Os.makedirs directory ;;
         logging_info ("Created directory: " +:+ directory)
       else ret tt) ;;
  ret day_dir.

Definition backup_database (connection : nat) (database_name backup_dir : string)
  : W string :=
  try_except
    (cursor <- Pyodbc.cursor connection ;;
     now <- datetime_now ;;
     let timestamp := Strftime.Ymd_HMS now in
     let backup_filename := database_name +:+ "_backup_" +:+ timestamp +:+ ".bak" in
     let backup_path := OsPath.join backup_dir backup_filename in
     let backup_sql :=
       "BACKUP DATABASE [" +:+ database_name +:+ "] TO DISK = N'" +:+ backup_path
       +:+ "' WITH NOFORMAT, NOINIT, NAME = N'" +:+ database_name
       +:+ "-Full Database Backup', SKIP, NOREWIND, NOUNLOAD, STATS = 10" in
     Pyodbc.execute cursor backup_sql ;;
     Pyodbc.commit cursor ;;
     logging_info ("Backup of database " +:+ database_name
                   +:+ " completed successfully. Saved to " +:+ backup_path) ;;
     ret backup_path)
    (fun e =>
       logging_error ("Failed to back up the database: " +:+ exn_text e) ;;
       raise e).

(** The [with smtplib.SMTP(...)] statement of [send_email_notification]. *)
Definition smtp_session
    (subject body from_email to_email smtp_server : string) (smtp_port : Z)
    (smtp_user smtp_password : string) : W unit :=
  Smtplib.with_SMTP smtp_server smtp_port
    (Smtplib.starttls ;;
     Smtplib.login smtp_user smtp_password ;;
     Smtplib.sendmail from_email to_email subject body ;;
     logging_info "Email notification sent successfully.").

Definition send_email_notification
    (subject body from_email to_email smtp_server : string) (smtp_port : Z)
    (smtp_user smtp_password : string) : W unit :=
  emit (EvNotify subject body to_email) ;;
  try_except
    (smtp_session subject body from_email to_email smtp_server smtp_port
       smtp_user smtp_password)
    (fun e =>
       logging_error ("Failed to send email notification: " +:+ exn_text e)).

(** *** Local variables of [perform_backup]

    [perform_backup] binds its configuration inside the [try] block and
    reads it again in the [except] block, so its local variables are
    kept in an explicit frame: reading a name that was never bound
    raises [UnboundLocalError], as in Python. *)

Inductive pyval : Type :=
  | VStr (s : string)
  | VInt (z : Z)
  | VConn (handle : nat).

Definition Locals : Type := list (string * pyval).

Abbreviation P := (M (Locals * World)).

Fixpoint lookup_local (name : string) (l : Locals) : option pyval :=
  match l with
  | [] => None
  | (n, v) :: l' => if String.eqb name n then Some v else lookup_local name l'
  end.

(** [name = v]. *)
Definition store (name : string) (v : pyval) : P unit :=
  fun s => (Ok tt, ((name, v) :: fst s, snd s)).

(** Reading the local variable [name]. *)
Definition load (name : string) : P pyval :=
  fun s =>
    match lookup_local name (fst s) with
    | Some v => (Ok v, s)
    | None =>
        (Raise (mkExn UnboundLocalError
                  ("cannot access local variable " +:+ Os.quoted name
                   +:+ " where it is not associated with a value")), s)
    end.

(** Calling a function of the script: it works on the world and leaves
    the caller's frame alone. *)
Definition call {A} (c : W A) : P A :=
  fun s => (fst (c (snd s)), (fst s, snd (c (snd s)))).

(** Truth value of an object, as [if x:] tests it. *)
Definition truthy (v : pyval) : bool :=
  match v with
  | VStr s => negb (String.eqb s "")
  | VInt z => negb (Z.eqb z 0)
  | VConn _ => true
  end.

(** [f"{v}"]. *)
Definition fmt (v : pyval) : string :=
  match v with
  | VStr s => s
  | VInt z => pretty z
  | VConn _ => "<pyodbc.Connection object>"
  end.

(** The callee's use of an argument as a string, a port or a connection. *)
Definition as_str (v : pyval) : P string :=
  match v with
  | VStr s => ret s
  | _ => raise (mkExn TypeError "expected str")
  end.

Definition as_int (v : pyval) : P Z :=
  match v with
  | VInt z => ret z
  | _ => raise (mkExn TypeError "expected int")
  end.

Definition as_conn (v : pyval) : P nat :=
  match v with
  | VConn h => ret h
  | _ => raise (mkExn TypeError "expected a connection")
  end.

(** The call [send_email_notification(subject, body, smtp_user,
    notify_email, smtp_server, smtp_port, smtp_user, smtp_password)],
    arguments read left to right. *)
Definition call_send_email_notification : P unit :=
  subject <- load "subject" ;; subject <- as_str subject ;;
  body <- load "body" ;; body <- as_str body ;;
  from_email <- load "smtp_user" ;; from_email <- as_str from_email ;;
  to_email <- load "notify_email" ;; to_email <- as_str to_email ;;
  smtp_server <- load "smtp_server" ;; smtp_server <- as_str smtp_server ;;
  smtp_port <- load "smtp_port" ;; smtp_port <- as_int smtp_port ;;
  smtp_user <- load "smtp_user" ;; smtp_user <- as_str smtp_user ;;
  smtp_password <- load "smtp_password" ;; smtp_password <- as_str smtp_password ;;
  call (send_email_notification subject body from_email to_email
          smtp_server smtp_port smtp_user smtp_password).

(** The [try] suite of [perform_backup]. *)
Definition perform_backup_try : P unit :=
  store "server" (VStr "YOUR_SERVER") ;;
  store "database" (VStr "YOUR_DATABASE") ;;
  store "username" (VStr "YOUR_USERNAME") ;;
  store "password" (VStr "YOUR_PASSWORD") ;;
  store "backup_dir" (VStr "/path/to/backup") ;;
  store "notify_email" (VStr "recipient@example.com") ;;
  store "smtp_server" (VStr "smtp.example.com") ;;
  store "smtp_port" (VInt 587) ;;
  store "smtp_user" (VStr "smtp_user") ;;
  store "smtp_password" (VStr "smtp_password") ;;

  base_dir <- load "backup_dir" ;; base_dir <- as_str base_dir ;;
  day_dir <- call (create_backup_directory base_dir) ;;
  store "backup_dir" (VStr day_dir) ;;

  server <- load "server" ;; server <- as_str server ;;
  database <- load "database" ;; database <- as_str database ;;
  username <- load "username" ;; username <- as_str username ;;
  password <- load "password" ;; password <- as_str password ;;
  connection <- call (connect_to_sql_server server database username password) ;;
  store "connection" (VConn connection) ;;

  connection <- load "connection" ;; connection <- as_conn connection ;;
  database <- load "database" ;; database <- as_str database ;;
  backup_dir <- load "backup_dir" ;; backup_dir <- as_str backup_dir ;;
  backup_path <- call (backup_database connection database backup_dir) ;;
  store "backup_path" (VStr backup_path) ;;

  connection <- load "connection" ;; connection <- as_conn connection ;;
  call (Pyodbc.close connection) ;;
  call (logging_info "Database connection closed.") ;;

  notify_email <- load "notify_email" ;;
  if truthy notify_email then
    database <- load "database" ;;
    store "subject" (VStr ("Backup Success: " +:+ fmt database)) ;;
    database <- load "database" ;;
    backup_path <- load "backup_path" ;;
    store "body" (VStr ("Backup of database " +:+ fmt database
                        +:+ " completed successfully. Backup file: "
                        +:+ fmt backup_path)) ;;
    call_send_email_notification
  else ret tt.

(** The [except Exception as e] suite of [perform_backup]. *)
Definition perform_backup_except (e : exn) : P unit :=
  call (logging_error ("An error occurred: " +:+ exn_text e)) ;;
  notify_email <- load "notify_email" ;;
  if truthy notify_email then
    database <- load "database" ;;
    store "subject" (VStr ("Backup Failed: " +:+ fmt database)) ;;
    database <- load "database" ;;
    store "body" (VStr ("An error occurred during the backup of database "
                        +:+ fmt database +:+ ". Error: " +:+ exn_text e)) ;;
    call_send_email_notification
  else ret tt.

(** The names the [except] suite reads before it binds them itself. *)
Definition handler_reads : list string :=
  ["notify_email"; "database"; "smtp_user"; "smtp_server"; "smtp_port";
   "smtp_password"].

(** A call of [perform_backup]: a fresh frame, dropped on return. *)
Definition perform_backup : W unit :=
  fun w =>
    let out := try_except perform_backup_try perform_backup_except ([], w) in
    (fst out, snd (snd out)).

(** *** The scheduler loop

    [schedule] is a library; of its job bookkeeping only two things
    matter here and both are left open: whether the job is due at a
    clock reading, and how the next run is computed once it has run. *)

Section Scheduler.

Variable job : Type.
Variable should_run : job -> DateTime -> bool.
Variable schedule_next_run : job -> DateTime -> job.

(** [time.sleep(seconds)]. *)
Definition time_sleep (seconds : nat) : W unit := emit (EvSleep seconds).

(** [schedule.run_pending()] with the one job [main] registers: the
    job function is called in place, and an exception it raised would
    leave through here. *)
Definition run_pending (j : job) : W job :=
  now <- datetime_now ;;
  if should_run j now then
    emit EvRunJob ;;
    perform_backup ;;
    emit EvJobDone ;;
    last_run <- datetime_now ;;
    ret (schedule_next_run j last_run)
  else ret j.

(** The first [n] rounds of [while True: run_pending(); sleep(60)]. *)
Fixpoint main_loop (n : nat) (j : job) : W job :=
  match n with
  | O => ret j
  | S n' =>
      j' <- run_pending j ;;
      time_sleep 60 ;;
      main_loop n' j'
  end.

End Scheduler.

(** *** The run seen from outside

    The same run with the frame resolved: what [perform_backup] does
    once every local variable is replaced by the value bound to it.
    [perform_backup_unfold] below shows the two agree on every world. *)

(** The notification call with the transport settings of the script. *)
Definition notify (subject body : string) : W unit :=
  send_email_notification subject body "smtp_user" "recipient@example.com"
    "smtp.example.com" 587 "smtp_user" "smtp_password".

(** Directory, connection, backup, close: the steps that decide the
    outcome of a run. *)
Definition backup_steps : W string :=
  day_dir <- create_backup_directory "/path/to/backup" ;;
  connection <- connect_to_sql_server "YOUR_SERVER" "YOUR_DATABASE"
                  "YOUR_USERNAME" "YOUR_PASSWORD" ;;
  backup_path <- backup_database connection "YOUR_DATABASE" day_dir ;;
  Pyodbc.close connection ;;
  logging_info "Database connection closed." ;;
  ret backup_path.

Definition success_subject : string := "Backup Success: YOUR_DATABASE".

Definition success_body (backup_path : string) : string :=
  "Backup of database YOUR_DATABASE completed successfully. Backup file: "
  +:+ backup_path.

Definition failure_subject : string := "Backup Failed: YOUR_DATABASE".

Definition failure_body (e : exn) : string :=
  "An error occurred during the backup of database YOUR_DATABASE. Error: "
  +:+ exn_text e.

Definition report_failure (e : exn) : W unit :=
  logging_error ("An error occurred: " +:+ exn_text e) ;;
  notify failure_subject (failure_body e).

Definition perform_backup_flat : W unit :=
  fun w =>
    match backup_steps w with
    | (Ok backup_path, w') => notify success_subject (success_body backup_path) w'
    | (Raise e, w') => report_failure e w'
    end.

(** ** Observing a run *)

(** The notifications attempted so far: the calls of
    [send_email_notification], in order, with their subject and body. *)
Fixpoint notifications (t : list event) : list (string * string) :=
  match t with
  | [] => []
  | EvNotify subject body _ :: t' => (subject, body) :: notifications t'
  | _ :: t' => notifications t'
  end.

Definition is_fs_event (ev : event) : bool :=
  match ev with EvMkdir _ => true | _ => false end.

(** The ODBC calls: [EvConnect] is the first thing
    [connect_to_sql_server] does, [EvCursor] the first thing
    [backup_database] does. *)
Definition is_db_event (ev : event) : bool :=
  match ev with
  | EvConnect _ | EvCursor _ | EvExecute _ _ | EvCommit _ | EvClose _ => true
  | _ => false
  end.

Definition is_smtp_event (ev : event) : bool :=
  match ev with
  | EvSmtpOpen _ _ | EvStartTls | EvLogin _ _ | EvSendmail _ _ _ _ | EvSmtpQuit => true
  | _ => false
  end.

Definition is_notify_event (ev : event) : bool :=
  match ev with EvNotify _ _ _ => true | _ => false end.

(** [w'] is [w] after some more events, all of them in the class [P]. *)
Definition trace_grows (P : event -> bool) (w w' : World) : Prop :=
  exists evs, trace w' = trace w ++ evs /\ forallb P evs = true.

(** [w'] agrees with [w] on the field [f]. *)
Definition same {X} (f : World -> X) (w w' : World) : Prop := f w' = f w.

(** A computation [keeps] a relation when the world it leaves is related
    to the world it was started in, whether it returns or raises. *)
Definition keeps {A} (R : World -> World -> Prop) (c : W A) : Prop :=
  forall w, R w (snd (c w)).

(** ** The partition of a date *)

(** The three directories [create_backup_directory] derives from the
    base directory and the date it read. *)
Definition year_dir (base_dir : string) (d : Date) : string :=
  OsPath.join base_dir (PyStr.str (d_year d)).

Definition month_dir (base_dir : string) (d : Date) : string :=
  OsPath.join (year_dir base_dir d) (PyStr.zfill 2 (PyStr.str (d_month d))).

Definition day_dir (base_dir : string) (d : Date) : string :=
  OsPath.join (month_dir base_dir d) (PyStr.zfill 2 (PyStr.str (d_day d))).

(** The body of the loop of [create_backup_directory]. *)
Definition ensure_directory (directory : string) : W unit :=
  found <- Os.path_exists directory ;;
  if negb found then
    Os.makedirs directory ;;
    logging_info ("Created directory: " +:+ directory)
  else ret tt.

(** The file name [backup_database] builds from the database name and
    the reading of the clock. *)
Definition artifact_name (database_name : string) (t : DateTime) : string :=
  database_name +:+ "_backup_" +:+ Strftime.Ymd_HMS t +:+ ".bak".

(** The state of the clock: the next reading and those after it. *)
Definition clock_of (w : World) : DateTime * list DateTime :=
  (clock_now w, clock_next w).

(** Every entry of the file system of [w] is still there in [w']. *)
Definition fs_grows (w w' : World) : Prop :=
  forall path n, fs w !! path = Some n -> fs w' !! path = Some n.

(** Nothing lives below a regular file, and nothing without its parent
    directory: what a real file system guarantees about the three
    partition directories. *)
Definition partition_wf (base_dir : string) (d : Date) (m : gmap string node) : Prop :=
  (is_Some (m !! month_dir base_dir d) ->
   exists wr, m !! year_dir base_dir d = Some (Dir wr)) /\
  (is_Some (m !! day_dir base_dir d) ->
   exists wr, m !! month_dir base_dir d = Some (Dir wr)).

(** ** The scheduler's own events *)

Definition is_job_event (ev : event) : bool :=
  match ev with EvRunJob | EvJobDone => true | _ => false end.

(** ** Reading formatted fields back *)

Definition is_digit (c : ascii) : bool :=
  ((48 <=? nat_of_ascii c)%nat && (nat_of_ascii c <=? 57)%nat)%bool.

Fixpoint all_digits (s : string) : bool :=
  match s with
  | EmptyString => true
  | String c r => is_digit c && all_digits r
  end.

(** [int(s)] for a string of digits. *)
Fixpoint parse_nat_from (acc : nat) (s : string) : nat :=
  match s with
  | EmptyString => acc
  | String c r => parse_nat_from (10 * acc + (nat_of_ascii c - 48)) r
  end.

Definition parse_nat (s : string) : nat := parse_nat_from 0 s.

(** [p k] for every [k < n]. *)
Fixpoint all_below (n : nat) (p : nat -> bool) : bool :=
  match n with
  | O => true
  | S k => p k && all_below k p
  end.

(** ** Sample worlds *)

Module Sample.

(** A Friday, 08:00:00. *)
Definition friday_8am : DateTime := mkDateTime 2024 3 8 8 0 0.

(** The base directory exists and is writable; nothing is under it. *)
Definition base_only : gmap string node :=
  <["/path/to/backup" := Dir true]>
    (<["/path/to" := Dir true]>
       (<["/path" := Dir true]> (<["/" := Dir true]> ∅))).

(** Everything works: the clock moves one second between reads. *)
Definition all_fine : World :=
  mkWorld friday_8am [mkDateTime 2024 3 8 8 0 1] base_only true [] [] [] [] [].

(** The year segment is a regular file. *)
Definition year_is_file : World :=
  set_fs (<["/path/to/backup/2024" := File]> base_only) all_fine.

(** The month segment is a regular file. *)
Definition month_is_file : World :=
  set_fs (<["/path/to/backup/2024/03" := File]>
            (<["/path/to/backup/2024" := Dir true]> base_only)) all_fine.

(** The day segment is a regular file. *)
Definition day_is_file : World :=
  set_fs (<["/path/to/backup/2024/03/08" := File]>
            (<["/path/to/backup/2024/03" := Dir true]>
               (<["/path/to/backup/2024" := Dir true]> base_only))) all_fine.

(** The base directory may not be written. *)
Definition base_read_only : World :=
  set_fs (<["/path/to/backup" := Dir false]> base_only) all_fine.

(** The server refuses the login. *)
Definition login_refused : World :=
  set_db_outcomes [Some "Login failed for user 'YOUR_USERNAME'."] all_fine.

(** Connecting and opening a cursor work, the BACKUP statement fails. *)
Definition backup_fails : World :=
  set_db_outcomes [None; None; Some "Operating system error 112 (disk full)."]
    all_fine.

(** The mail relay cannot be reached. *)
Definition relay_down : World :=
  set_smtp_outcomes [Some "[Errno 111] Connection refused"] all_fine.

(** Two runs within one second: every reading of the clock is the
    same. *)
Definition same_second : World :=
  mkWorld friday_8am [friday_8am; friday_8am; friday_8am]
    base_only true [] [] [] [] [].

(** The directory is prepared just before midnight, the file is named
    just after. *)
Definition over_midnight : World :=
  mkWorld (mkDateTime 2024 3 8 23 59 59) [mkDateTime 2024 3 9 0 0 1]
    base_only true [] [] [] [] [].

End Sample.

(** ** More to observe *)

(** The BACKUP statement [backup_database] sends for a database and a
    target path. *)
Definition backup_statement (database_name backup_path : string) : string :=
  "BACKUP DATABASE [" +:+ database_name +:+ "] TO DISK = N'" +:+ backup_path
  +:+ "' WITH NOFORMAT, NOINIT, NAME = N'" +:+ database_name
  +:+ "-Full Database Backup', SKIP, NOREWIND, NOUNLOAD, STATS = 10".

(** The connection string [connect_to_sql_server] builds. *)
Definition connection_string_of (server database username password : string)
  : string :=
  "DRIVER={ODBC Driver 18 for SQL Server};SERVER=" +:+ server
  +:+ ";DATABASE=" +:+ database +:+ ";UID=" +:+ username
  +:+ ";PWD=" +:+ password +:+ ";Encrypt=no;TrustServerCertificate=yes;".

(** How many events of a class a trace holds. *)
Definition count_events (P : event -> bool) (t : list event) : nat :=
  length (List.filter P t).

Definition is_connect_event (ev : event) : bool :=
  match ev with EvConnect _ => true | _ => false end.

Definition is_execute_event (ev : event) : bool :=
  match ev with EvExecute _ _ => true | _ => false end.

Definition is_sleep_event (ev : event) : bool :=
  match ev with EvSleep _ => true | _ => false end.

Definition is_run_event (ev : event) : bool :=
  match ev with EvRunJob => true | _ => false end.

(** The file system of [w'] is that of [w] with, at most, writable
    directories added: nothing removed, nothing replaced. *)
Definition fs_gains_dirs (w w' : World) : Prop :=
  (forall path n, fs w !! path = Some n -> fs w' !! path = Some n) /\
  (forall path n, fs w' !! path = Some n ->
                  fs w !! path = Some n \/ n = Dir true).

(** ** More sample worlds *)

Module Scenario.

(** Everything up to the commit works, closing the connection fails. *)
Definition close_fails : World :=
  set_db_outcomes [None; None; None; None; Some "Communication link failure"]
    Sample.all_fine.

(** The year has its directory, the month does not yet. *)
Definition new_month : World :=
  set_fs (<["/path/to/backup/2024" := Dir true]> Sample.base_only)
    Sample.all_fine.

(** A scheduler job that is never due; running it would leave it as it
    is. *)
Definition never_due (j : unit) (now : DateTime) : bool := false.
Definition keep_job (j : unit) (last_run : DateTime) : unit := j.

End Scenario.

(** ** Start-up: the imports and the dependency check

    What the module does when it is loaded, before [main]: the [import]
    statements at its top, [logging.basicConfig], then
    [check_libraries()].  This part talks to the interpreter (which
    modules can be imported), to [pip] through [subprocess], to the log
    and to standard output; it has its own small world and its own
    exceptions.  What the outside does is scripted: which modules an
    import finds and the message of the [ImportError] when it does not,
    how each child process ends and which modules can be imported once
    it is done, and whether the log file can be opened. *)

Module Boot.

Inductive error_class : Type :=
  | ImportError
  | CalledProcessError
  | OSError.

Record error : Type := mkError { err_cls : error_class; err_text : string }.

Inductive outcome (A : Type) : Type :=
  | Returned (a : A)
  | Raised (e : error).
Arguments Returned {A} a.
Arguments Raised {A} e.

(** How a child process ends. *)
Inductive exit : Type :=
  | ExitZero
  | ExitNonZero (returncode : positive)
  | CannotStart (reason : string).

(** A child process to come: how it ends, and the modules an import
    finds once it is done (whatever it was asked to install). *)
Record child : Type := mkChild {
  child_exit : exit;
  importable_after : gset string
}.

Record Host : Type := mkHost {
  importable : gset string;            (* the modules an import finds *)
  import_error : string -> string;     (* the message of a failing import *)
  sys_executable : string;
  children : list child;               (* per child process; none left = exit 0 *)
  root_handlers : bool;                (* the root logger has a handler *)
  open_error : string -> option string; (* what opening a file to append raises *)
  host_log : list (log_level * string); (* calls of logging.info and .error *)
  stdout : list string;
  spawned : list (list string)         (* argv of each child, in order *)
}.

Definition B (A : Type) : Type := Host -> outcome A * Host.

Definition ret {A} (a : A) : B A := fun h => (Returned a, h).

Definition bind {A C} (c : B A) (k : A -> B C) : B C :=
  fun h =>
    match c h with
    | (Returned a, h') => k a h'
    | (Raised e, h') => (Raised e, h')
    end.

Definition class_eqb (a b : error_class) : bool :=
  match a, b with
  | ImportError, ImportError
  | CalledProcessError, CalledProcessError
  | OSError, OSError => true
  | _, _ => false
  end.

(** [try: body / except cls as e: handler e]: other exceptions pass. *)
Definition try_except_class {A} (cls : error_class) (body : B A)
    (handler : error -> B A) : B A :=
  fun h =>
    match body h with
    | (Returned a, h') => (Returned a, h')
    | (Raised e, h') =>
        if class_eqb (err_cls e) cls then handler e h' else (Raised e, h')
    end.

Declare Scope boot_scope.
Delimit Scope boot_scope with boot.
Notation "x <- c ;; k" := (bind c (fun x => k))
  (at level 100, c at next level, right associativity) : boot_scope.
Notation "c ;; k" := (bind c (fun _ => k))
  (at level 100, right associativity) : boot_scope.
Local Open Scope boot_scope.

Fixpoint for_each {A} (xs : list A) (body : A -> B unit) : B unit :=
  match xs with
  | [] => ret tt
  | x :: xs' => body x ;; for_each xs' body
  end.

Definition set_host_log (l : list (log_level * string)) (h : Host) : Host :=
  mkHost (importable h) (import_error h) (sys_executable h) (children h)
    (root_handlers h) (open_error h) l (stdout h) (spawned h).

Definition set_stdout (out : list string) (h : Host) : Host :=
  mkHost (importable h) (import_error h) (sys_executable h) (children h)
    (root_handlers h) (open_error h) (host_log h) out (spawned h).

Definition logging_info (msg : string) : B unit :=
  fun h => (Returned tt, set_host_log (host_log h ++ [(INFO, msg)]) h).

Definition logging_error (msg : string) : B unit :=
  fun h => (Returned tt, set_host_log (host_log h ++ [(ERROR, msg)]) h).

(** [print(line)]. *)
Definition print (line : string) : B unit :=
  fun h => (Returned tt, set_stdout (stdout h ++ [line]) h).

(** [importlib.import_module(name)], and the [import name] statement. *)
Definition import_module (name : string) : B unit :=
  fun h =>
    if bool_decide (name ∈ importable h) then (Returned tt, h)
    else (Raised (mkError ImportError (import_error h name)), h).

(** [logging.basicConfig(filename=..., level=logging.INFO, format=...)]:
    nothing when the root logger has a handler already; otherwise the
    file is opened at once, to append, and the handler is installed. *)
Definition basicConfig (filename : string) : B unit :=
  fun h =>
    if root_handlers h then (Returned tt, h)
    else
      match open_error h filename with
      | Some reason => (Raised (mkError OSError reason), h)
      | None =>
          (Returned tt,
           mkHost (importable h) (import_error h) (sys_executable h)
             (children h) true (open_error h) (host_log h) (stdout h)
             (spawned h))
      end.

(** [repr] of a list of strings. *)
Fixpoint repr_items (items : list string) : string :=
  match items with
  | [] => ""
  | [x] => Os.quoted x
  | x :: rest => Os.quoted x +:+ ", " +:+ repr_items rest
  end.

Definition repr_list (items : list string) : string :=
  "[" +:+ repr_items items +:+ "]".

(** The host once the next child is done: [argv] is recorded when the
    child was started. *)
Definition after_child (started : bool) (argv : list string) (h : Host) : Host :=
  mkHost
    (match children h with
     | c :: _ => if started then importable_after c else importable h
     | [] => importable h
     end)
    (import_error h) (sys_executable h) (tl (children h))
    (root_handlers h) (open_error h) (host_log h) (stdout h)
    (if started then spawned h ++ [argv] else spawned h).

(** How the next child ends. *)
Definition next_exit (h : Host) : exit :=
  match children h with
  | c :: _ => child_exit c
  | [] => ExitZero
  end.

(** [subprocess.check_call(argv)]. *)
Definition check_call (argv : list string) : B unit :=
  fun h =>
    match next_exit h with
    | ExitZero => (Returned tt, after_child true argv h)
    | ExitNonZero returncode =>
        (Raised (mkError CalledProcessError
                   ("Command '" +:+ repr_list argv
                    +:+ "' returned non-zero exit status "
                    +:+ pretty (Zpos returncode) +:+ ".")),
         after_child true argv h)
    | CannotStart reason =>
        (Raised (mkError OSError reason), after_child false argv h)
    end.

(** [sys.executable]. *)
Definition executable : B string := fun h => (Returned (sys_executable h), h).

(** The [REQUIRED_LIBRARIES] table, in the order it is written: what is
    imported, and what is passed to [import_module] and to [pip]. *)
Definition REQUIRED_LIBRARIES : list (string * option string) :=
  [("pyodbc", Some "pyodbc"); ("smtplib", None); ("email", None);
   ("schedule", Some "schedule")].

(** [if module_name:] on a string or [None]. *)
Definition given (module_name : option string) : option string :=
  match module_name with
  | Some name => if String.eqb name "" then None else Some name
  | None => None
  end.

Definition install_package (package_name : string) : B unit :=
  try_except_class CalledProcessError
    (python <- executable ;;
     check_call [python; "-m"; "pip"; "install"; package_name] ;;
     logging_info (package_name +:+ " installed successfully."))
    (fun e =>
       logging_error ("Failed to install " +:+ package_name +:+ ": "
                      +:+ err_text e) ;;
       print ("Failed to install " +:+ package_name
              +:+ ". Please install it manually.")).

(** The body of the loop of [check_libraries]. *)
Definition check_library (entry : string * option string) : B unit :=
  let '(package, module_name) := entry in
  try_except_class ImportError
    (match given module_name with
     | Some name => import_module name
     | None => ret tt
     end ;;
     logging_info (package +:+ " is installed."))
    (fun _ =>
       logging_error (package +:+ " is not installed. Attempting to install...") ;;
       print (package +:+ " is not installed. Attempting to install...") ;;
       match given module_name with
       | Some name => install_package name
       | None =>
           print (package +:+ " is a standard library and should be available in your Python installation.")
       end).

Definition check_libraries : B unit := for_each REQUIRED_LIBRARIES check_library.

(** The modules the [import] statements at the top of the file load, in
    order. *)
Definition top_level_imports : list string :=
  ["os"; "datetime"; "logging"; "importlib"; "subprocess"; "sys"; "pyodbc";
   "smtplib"; "email.mime.text"; "email.mime.multipart"; "schedule"; "time"].

(** Loading the module, up to and including the call
    [check_libraries()] at its top level. *)
Definition load_module : B unit :=
  for_each top_level_imports import_module ;;
  basicConfig "database_backup.log" ;;
  check_libraries.

(** [line] ends with [suffix]. *)
Definition ends_with (suffix line : string) : bool :=
  let n := String.length line - String.length suffix in
  String.eqb (String.substring n (String.length suffix) line) suffix
  && (String.length suffix <=? String.length line)%nat.

(** The [pip] call for a package. *)
Definition pip_install (h : Host) (package_name : string) : list string :=
  [sys_executable h; "-m"; "pip"; "install"; package_name].

(** The pip calls of a check that runs to its end: one for [pyodbc] if
    it cannot be imported, then one for [schedule] if it cannot be
    imported when its turn comes, that is after the child for [pyodbc]
    if there was one. *)
Definition importable_at_schedule (h : Host) : gset string :=
  if bool_decide ("pyodbc" ∈ importable h) then importable h
  else importable (after_child true (pip_install h "pyodbc") h).

Definition pip_calls (h : Host) : list (list string) :=
  (if bool_decide ("pyodbc" ∈ importable h) then []
   else [pip_install h "pyodbc"])
  ++ (if bool_decide ("schedule" ∈ importable_at_schedule h) then []
      else [pip_install h "schedule"]).

(** Hosts to try things on. *)
Definition no_module_named (name : string) : string :=
  "No module named " +:+ Os.quoted name.

Definition everything_there : Host :=
  mkHost (list_to_set top_level_imports) no_module_named "/usr/bin/python3"
    [] false (fun _ => None) [] [] [].

(** Only the two third-party modules can be imported: no [smtplib], no
    [email]. *)
Definition only_pyodbc_and_schedule : Host :=
  mkHost (list_to_set ["pyodbc"; "schedule"]) no_module_named
    "/usr/bin/python3" [] false (fun _ => None) [] [] [].

(** Neither third-party module is there; pip exits with 0 for [pyodbc]
    and the import would still fail, and exits with 1 for [schedule]. *)
Definition nothing_installed : Host :=
  mkHost (list_to_set ["os"; "sys"]) no_module_named "/usr/bin/python3"
    [mkChild ExitZero (list_to_set ["os"; "sys"]);
     mkChild (ExitNonZero 1) (list_to_set ["os"; "sys"])]
    false (fun _ => None) [] [] [].

End Boot.

(** * Properties *)

Example join_plain : OsPath.join "/path/to/backup" "2024" = "/path/to/backup/2024".
Proof. reflexivity. Qed.

Example join_trailing : OsPath.join "/srv/" "2024" = "/srv/2024".
Proof. reflexivity. Qed.

Example join_empty : OsPath.join "" "2024" = "2024".
Proof. reflexivity. Qed.

Example split_plain : OsPath.split "/path/to/backup/2024" = ("/path/to/backup", "2024").
Proof. reflexivity. Qed.

Example split_root : OsPath.split "/2024" = ("/", "2024").
Proof. reflexivity. Qed.

Example split_relative : OsPath.split "2024" = ("", "2024").
Proof. reflexivity. Qed.

Example split_doubled : OsPath.split "/srv//2024" = ("/srv", "2024").
Proof. reflexivity. Qed.

Example zfill_short : PyStr.zfill 2 (PyStr.str 3) = "03".
Proof. vm_compute. reflexivity. Qed.

Example zfill_long : PyStr.zfill 2 (PyStr.str 12) = "12".
Proof. vm_compute. reflexivity. Qed.


(** Whole runs, computed. *)

Example run_all_fine :
  fst (perform_backup Sample.all_fine) = Ok tt /\
  conns (snd (perform_backup Sample.all_fine)) = [ConnClosed] /\
  notifications (trace (snd (perform_backup Sample.all_fine)))
  = [("Backup Success: YOUR_DATABASE",
      "Backup of database YOUR_DATABASE completed successfully. Backup file: /path/to/backup/2024/03/08/YOUR_DATABASE_backup_20240308_080001.bak")].
Proof. vm_compute. repeat split; reflexivity. Qed.

Example run_login_refused :
  fst (perform_backup Sample.login_refused) = Ok tt /\
  conns (snd (perform_backup Sample.login_refused)) = [] /\
  notifications (trace (snd (perform_backup Sample.login_refused)))
  = [("Backup Failed: YOUR_DATABASE",
      "An error occurred during the backup of database YOUR_DATABASE. Error: Login failed for user 'YOUR_USERNAME'.")].
Proof. vm_compute. repeat split; reflexivity. Qed.

Example run_base_read_only :
  notifications (trace (snd (perform_backup Sample.base_read_only)))
  = [("Backup Failed: YOUR_DATABASE",
      "An error occurred during the backup of database YOUR_DATABASE. Error: [Errno 13] Permission denied: '/path/to/backup/2024'")].
Proof. vm_compute. reflexivity. Qed.

Example run_month_is_file :
  notifications (trace (snd (perform_backup Sample.month_is_file)))
  = [("Backup Failed: YOUR_DATABASE",
      "An error occurred during the backup of database YOUR_DATABASE. Error: [Errno 20] Not a directory: '/path/to/backup/2024/03/08'")].
Proof. vm_compute. reflexivity. Qed.

(** ** Stepping through a run *)

(** [send_email_notification] swallows whatever the transport raises. *)
Lemma send_email_notification_returns
    (subject body from_email to_email smtp_server : string) (smtp_port : Z)
    (smtp_user smtp_password : string) (w : World) :
  fst (send_email_notification subject body from_email to_email smtp_server
         smtp_port smtp_user smtp_password w) = Ok tt.
Proof.
  unfold send_email_notification, bind at 1, emit, try_except.
  match goal with |- context [smtp_session ?a ?b ?c ?d ?e ?f ?g ?h ?x] =>
    destruct (smtp_session a b c d e f g h x) as [[[]|err] w1] end; reflexivity.
Qed.

Ltac run_frame :=
  cbn -[create_backup_directory connect_to_sql_server backup_database
        Pyodbc.close send_email_notification];
  cbv beta iota delta [String.append].

Ltac run_notify :=
  match goal with
  | |- context [send_email_notification ?a ?b ?c ?d ?e ?f ?g ?h ?x] =>
      let H := fresh "Hsent" in
      pose proof (send_email_notification_returns a b c d e f g h x) as H;
      destruct (send_email_notification a b c d e f g h x) as [? ?];
      simpl in H; subst; run_frame; reflexivity
  end.

Lemma perform_backup_unfold (w : World) : perform_backup w = perform_backup_flat w.
Proof.
  unfold perform_backup, perform_backup_flat, backup_steps, try_except,
    perform_backup_try, perform_backup_except, report_failure, notify,
    call_send_email_notification, bind, success_subject, success_body,
    failure_subject, failure_body.
  run_frame.
  destruct (create_backup_directory "/path/to/backup" w) as [[day_dir|e] w1];
    run_frame; [|run_notify].
  destruct (connect_to_sql_server _ _ _ _ w1) as [[connection|e] w2];
    run_frame; [|run_notify].
  destruct (backup_database connection _ day_dir w2) as [[backup_path|e] w3];
    run_frame; [|run_notify].
  destruct (Pyodbc.close connection w3) as [[[]|e] w4]; run_frame; run_notify.
Qed.


(** Running the plumbing of a computation on a symbolic world. *)
Ltac exec :=
  cbv beta iota zeta
    delta [bind ret raise try_except emit logging_info logging_error
           read_clock date_today datetime_now].

(** ** Frame rules *)

Section Keeps.

Variable R : World -> World -> Prop.
Hypothesis R_refl : forall w, R w w.
Hypothesis R_trans : forall a b c, R a b -> R b c -> R a c.

Lemma keeps_ret {A} (a : A) : keeps R (ret a).
Proof. intros w. apply R_refl. Qed.

Lemma keeps_raise {A} (e : exn) : keeps R (@raise World A e).
Proof. intros w. apply R_refl. Qed.

Lemma keeps_bind {A B} (c : W A) (k : A -> W B) :
  keeps R c -> (forall a, keeps R (k a)) -> keeps R (bind c k).
Proof.
  intros Hc Hk w. unfold bind. specialize (Hc w).
  destruct (c w) as [[a|e] w1]; simpl in *; [|assumption].
  eapply R_trans; [eassumption|apply Hk].
Qed.

Lemma keeps_try_except {A} (body : W A) (handler : exn -> W A) :
  keeps R body -> (forall e, keeps R (handler e)) ->
  keeps R (try_except body handler).
Proof.
  intros Hc Hk w. unfold try_except. specialize (Hc w).
  destruct (body w) as [[a|e] w1]; simpl in *; [assumption|].
  eapply R_trans; [eassumption|apply Hk].
Qed.

Lemma keeps_for_each {A} (xs : list A) (body : A -> W unit) :
  (forall x, keeps R (body x)) -> keeps R (for_each xs body).
Proof.
  intros Hb. induction xs as [|x xs IH]; simpl.
  - apply keeps_ret.
  - apply keeps_bind; [apply Hb|intros _; exact IH].
Qed.

Lemma keeps_if {A} (b : bool) (c1 c2 : W A) :
  keeps R c1 -> keeps R c2 -> keeps R (if b then c1 else c2).
Proof. now destruct b. Qed.

End Keeps.

Lemma trace_grows_refl P w : trace_grows P w w.
Proof. exists []. split; [now rewrite app_nil_r|reflexivity]. Qed.

Lemma trace_grows_trans P a b c :
  trace_grows P a b -> trace_grows P b c -> trace_grows P a c.
Proof.
  intros (e1 & H1 & F1) (e2 & H2 & F2). exists (e1 ++ e2). split.
  - now rewrite H2, H1, app_assoc.
  - rewrite forallb_app, F1, F2. reflexivity.
Qed.

Lemma trace_grows_weaken (P Q : event -> bool) w w' :
  (forall ev, P ev = true -> Q ev = true) ->
  trace_grows P w w' -> trace_grows Q w w'.
Proof.
  intros HPQ (evs & H & F). exists evs. split; [assumption|].
  rewrite forallb_forall in *. auto.
Qed.

Lemma same_refl {X} (f : World -> X) w : same f w w.
Proof. reflexivity. Qed.

Lemma same_trans {X} (f : World -> X) a b c :
  same f a b -> same f b c -> same f a c.
Proof. unfold same. congruence. Qed.

Create HintDb frame discriminated.

Lemma fs_grows_refl w : fs_grows w w.
Proof. intros path n H. exact H. Qed.

Lemma fs_grows_trans a b c : fs_grows a b -> fs_grows b c -> fs_grows a c.
Proof. intros H1 H2 path n H. apply H2, H1, H. Qed.

Ltac frame_rel :=
  first
    [ intros ?;
      first [apply trace_grows_refl | apply same_refl | apply fs_grows_refl]
    | intros ? ? ?;
      first [apply trace_grows_trans | apply same_trans | apply fs_grows_trans] ].

(** A primitive touches at most one field of the world and adds no
    event. *)
Ltac frame_prim :=
  let w := fresh "w" in
  intros w;
  unfold logging_info, logging_error, read_clock, Os.path_exists,
    Pyodbc.next_outcome, Pyodbc.require_open, Smtplib.next_outcome, emit;
  simpl;
  repeat (match goal with
          | |- context [match ?x with _ => _ end] => destruct x; simpl
          end);
  first [ reflexivity
        | exists []; split; [now rewrite app_nil_r|reflexivity]
        | let Hp := fresh in intros ? ? Hp; exact Hp ].

Lemma emit_grows P ev : P ev = true -> keeps (trace_grows P) (emit ev).
Proof.
  intros H w. exists [ev]. split; [reflexivity|]. simpl. now rewrite H.
Qed.

#[local] Hint Extern 1 (keeps (trace_grows _) (emit _)) =>
  apply emit_grows; reflexivity : frame.

(** One structural step of a frame proof. *)
Ltac frame_step :=
  lazymatch goal with
  | |- keeps _ (bind _ _) => apply keeps_bind; [frame_rel| |intros ?]
  | |- keeps _ (try_except _ _) =>
      apply keeps_try_except; [frame_rel| |intros ?]
  | |- keeps _ (for_each _ _) => apply keeps_for_each; [frame_rel|frame_rel|intros ?]
  | |- keeps _ (ret _) => apply keeps_ret; frame_rel
  | |- keeps _ (raise _) => apply keeps_raise; frame_rel
  | |- keeps _ (if ?b then _ else _) => destruct b
  | |- keeps _ (match ?x with _ => _ end) => destruct x
  | |- keeps _ _ => solve [auto with frame | frame_prim]
  end.

Ltac frame := repeat frame_step.

Lemma mkdir_emits name : keeps (trace_grows is_fs_event) (Os.mkdir name).
Proof. unfold Os.mkdir. frame. Qed.
#[local] Hint Resolve mkdir_emits : frame.

Lemma makedirs_fuel_emits fuel name :
  keeps (trace_grows is_fs_event) (Os.makedirs_fuel fuel name).
Proof.
  revert name. induction fuel as [|fuel IH]; intros name; simpl; frame.
Qed.

Lemma makedirs_emits name : keeps (trace_grows is_fs_event) (Os.makedirs name).
Proof. apply makedirs_fuel_emits. Qed.
#[local] Hint Resolve makedirs_emits : frame.

Lemma create_backup_directory_emits base_dir :
  keeps (trace_grows is_fs_event) (create_backup_directory base_dir).
Proof. unfold create_backup_directory, date_today. frame. Qed.

Lemma db_scripted_grows P : keeps (trace_grows P) Pyodbc.scripted.
Proof. unfold Pyodbc.scripted. frame. Qed.
#[local] Hint Resolve db_scripted_grows : frame.

Lemma connect_to_sql_server_emits server database username password :
  keeps (trace_grows is_db_event)
    (connect_to_sql_server server database username password).
Proof.
  unfold connect_to_sql_server, Pyodbc.connect. frame.
Qed.

Lemma backup_database_emits connection database_name backup_dir :
  keeps (trace_grows is_db_event)
    (backup_database connection database_name backup_dir).
Proof.
  unfold backup_database, Pyodbc.cursor, Pyodbc.execute, Pyodbc.commit,
    datetime_now.
  frame.
Qed.

Lemma close_emits connection :
  keeps (trace_grows is_db_event) (Pyodbc.close connection).
Proof. unfold Pyodbc.close. frame. Qed.

Lemma smtp_scripted_grows P : keeps (trace_grows P) Smtplib.scripted.
Proof. unfold Smtplib.scripted. frame. Qed.
#[local] Hint Resolve smtp_scripted_grows : frame.

Lemma with_SMTP_emits {A} server port (block : W A) :
  keeps (trace_grows is_smtp_event) block ->
  keeps (trace_grows is_smtp_event) (Smtplib.with_SMTP server port block).
Proof.
  intros Hb. unfold Smtplib.with_SMTP, Smtplib.SMTP. frame.
  intros w. specialize (Hb w). destruct (block w) as [r w1]. simpl in *.
  assert (Hq : keeps (trace_grows is_smtp_event) Smtplib.quit)
    by (unfold Smtplib.quit; frame).
  specialize (Hq w1). destruct (Smtplib.quit w1) as [[[]|e] w2]; simpl in *;
    eapply trace_grows_trans; eassumption.
Qed.

(** The events of one call of [send_email_notification]: the call
    itself, then SMTP traffic only. *)
Lemma send_email_notification_trace
    subject body from_email to_email smtp_server smtp_port smtp_user
    smtp_password w :
  exists evs,
    trace (snd (send_email_notification subject body from_email to_email
                  smtp_server smtp_port smtp_user smtp_password w))
    = trace w ++ EvNotify subject body to_email :: evs
    /\ forallb is_smtp_event evs = true.
Proof.
  unfold send_email_notification, bind at 1, emit.
  match goal with |- context [try_except ?b ?h ?x] =>
    assert (Hk : keeps (trace_grows is_smtp_event) (try_except b h)) end.
  { frame. unfold smtp_session. apply with_SMTP_emits.
    unfold Smtplib.starttls, Smtplib.login, Smtplib.sendmail. frame. }
  match goal with |- context [try_except ?b ?h ?x] =>
    destruct (Hk x) as (evs & Ht & Hf) end.
  exists evs. split; [|assumption].
  rewrite Ht. simpl. now rewrite <- app_assoc.
Qed.

Lemma notifications_app t1 t2 :
  notifications (t1 ++ t2) = notifications t1 ++ notifications t2.
Proof.
  induction t1 as [|ev t1 IH]; [reflexivity|].
  destruct ev; simpl; rewrite ?IH; reflexivity.
Qed.

Lemma notifications_quiet evs :
  forallb (fun ev => negb (is_notify_event ev)) evs = true ->
  notifications evs = [].
Proof.
  induction evs as [|ev evs IH]; [reflexivity|]. simpl.
  rewrite andb_true_iff. intros [Hev Hevs]. destruct ev; auto; discriminate.
Qed.

Lemma forallb_weaken {A} (P Q : A -> bool) (l : list A) :
  (forall x, P x = true -> Q x = true) ->
  forallb P l = true -> forallb Q l = true.
Proof. intros HPQ. rewrite !forallb_forall. auto. Qed.

(** What [notify] adds to the list of notifications: one entry. *)
Lemma notify_once subject body w :
  fst (notify subject body w) = Ok tt /\
  exists evs,
    trace (snd (notify subject body w))
    = trace w ++ EvNotify subject body "recipient@example.com" :: evs
    /\ forallb is_smtp_event evs = true.
Proof.
  split; [apply send_email_notification_returns|].
  apply send_email_notification_trace.
Qed.

Lemma backup_steps_emits :
  keeps (trace_grows (fun ev => is_fs_event ev || is_db_event ev)) backup_steps.
Proof.
  unfold backup_steps.
  assert (Hfs : forall ev, is_fs_event ev = true ->
                           is_fs_event ev || is_db_event ev = true)
    by (intros ev ->; reflexivity).
  assert (Hdb : forall ev, is_db_event ev = true ->
                           is_fs_event ev || is_db_event ev = true)
    by (intros ev ->; apply orb_true_r).
  frame.
  - intros w. eapply trace_grows_weaken; [exact Hfs|].
    apply create_backup_directory_emits.
  - intros w. eapply trace_grows_weaken; [exact Hdb|].
    apply connect_to_sql_server_emits.
  - intros w. eapply trace_grows_weaken; [exact Hdb|].
    apply backup_database_emits.
  - intros w. eapply trace_grows_weaken; [exact Hdb|]. apply close_emits.
Qed.

Lemma perform_backup_returns w : fst (perform_backup w) = Ok tt.
Proof.
  rewrite perform_backup_unfold. unfold perform_backup_flat.
  destruct (backup_steps w) as [[backup_path|e] w1].
  - apply notify_once.
  - unfold report_failure, bind, logging_error. apply notify_once.
Qed.


Arguments perform_backup : simpl never.
Arguments backup_steps : simpl never.

(** The scheduler loop never sees an exception from the job. *)
Lemma run_pending_returns {job} (should_run : job -> DateTime -> bool)
    (schedule_next_run : job -> DateTime -> job) (j : job) (w : World) :
  exists j', fst (run_pending job should_run schedule_next_run j w) = Ok j'.
Proof.
  unfold run_pending, bind, datetime_now.
  destruct (read_clock w) as [[now|e] w1] eqn:Hclock.
  2:{ unfold read_clock in Hclock. destruct (clock_next w); discriminate. }
  destruct (should_run j now); [|eexists; reflexivity].
  unfold emit at 1.
  pose proof (perform_backup_returns (set_trace (trace w1 ++ [EvRunJob]) w1)) as Hp.
  destruct (perform_backup _) as [r w2]. cbn [fst] in Hp. subst r.
  unfold emit, read_clock. cbn [fst snd].
  destruct (clock_next _); eexists; reflexivity.
Qed.

Lemma main_loop_returns {job} (should_run : job -> DateTime -> bool)
    (schedule_next_run : job -> DateTime -> job) (n : nat) (j : job) (w : World) :
  exists j', fst (main_loop job should_run schedule_next_run n j w) = Ok j'.
Proof.
  revert j w. induction n as [|n IH]; intros j w; simpl.
  - eexists; reflexivity.
  - unfold bind at 1.
    destruct (run_pending_returns should_run schedule_next_run j w) as (j1 & Hj).
    destruct (run_pending _ _ _ j w) as [r w1]. simpl in Hj. subst r.
    unfold bind at 1. simpl. apply IH.
Qed.

(** ** Connections *)

Lemma backup_database_keeps_conns connection database_name backup_dir :
  keeps (same conns) (backup_database connection database_name backup_dir).
Proof.
  unfold backup_database, Pyodbc.cursor, Pyodbc.execute, Pyodbc.commit,
    Pyodbc.scripted, datetime_now.
  frame.
Qed.

Lemma send_email_notification_keeps_conns
    subject body from_email to_email smtp_server smtp_port smtp_user
    smtp_password :
  keeps (same conns)
    (send_email_notification subject body from_email to_email smtp_server
       smtp_port smtp_user smtp_password).
Proof.
  unfold send_email_notification, smtp_session, Smtplib.with_SMTP,
    Smtplib.SMTP, Smtplib.scripted.
  frame. intros w. simpl.
  assert (Hb : keeps (same conns)
                 (Smtplib.starttls ;;
                  Smtplib.login smtp_user smtp_password ;;
                  Smtplib.sendmail from_email to_email subject body ;;
                  logging_info "Email notification sent successfully.")).
  { unfold Smtplib.starttls, Smtplib.login, Smtplib.sendmail,
      Smtplib.scripted. frame. }
  assert (Hq : keeps (same conns) Smtplib.quit)
    by (unfold Smtplib.quit, Smtplib.scripted; frame).
  specialize (Hb w).
  destruct (bind Smtplib.starttls _ w) as [r w1]. simpl in *.
  specialize (Hq w1). destruct (Smtplib.quit w1) as [[[]|e] w2]; simpl in *;
    unfold same in *; congruence.
Qed.

(** A connection that was opened is open. *)
Lemma connect_to_sql_server_opens server database username password w h w' :
  connect_to_sql_server server database username password w = (Ok h, w') ->
  conns w' !! h = Some ConnOpen.
Proof.
  unfold connect_to_sql_server, Pyodbc.connect, Pyodbc.scripted,
    Pyodbc.next_outcome.
  exec. simpl. destruct (db_outcomes w) as [|[msg|] rest]; simpl; intros H;
    inversion H; subst; simpl;
    rewrite lookup_app_r by lia; now rewrite Nat.sub_diag.
Qed.

(** ** Strings *)

Section StringFacts.
Import PyStr.

Lemma append_cons (c : ascii) (a b : string) :
  String c a +:+ b = String c (a +:+ b).
Proof. reflexivity. Qed.

Lemma append_nil_l (s : string) : "" +:+ s = s.
Proof. reflexivity. Qed.

Lemma append_nil_r (s : string) : s +:+ "" = s.
Proof.
  induction s as [|c s IH]; [reflexivity|]. now rewrite append_cons, IH.
Qed.

Lemma append_assoc (a b c : string) : (a +:+ b) +:+ c = a +:+ (b +:+ c).
Proof.
  induction a as [|x a IH]; [reflexivity|]. now rewrite !append_cons, IH.
Qed.

Lemma append_length (a b : string) :
  String.length (a +:+ b) = String.length a + String.length b.
Proof.
  induction a as [|x a IH]; [reflexivity|].
  rewrite append_cons. simpl. now rewrite IH.
Qed.

(** Equal concatenations with equally long heads agree part by part. *)
Lemma append_inj (a b c d : string) :
  String.length a = String.length c ->
  a +:+ b = c +:+ d -> a = c /\ b = d.
Proof.
  revert c. induction a as [|x a IH]; intros [|y c] Hlen H;
    try discriminate.
  - now split.
  - rewrite !append_cons in H. inversion H; subst.
    destruct (IH c) as [-> ->]; [simpl in Hlen; lia|assumption|].
    now split.
Qed.

Lemma append_inj_l (a b d : string) : a +:+ b = a +:+ d -> b = d.
Proof. intros H. now apply (append_inj a b a d) in H. Qed.

Lemma append_inj_r (b d c : string) : b +:+ c = d +:+ c -> b = d.
Proof.
  intros H. apply (append_inj b c d c); [|assumption].
  apply (f_equal String.length) in H. rewrite !append_length in H. lia.
Qed.

Lemma is_digit_not_sep (c : ascii) : is_digit c = true -> is_sep c = false.
Proof.
  unfold is_digit, is_sep. intros H.
  destruct (Ascii.eqb_spec c "/") as [->|]; [discriminate|reflexivity].
Qed.

Lemma all_digits_no_sep (s : string) :
  all_digits s = true -> contains_sep s = false.
Proof.
  induction s as [|c s IH]; simpl; [reflexivity|].
  rewrite andb_true_iff. intros [Hc Hs].
  now rewrite (is_digit_not_sep c Hc), IH.
Qed.

Lemma all_digits_app (a b : string) :
  all_digits (a +:+ b) = all_digits a && all_digits b.
Proof.
  induction a as [|c a IH]; [reflexivity|].
  rewrite append_cons. simpl. now rewrite IH, andb_assoc.
Qed.

Lemma pretty_N_char_digit (x : N) : is_digit (pretty_N_char x) = true.
Proof. unfold pretty_N_char. repeat case_match; reflexivity. Qed.

Lemma pretty_N_go_digits (x : N) (s : string) :
  all_digits s = true -> all_digits (pretty_N_go x s) = true.
Proof.
  revert s. induction (N.lt_wf_0 x) as [x _ IH]; intros s Hs.
  assert (x = 0 \/ 0 < x)%N as [->|Hpos] by lia.
  - now rewrite pretty_N_go_0.
  - rewrite pretty_N_go_step by assumption. apply IH.
    + now apply N.div_lt.
    + simpl. now rewrite pretty_N_char_digit.
Qed.

Lemma pretty_N_go_length (x : N) (s : string) :
  String.length s <= String.length (pretty_N_go x s).
Proof.
  revert s. induction (N.lt_wf_0 x) as [x _ IH]; intros s.
  assert (x = 0 \/ 0 < x)%N as [->|Hpos] by lia.
  - now rewrite pretty_N_go_0.
  - rewrite pretty_N_go_step by assumption.
    etransitivity; [|apply IH; now apply N.div_lt]. simpl. lia.
Qed.

(** [str(n)] is a non-empty string of digits. *)
Lemma str_digits (n : nat) : all_digits (str n) = true.
Proof.
  unfold str, pretty, pretty_nat, pretty, pretty_N.
  case_decide; [reflexivity|]. now apply pretty_N_go_digits.
Qed.

Lemma str_nonempty (n : nat) : str n <> "".
Proof.
  unfold str, pretty, pretty_nat, pretty, pretty_N.
  case_decide; [discriminate|].
  rewrite pretty_N_go_step by lia.
  intros Hs. apply (f_equal String.length) in Hs.
  pose proof (pretty_N_go_length (N.of_nat n `div` 10)
                (String (pretty_N_char (N.of_nat n `mod` 10)) "")) as Hl.
  rewrite Hs in Hl. simpl in Hl. lia.
Qed.

Lemma zeros_digits (k : nat) : all_digits (zeros k) = true.
Proof. induction k; simpl; auto. Qed.

Lemma zfill_digits (width n : nat) : all_digits (zfill width (str n)) = true.
Proof.
  unfold zfill. now rewrite all_digits_app, zeros_digits, str_digits.
Qed.

Lemma zfill_nonempty (width n : nat) : zfill width (str n) <> "".
Proof.
  unfold zfill. intros H. apply (f_equal String.length) in H.
  rewrite append_length in H. simpl in H.
  pose proof (str_nonempty n) as Hn. destruct (str n); [congruence|].
  simpl in H. lia.
Qed.

(** *** Joining and splitting paths *)

Lemma no_sep_startswith (s : string) :
  contains_sep s = false -> startswith_sep s = false.
Proof.
  destruct s as [|c s]; [reflexivity|]. simpl.
  now intros [H _]%orb_false_iff.
Qed.

Lemma no_sep_endswith (s : string) :
  contains_sep s = false -> endswith_sep s = false.
Proof.
  induction s as [|c s IH]; [reflexivity|]. simpl.
  intros [Hc Hs]%orb_false_iff. destruct s; [assumption|]. now apply IH.
Qed.

Lemma endswith_sep_app (a b : string) :
  b <> "" -> endswith_sep (a +:+ b) = endswith_sep b.
Proof.
  intros Hb. induction a as [|c a IH]; [reflexivity|].
  rewrite append_cons. simpl. rewrite IH.
  destruct (a +:+ b) eqn:E; [|reflexivity].
  destruct a, b; try discriminate; congruence.
Qed.

(** What [os.path.join] does with a component that has no separator. *)
Lemma join_segment (a seg : string) :
  contains_sep seg = false ->
  OsPath.join a seg
  = if (String.eqb a "" || endswith_sep a)%bool then a +:+ seg
    else a +:+ "/" +:+ seg.
Proof.
  intros H. unfold OsPath.join. now rewrite (no_sep_startswith seg H).
Qed.

Lemma join_segment_nonempty (a seg : string) :
  contains_sep seg = false -> seg <> "" -> OsPath.join a seg <> "".
Proof.
  intros H Hne. rewrite join_segment by assumption.
  destruct (_ || _)%bool; intros E; apply (f_equal String.length) in E;
    rewrite !append_length in E; destruct seg; simpl in E; try congruence; lia.
Qed.

Lemma join_segment_endswith (a seg : string) :
  contains_sep seg = false -> seg <> "" ->
  endswith_sep (OsPath.join a seg) = false.
Proof.
  intros H Hne. rewrite join_segment by assumption.
  destruct (_ || _)%bool.
  - rewrite endswith_sep_app by assumption. now apply no_sep_endswith.
  - rewrite endswith_sep_app.
    + rewrite (endswith_sep_app "/" seg) by assumption.
      now apply no_sep_endswith.
    + destruct seg; discriminate.
Qed.

(** Joining onto a path that does not end in a separator puts one
    separator in between. *)
Lemma join_plain_segment (a seg : string) :
  a <> "" -> endswith_sep a = false -> contains_sep seg = false ->
  OsPath.join a seg = a +:+ "/" +:+ seg.
Proof.
  intros Ha He Hs. rewrite join_segment by assumption. rewrite He.
  destruct (String.eqb_spec a ""); [contradiction|reflexivity].
Qed.

Lemma contains_sep_app_sep (a b : string) :
  contains_sep (a +:+ "/" +:+ b) = true.
Proof.
  induction a as [|c a IH]; [reflexivity|].
  rewrite append_cons. simpl. rewrite IH. apply orb_true_r.
Qed.

Lemma cut_at_last_sep_app (a b : string) :
  contains_sep b = false ->
  cut_at_last_sep (a +:+ "/" +:+ b) = (a +:+ "/", b).
Proof.
  intros Hb. induction a as [|c a IH].
  - rewrite append_nil_l, append_cons, !append_nil_l. simpl. now rewrite Hb.
  - change (String c a +:+ "/" +:+ b) with (String c (a +:+ "/" +:+ b)).
    simpl. now rewrite contains_sep_app_sep, IH.
Qed.

Lemma all_sep_app_sep (a : string) : all_sep (a +:+ "/") = all_sep a.
Proof.
  induction a as [|c a IH]; [reflexivity|].
  rewrite append_cons. simpl. now rewrite IH.
Qed.

Lemma rstrip_sep_app_sep (a : string) :
  rstrip_sep (a +:+ "/") = rstrip_sep a.
Proof.
  induction a as [|c a IH]; [reflexivity|].
  rewrite append_cons. simpl. now rewrite IH.
Qed.

Lemma rstrip_sep_id (a : string) :
  endswith_sep a = false -> rstrip_sep a = a.
Proof.
  induction a as [|c a IH]; [reflexivity|]. simpl.
  destruct a as [|d a].
  - intros ->. reflexivity.
  - intros H. rewrite (IH H). reflexivity.
Qed.

Lemma not_all_sep (a : string) :
  a <> "" -> endswith_sep a = false -> all_sep a = false.
Proof.
  induction a as [|c a IH]; [congruence|]. intros _. simpl.
  destruct a as [|d a].
  - intros ->. reflexivity.
  - intros H. rewrite IH; [apply andb_false_r|discriminate|assumption].
Qed.

(** [os.path.split] undoes a join onto a path without trailing
    separator. *)
Lemma split_plain_segment (a seg : string) :
  a <> "" -> endswith_sep a = false -> contains_sep seg = false ->
  OsPath.split (a +:+ "/" +:+ seg) = (a, seg).
Proof.
  intros Ha He Hs. unfold OsPath.split.
  rewrite cut_at_last_sep_app by assumption.
  rewrite all_sep_app_sep, (not_all_sep a Ha He), rstrip_sep_app_sep,
    (rstrip_sep_id a He).
  destruct (String.eqb_spec (a +:+ "/") ""); [|reflexivity].
  destruct a; discriminate.
Qed.

(** The last component of a joined path is the component joined on. *)
Lemma split_join_tail (a seg : string) :
  contains_sep seg = false -> seg <> "" ->
  snd (OsPath.split (OsPath.join a seg)) = seg.
Proof.
  intros Hs Hne. rewrite join_segment by assumption. unfold OsPath.split.
  assert (Hcut : forall x, (x = "" \/ endswith_sep x = true) ->
                           snd (cut_at_last_sep (x +:+ seg)) = seg).
  { induction x as [|c x IH]; intros Hx.
    - rewrite append_nil_l. destruct seg as [|d seg]; [congruence|].
      simpl in *. apply orb_false_iff in Hs as [Hd Hs]. now rewrite Hs, Hd.
    - rewrite append_cons. simpl. destruct Hx as [|Hx]; [discriminate|].
      simpl in Hx. destruct x as [|d x].
      + rewrite append_nil_l, Hs, Hx. reflexivity.
      + assert (Hc : contains_sep (String d x +:+ seg) = true).
        { clear -Hx. revert d Hx. induction x as [|e x IH]; intros d Hx.
          - simpl in Hx. rewrite append_cons. simpl. now rewrite Hx.
          - change (String d (String e x) +:+ seg)
              with (String d (String e x +:+ seg)).
            cbn [contains_sep]. rewrite (IH e Hx). apply orb_true_r. }
        rewrite Hc. specialize (IH (or_intror Hx)).
        destruct (cut_at_last_sep (String d x +:+ seg)). assumption. }
  destruct (String.eqb_spec a "") as [->|Ha]; simpl.
  - specialize (Hcut "" (or_introl eq_refl)).
    destruct (cut_at_last_sep ("" +:+ seg)). simpl in *.
    now destruct (_ && _)%bool.
  - destruct (endswith_sep a) eqn:He.
    + specialize (Hcut a (or_intror He)).
      destruct (cut_at_last_sep (a +:+ seg)). simpl in *.
      now destruct (_ && _)%bool.
    + rewrite cut_at_last_sep_app by assumption. now destruct (_ && _)%bool.
Qed.

(** *** Padded fields *)

Lemma all_below_spec (n : nat) (p : nat -> bool) :
  all_below n p = true -> forall k, k < n -> p k = true.
Proof.
  induction n as [|n IH]; simpl; [lia|].
  intros [Hn Hrest]%andb_true_iff k Hk.
  destruct (Nat.eq_dec k n) as [->|]; [assumption|]. apply IH; [assumption|lia].
Qed.

(** A two-digit field is two characters wide and reads back as the
    number it was made from. *)
Lemma zfill2_roundtrip (n : nat) :
  n < 100 ->
  String.length (zfill 2 (str n)) = 2 /\ parse_nat (zfill 2 (str n)) = n.
Proof.
  intros Hn.
  assert (H : all_below 100
                (fun k => Nat.eqb (String.length (zfill 2 (str k))) 2
                          && Nat.eqb (parse_nat (zfill 2 (str k))) k) = true)
    by (vm_compute; reflexivity).
  apply (all_below_spec _ _ H) in Hn.
  apply andb_true_iff in Hn as [H1 H2].
  apply Nat.eqb_eq in H1. apply Nat.eqb_eq in H2. split; assumption.
Qed.

(** Every year below 10000, checked by running the formatter. *)
Lemma year_format_checked :
  all_below (10 * 1000)
    (fun k => Nat.eqb (String.length (zfill 4 (str k))) 4
              && Nat.eqb (parse_nat (zfill 4 (str k))) k
              && (if (1000 <=? k)%nat
                  then bool_decide (zfill 4 (str k) = str k)
                  else (String.length (str k) <? 4)%nat)) = true.
Proof. vm_cast_no_check (eq_refl true). Qed.

(** Likewise for the four-digit year. *)
Lemma zfill4_roundtrip (n : nat) :
  n < 10 * 1000 ->
  String.length (zfill 4 (str n)) = 4 /\ parse_nat (zfill 4 (str n)) = n.
Proof.
  intros Hn. apply (all_below_spec _ _ year_format_checked) in Hn.
  apply andb_true_iff in Hn as [Hn _].
  apply andb_true_iff in Hn as [H1 H2].
  apply Nat.eqb_eq in H1. apply Nat.eqb_eq in H2. split; assumption.
Qed.

(** From 1000 on the year needs no padding; below it is shorter than
    four characters. *)
Lemma str_year_width (n : nat) :
  n < 10 * 1000 ->
  if (1000 <=? n)%nat then zfill 4 (str n) = str n
  else String.length (str n) < 4.
Proof.
  intros Hn. apply (all_below_spec _ _ year_format_checked) in Hn.
  apply andb_true_iff in Hn as [_ Hn].
  destruct (1000 <=? n)%nat.
  - apply bool_decide_eq_true in Hn. exact Hn.
  - apply Nat.ltb_lt in Hn. exact Hn.
Qed.

Lemma zfill2_inj (n m : nat) :
  n < 100 -> m < 100 -> zfill 2 (str n) = zfill 2 (str m) -> n = m.
Proof.
  intros Hn Hm H. apply (f_equal parse_nat) in H.
  rewrite (proj2 (zfill2_roundtrip n Hn)),
    (proj2 (zfill2_roundtrip m Hm)) in H. exact H.
Qed.

Lemma zfill4_inj (n m : nat) :
  n < 10 * 1000 -> m < 10 * 1000 ->
  zfill 4 (str n) = zfill 4 (str m) -> n = m.
Proof.
  intros Hn Hm H. apply (f_equal parse_nat) in H.
  rewrite (proj2 (zfill4_roundtrip n Hn)),
    (proj2 (zfill4_roundtrip m Hm)) in H. exact H.
Qed.

End StringFacts.

(** ** The file system *)

Lemma mkdir_under_dir name w :
  name <> "" ->
  Os.parent_node w (fst (OsPath.split name)) = Some (Dir true) ->
  fs w !! name = None ->
  Os.mkdir name w
  = (Ok tt, set_fs (<[name := Dir true]> (fs w))
              (set_trace (trace w ++ [EvMkdir name]) w)).
Proof.
  intros Hne Hp Hn. unfold Os.mkdir. exec. simpl.
  destruct (String.eqb_spec name ""); [contradiction|].
  change (Os.parent_node (set_trace (trace w ++ [EvMkdir name]) w))
    with (Os.parent_node w).
  now rewrite Hp, Hn.
Qed.

Lemma mkdir_under_file name w :
  name <> "" ->
  Os.parent_node w (fst (OsPath.split name)) = Some File ->
  Os.mkdir name w
  = (Raise (mkExn NotADirectoryError
              ("[Errno 20] Not a directory: " +:+ Os.quoted name)),
     set_trace (trace w ++ [EvMkdir name]) w).
Proof.
  intros Hne Hp. unfold Os.mkdir. exec. simpl.
  destruct (String.eqb_spec name ""); [contradiction|].
  change (Os.parent_node (set_trace (trace w ++ [EvMkdir name]) w))
    with (Os.parent_node w).
  now rewrite Hp.
Qed.

Lemma mkdir_denied name w :
  name <> "" ->
  Os.parent_node w (fst (OsPath.split name)) = Some (Dir false) ->
  fs w !! name = None ->
  Os.mkdir name w
  = (Raise (mkExn PermissionError
              ("[Errno 13] Permission denied: " +:+ Os.quoted name)),
     set_trace (trace w ++ [EvMkdir name]) w).
Proof.
  intros Hne Hp Hn. unfold Os.mkdir. exec. simpl.
  destruct (String.eqb_spec name ""); [contradiction|].
  change (Os.parent_node (set_trace (trace w ++ [EvMkdir name]) w))
    with (Os.parent_node w).
  now rewrite Hp, Hn.
Qed.

(** A [mkdir] that returns has created the directory, and kept the rest. *)
Lemma mkdir_ok name w w' :
  Os.mkdir name w = (Ok tt, w') ->
  fs w' !! name = Some (Dir true) /\ fs_grows w w'.
Proof.
  unfold Os.mkdir. exec. simpl.
  destruct (String.eqb name ""); [discriminate|].
  destruct (Os.parent_node _ _) as [[[]|]|]; try discriminate;
    destruct (fs w !! name) eqn:Hn; try discriminate.
  intros H. inversion H; subst. simpl. split.
  - apply lookup_insert_eq.
  - intros path n' Hp. simpl. rewrite lookup_insert_ne; [assumption|congruence].
Qed.

Lemma mkdir_fs_grows name : keeps fs_grows (Os.mkdir name).
Proof.
  intros w. destruct (Os.mkdir name w) as [[[]|e] w'] eqn:H.
  - now apply (mkdir_ok name w w').
  - revert H. unfold Os.mkdir. exec. simpl.
    repeat (match goal with
            | |- context [match ?x with _ => _ end] => destruct x
            end); intros H; inversion H; subst; intros ? ? Hp; exact Hp.
Qed.
#[local] Hint Resolve mkdir_fs_grows : frame.

Lemma makedirs_fuel_fs_grows fuel name : keeps fs_grows (Os.makedirs_fuel fuel name).
Proof.
  revert name. induction fuel as [|fuel IH]; intros name; simpl; frame.
Qed.

Lemma makedirs_fs_grows name : keeps fs_grows (Os.makedirs name).
Proof. apply makedirs_fuel_fs_grows. Qed.
#[local] Hint Resolve makedirs_fs_grows : frame.

(** One round of the body of [makedirs]. *)
Lemma makedirs_fuel_unfold fuel name :
  Os.makedirs_fuel fuel name
  = (let '(head, tail) := OsPath.split name in
     let '(head, tail) :=
       if String.eqb tail "" then OsPath.split head else (head, tail) in
     head_exists <- Os.path_exists head ;;
     if (negb (String.eqb head "") && negb (String.eqb tail "")
         && negb head_exists)%bool
     then
       match fuel with
       | O => raise (mkExn FileNotFoundError "path too deep")
       | S fuel' =>
           try_except (Os.makedirs_fuel fuel' head)
             (fun e =>
                match exn_cls e with
                | FileExistsError => ret tt
                | _ => raise e
                end) ;;
           if String.eqb tail "." then ret tt else Os.mkdir name
       end
     else Os.mkdir name).
Proof. destruct fuel; reflexivity. Qed.

(** With the parent in place [makedirs] is a single [mkdir]. *)
Lemma makedirs_parent_present name head tail w :
  OsPath.split name = (head, tail) -> tail <> "" ->
  head = "" \/ is_Some (fs w !! head) ->
  Os.makedirs name w = Os.mkdir name w.
Proof.
  intros Hsplit Htail Hhead. unfold Os.makedirs.
  rewrite makedirs_fuel_unfold, Hsplit.
  destruct (String.eqb_spec tail ""); [contradiction|].
  unfold bind, Os.path_exists.
  destruct Hhead as [->|Hhead]; [reflexivity|].
  rewrite (bool_decide_eq_true_2 _ Hhead).
  now rewrite andb_false_r.
Qed.

(** A [makedirs] that returns has created its leaf, unless the leaf is
    the current-directory marker. *)
Lemma makedirs_ok name tail w w' :
  snd (OsPath.split name) = tail -> tail <> "" -> tail <> "." ->
  Os.makedirs name w = (Ok tt, w') ->
  fs w' !! name = Some (Dir true).
Proof.
  intros Hsplit Htail Hdot. unfold Os.makedirs.
  rewrite makedirs_fuel_unfold.
  destruct (OsPath.split name) as [head tail']. simpl in Hsplit. subst tail'.
  destruct (String.eqb_spec tail ""); [contradiction|].
  destruct (String.eqb_spec tail "."); [contradiction|].
  unfold bind at 1, Os.path_exists.
  destruct (_ && _ && _)%bool.
  - destruct (String.length name); [discriminate|].
    unfold bind. destruct (try_except _ _ w) as [[[]|e] w1]; [|discriminate].
    intros H. now apply mkdir_ok in H.
  - intros H. now apply mkdir_ok in H.
Qed.

(** ** Preparing the partition *)

(** [create_backup_directory] reads the clock once and then visits the
    three directories of that date, outermost first. *)
Lemma create_backup_directory_unfold base_dir w :
  create_backup_directory base_dir w
  = (let today := date_of (clock_now w) in
     (ensure_directory (year_dir base_dir today) ;;
      ensure_directory (month_dir base_dir today) ;;
      ensure_directory (day_dir base_dir today) ;;
      ret (day_dir base_dir today)) (snd (read_clock w))).
Proof.
  change (create_backup_directory base_dir)
    with (today <- date_today ;;
          for_each [year_dir base_dir today; month_dir base_dir today;
                    day_dir base_dir today] ensure_directory ;;
          ret (day_dir base_dir today)).
  assert (Hclock : read_clock w = (Ok (clock_now w), snd (read_clock w)))
    by (unfold read_clock; now destruct (clock_next w)).
  unfold date_today. unfold bind at 1 2. rewrite Hclock.
  cbn [for_each ret fst snd]. unfold bind.
  destruct (ensure_directory _ (read_clock w).2) as [[[]|e] w1]; [|reflexivity].
  destruct (ensure_directory _ w1) as [[[]|e] w2]; [|reflexivity].
  destruct (ensure_directory _ w2) as [[[]|e] w3]; reflexivity.
Qed.

Lemma read_clock_fs w : fs (snd (read_clock w)) = fs w.
Proof. unfold read_clock. now destruct (clock_next w). Qed.

Lemma read_clock_trace w : trace (snd (read_clock w)) = trace w.
Proof. unfold read_clock. now destruct (clock_next w). Qed.

Lemma read_clock_cwd w : cwd_writable (snd (read_clock w)) = cwd_writable w.
Proof. unfold read_clock. now destruct (clock_next w). Qed.

Lemma ensure_directory_present directory w :
  is_Some (fs w !! directory) -> ensure_directory directory w = (Ok tt, w).
Proof.
  intros H. unfold ensure_directory, bind, Os.path_exists.
  now rewrite (bool_decide_eq_true_2 _ H).
Qed.

Lemma ensure_directory_fs_grows directory : keeps fs_grows (ensure_directory directory).
Proof. unfold ensure_directory. frame. Qed.

(** A visit that returns leaves the directory in place. *)
Lemma ensure_directory_ok directory tail w w' :
  snd (OsPath.split directory) = tail -> tail <> "" -> tail <> "." ->
  ensure_directory directory w = (Ok tt, w') ->
  is_Some (fs w' !! directory).
Proof.
  intros Hsplit Htail Hdot. unfold ensure_directory, bind at 1, Os.path_exists.
  destruct (decide (is_Some (fs w !! directory))) as [Hs|Hn].
  - rewrite (bool_decide_eq_true_2 _ Hs). simpl. intros H. now inversion H; subst.
  - rewrite (bool_decide_eq_false_2 _ Hn). simpl. unfold bind.
    destruct (Os.makedirs directory w) as [[[]|e] w1] eqn:Hm; [|discriminate].
    unfold logging_info. intros H. injection H as <-. simpl.
    rewrite (makedirs_ok directory tail w w1 Hsplit Htail Hdot Hm). eauto.
Qed.

(** A missing directory whose parent is a writable directory is created. *)
Lemma ensure_directory_creates directory head tail w :
  OsPath.split directory = (head, tail) -> tail <> "" -> directory <> "" ->
  fs w !! directory = None ->
  Os.parent_node w head = Some (Dir true) ->
  head = "" \/ is_Some (fs w !! head) ->
  exists w',
    ensure_directory directory w = (Ok tt, w') /\
    fs w' = <[directory := Dir true]> (fs w) /\
    cwd_writable w' = cwd_writable w.
Proof.
  intros Hsplit Htail Hne Hnone Hparent Hhead.
  unfold ensure_directory, bind at 1, Os.path_exists.
  rewrite bool_decide_eq_false_2 by (rewrite Hnone; intros [? ?]; discriminate).
  simpl. unfold bind.
  rewrite (makedirs_parent_present directory head tail w Hsplit Htail Hhead).
  rewrite mkdir_under_dir; [|assumption|now rewrite Hsplit|assumption].
  unfold logging_info. eexists. split; [reflexivity|]. split; reflexivity.
Qed.

(** A missing directory whose parent is a regular file cannot be created. *)
Lemma ensure_directory_under_file directory head tail w :
  OsPath.split directory = (head, tail) -> tail <> "" -> directory <> "" ->
  head <> "" ->
  fs w !! directory = None ->
  fs w !! head = Some File ->
  ensure_directory directory w
  = (Raise (mkExn NotADirectoryError
              ("[Errno 20] Not a directory: " +:+ Os.quoted directory)),
     set_trace (trace w ++ [EvMkdir directory]) w).
Proof.
  intros Hsplit Htail Hne Hhead Hnone Hfile.
  unfold ensure_directory, bind at 1, Os.path_exists.
  rewrite bool_decide_eq_false_2 by (rewrite Hnone; intros [? ?]; discriminate).
  simpl. unfold bind.
  rewrite (makedirs_parent_present directory head tail w Hsplit Htail)
    by (right; rewrite Hfile; eauto).
  rewrite mkdir_under_file; [reflexivity|assumption|].
  rewrite Hsplit. simpl. unfold Os.parent_node.
  destruct (String.eqb_spec head ""); [contradiction|assumption].
Qed.

(** A missing directory whose parent may not be written is refused. *)
Lemma ensure_directory_denied directory head tail w :
  OsPath.split directory = (head, tail) -> tail <> "" -> directory <> "" ->
  head <> "" ->
  fs w !! directory = None ->
  fs w !! head = Some (Dir false) ->
  ensure_directory directory w
  = (Raise (mkExn PermissionError
              ("[Errno 13] Permission denied: " +:+ Os.quoted directory)),
     set_trace (trace w ++ [EvMkdir directory]) w).
Proof.
  intros Hsplit Htail Hne Hhead Hnone Hdir.
  unfold ensure_directory, bind at 1, Os.path_exists.
  rewrite bool_decide_eq_false_2 by (rewrite Hnone; intros [? ?]; discriminate).
  simpl. unfold bind.
  rewrite (makedirs_parent_present directory head tail w Hsplit Htail)
    by (right; rewrite Hdir; eauto).
  rewrite mkdir_denied; [reflexivity|assumption| |assumption].
  rewrite Hsplit. simpl. unfold Os.parent_node.
  destruct (String.eqb_spec head ""); [contradiction|assumption].
Qed.

(** ** The partition paths *)

Section Partition.
Import PyStr.

Variable base_dir : string.
Variable d : Date.

Let Y := str (d_year d).
Let MM := zfill 2 (str (d_month d)).
Let DD := zfill 2 (str (d_day d)).

Lemma segment_facts (seg : string) :
  all_digits seg = true -> seg <> "" ->
  contains_sep seg = false /\ seg <> "" /\ seg <> ".".
Proof.
  intros Hd Hne. split; [now apply all_digits_no_sep|]. split; [assumption|].
  intros ->. discriminate.
Qed.

Lemma year_dir_shape :
  year_dir base_dir d <> "" /\ endswith_sep (year_dir base_dir d) = false.
Proof.
  destruct (segment_facts Y (str_digits _) (str_nonempty _)) as (Hs & Hn & _).
  split; [now apply join_segment_nonempty|now apply join_segment_endswith].
Qed.

Lemma month_dir_eq :
  month_dir base_dir d = year_dir base_dir d +:+ "/" +:+ MM.
Proof.
  destruct year_dir_shape as [Hn He].
  destruct (segment_facts MM (zfill_digits _ _) (zfill_nonempty _ _)) as (Hs & _).
  unfold month_dir. now apply join_plain_segment.
Qed.

Lemma month_dir_shape :
  month_dir base_dir d <> "" /\ endswith_sep (month_dir base_dir d) = false.
Proof.
  destruct (segment_facts MM (zfill_digits _ _) (zfill_nonempty _ _))
    as (Hs & Hn & _).
  split; [now apply join_segment_nonempty|now apply join_segment_endswith].
Qed.

Lemma day_dir_eq :
  day_dir base_dir d = month_dir base_dir d +:+ "/" +:+ DD.
Proof.
  destruct month_dir_shape as [Hn He].
  destruct (segment_facts DD (zfill_digits _ _) (zfill_nonempty _ _)) as (Hs & _).
  unfold day_dir. now apply join_plain_segment.
Qed.

Lemma day_dir_nonempty : day_dir base_dir d <> "".
Proof.
  destruct (segment_facts DD (zfill_digits _ _) (zfill_nonempty _ _))
    as (Hs & Hn & _).
  now apply join_segment_nonempty.
Qed.

(** The parent of the month directory is the year directory, and the
    parent of the day directory is the month directory. *)
Lemma split_month_dir :
  OsPath.split (month_dir base_dir d) = (year_dir base_dir d, MM).
Proof.
  destruct year_dir_shape as [Hn He].
  destruct (segment_facts MM (zfill_digits _ _) (zfill_nonempty _ _)) as (Hs & _).
  rewrite month_dir_eq. now apply split_plain_segment.
Qed.

Lemma split_day_dir :
  OsPath.split (day_dir base_dir d) = (month_dir base_dir d, DD).
Proof.
  destruct month_dir_shape as [Hn He].
  destruct (segment_facts DD (zfill_digits _ _) (zfill_nonempty _ _)) as (Hs & _).
  rewrite day_dir_eq. now apply split_plain_segment.
Qed.

Lemma split_year_dir_tail : snd (OsPath.split (year_dir base_dir d)) = Y.
Proof.
  destruct (segment_facts Y (str_digits _) (str_nonempty _)) as (Hs & Hn & _).
  now apply split_join_tail.
Qed.

(** Under a base directory written without trailing separator the
    parent of the year directory is the base directory. *)
Lemma split_year_dir :
  base_dir <> "" -> endswith_sep base_dir = false ->
  OsPath.split (year_dir base_dir d) = (base_dir, Y).
Proof.
  intros Hn He.
  destruct (segment_facts Y (str_digits _) (str_nonempty _)) as (Hs & _).
  unfold year_dir. rewrite join_plain_segment by assumption.
  now apply split_plain_segment.
Qed.

Lemma longer_ne (a b : string) : b <> "" -> a +:+ b <> a.
Proof.
  intros Hb H. apply (f_equal String.length) in H.
  rewrite append_length in H. destruct b; [congruence|simpl in H; lia].
Qed.

Lemma month_dir_ne_year_dir : month_dir base_dir d <> year_dir base_dir d.
Proof. rewrite month_dir_eq. apply longer_ne. discriminate. Qed.

Lemma day_dir_ne_month_dir : day_dir base_dir d <> month_dir base_dir d.
Proof. rewrite day_dir_eq. apply longer_ne. discriminate. Qed.

Lemma day_dir_ne_year_dir : day_dir base_dir d <> year_dir base_dir d.
Proof.
  rewrite day_dir_eq, month_dir_eq, append_assoc. apply longer_ne. discriminate.
Qed.

End Partition.

(** ** What [create_backup_directory] does *)

Section Prepare.

Variable base_dir : string.
Variable w : World.

Let today := date_of (clock_now w).
Let Y := year_dir base_dir (date_of (clock_now w)).
Let M := month_dir base_dir (date_of (clock_now w)).
Let D := day_dir base_dir (date_of (clock_now w)).

(** Whatever it returns is the day directory of the date it read. *)
Lemma create_backup_directory_result p w' :
  create_backup_directory base_dir w = (Ok p, w') -> p = D.
Proof.
  subst Y M D today.
  rewrite create_backup_directory_unfold. cbv zeta. unfold bind.
  destruct (ensure_directory _ _) as [[[]|e] w1]; [|discriminate].
  destruct (ensure_directory _ w1) as [[[]|e] w2]; [|discriminate].
  destruct (ensure_directory _ w2) as [[[]|e] w3]; [|discriminate].
  intros H. now inversion H.
Qed.

(** With the three directories in place nothing is touched. *)
Lemma create_backup_directory_present :
  is_Some (fs w !! Y) -> is_Some (fs w !! M) -> is_Some (fs w !! D) ->
  create_backup_directory base_dir w = (Ok D, snd (read_clock w)).
Proof.
  subst Y M D today.
  intros HY HM HD. rewrite create_backup_directory_unfold. cbv zeta.
  unfold bind.
  rewrite !ensure_directory_present by (rewrite read_clock_fs; assumption).
  reflexivity.
Qed.

(** A call that returns leaves the three directories in place. *)
Lemma create_backup_directory_ok p w' :
  create_backup_directory base_dir w = (Ok p, w') ->
  is_Some (fs w' !! Y) /\ is_Some (fs w' !! M) /\ is_Some (fs w' !! D).
Proof.
  subst Y M D today.
  rewrite create_backup_directory_unfold. cbv zeta. unfold bind.
  destruct (ensure_directory _ _) as [[[]|e] w1] eqn:H1; [|discriminate].
  destruct (ensure_directory _ w1) as [[[]|e] w2] eqn:H2; [|discriminate].
  destruct (ensure_directory _ w2) as [[[]|e] w3] eqn:H3; [|discriminate].
  intros H. injection H as _ <-.
  pose proof (ensure_directory_fs_grows (month_dir base_dir (date_of (clock_now w))) w1) as G2. rewrite H2 in G2.
  pose proof (ensure_directory_fs_grows (day_dir base_dir (date_of (clock_now w))) w2) as G3. rewrite H3 in G3.
  simpl in G2, G3.
  destruct (segment_facts _ (str_digits (d_year (date_of (clock_now w)))) (str_nonempty _))
    as (_ & HnY & HdY).
  destruct (segment_facts _ (zfill_digits 2 (d_month (date_of (clock_now w)))) (zfill_nonempty _ _))
    as (_ & HnM & HdM).
  destruct (segment_facts _ (zfill_digits 2 (d_day (date_of (clock_now w)))) (zfill_nonempty _ _))
    as (_ & HnD & HdD).
  apply (ensure_directory_ok _ _ _ _ (split_year_dir_tail base_dir (date_of (clock_now w))) HnY HdY)
    in H1.
  apply (ensure_directory_ok _ _ _ _
           (f_equal snd (split_month_dir base_dir (date_of (clock_now w)))) HnM HdM) in H2.
  apply (ensure_directory_ok _ _ _ _
           (f_equal snd (split_day_dir base_dir (date_of (clock_now w)))) HnD HdD) in H3.
  destruct H1 as [n1 H1], H2 as [n2 H2]. repeat split.
  - exists n1. apply G3, G2, H1.
  - exists n2. apply G3, H2.
  - exact H3.
Qed.

(** Under an existing writable base directory the three missing
    directories are created. *)
Lemma create_backup_directory_fresh :
  base_dir <> "" -> PyStr.endswith_sep base_dir = false ->
  fs w !! base_dir = Some (Dir true) ->
  fs w !! Y = None -> fs w !! M = None -> fs w !! D = None ->
  exists w',
    create_backup_directory base_dir w = (Ok D, w') /\
    fs w' = <[D := Dir true]> (<[M := Dir true]> (<[Y := Dir true]> (fs w))).
Proof.
  subst Y M D today.
  intros Hb He Hbase HY HM HD.
  rewrite create_backup_directory_unfold. cbv zeta. unfold bind.
  destruct (segment_facts _ (str_digits (d_year (date_of (clock_now w)))) (str_nonempty _))
    as (_ & HnY & _).
  destruct (segment_facts _ (zfill_digits 2 (d_month (date_of (clock_now w)))) (zfill_nonempty _ _))
    as (_ & HnM & _).
  destruct (segment_facts _ (zfill_digits 2 (d_day (date_of (clock_now w)))) (zfill_nonempty _ _))
    as (_ & HnD & _).
  destruct (ensure_directory_creates _ base_dir _ (snd (read_clock w))
              (split_year_dir base_dir (date_of (clock_now w)) Hb He) HnY
              (proj1 (year_dir_shape base_dir (date_of (clock_now w)))))
    as (w1 & E1 & F1 & C1).
  { now rewrite read_clock_fs. }
  { unfold Os.parent_node. rewrite read_clock_fs.
    destruct (String.eqb_spec base_dir ""); [contradiction|assumption]. }
  { right. rewrite read_clock_fs, Hbase. eauto. }
  rewrite E1. rewrite read_clock_fs in F1.
  destruct (ensure_directory_creates _ _ _ w1
              (split_month_dir base_dir (date_of (clock_now w))) HnM
              (proj1 (month_dir_shape base_dir (date_of (clock_now w)))))
    as (w2 & E2 & F2 & C2).
  { rewrite F1, lookup_insert_ne; [assumption|].
    intros E. symmetry in E. now apply month_dir_ne_year_dir in E. }
  { unfold Os.parent_node. rewrite F1, lookup_insert_eq.
    destruct (String.eqb_spec (year_dir base_dir (date_of (clock_now w))) ""); [|reflexivity].
    now destruct (year_dir_shape base_dir (date_of (clock_now w))). }
  { right. rewrite F1, lookup_insert_eq. eauto. }
  rewrite E2.
  destruct (ensure_directory_creates _ _ _ w2
              (split_day_dir base_dir (date_of (clock_now w))) HnD
              (day_dir_nonempty base_dir (date_of (clock_now w))))
    as (w3 & E3 & F3 & C3).
  { rewrite F2, F1, !lookup_insert_ne; [assumption| |].
    - intros E. symmetry in E. now apply day_dir_ne_year_dir in E.
    - intros E. symmetry in E. now apply day_dir_ne_month_dir in E. }
  { unfold Os.parent_node. rewrite F2, lookup_insert_eq.
    destruct (String.eqb_spec (month_dir base_dir (date_of (clock_now w))) ""); [|reflexivity].
    now destruct (month_dir_shape base_dir (date_of (clock_now w))). }
  { right. rewrite F2, lookup_insert_eq. eauto. }
  rewrite E3. eexists. split; [reflexivity|].
  now rewrite F3, F2, F1.
Qed.

End Prepare.

Section PrepareFails.

Variable base_dir : string.
Variable w : World.

Let today := date_of (clock_now w).
Let Y := year_dir base_dir today.
Let M := month_dir base_dir today.
Let D := day_dir base_dir today.

Let after_clock := snd (read_clock w).

Lemma create_backup_directory_year_is_file :
  fs w !! Y = Some File -> fs w !! M = None ->
  create_backup_directory base_dir w
  = (Raise (mkExn NotADirectoryError
              ("[Errno 20] Not a directory: " +:+ Os.quoted M)),
     set_trace (trace after_clock ++ [EvMkdir M]) after_clock).
Proof.
  subst Y M D after_clock today. intros HY HM.
  rewrite create_backup_directory_unfold. cbv zeta. unfold bind.
  rewrite ensure_directory_present by (rewrite read_clock_fs, HY; eauto).
  destruct (segment_facts _ (zfill_digits 2 (d_month (date_of (clock_now w))))
              (zfill_nonempty _ _)) as (_ & HnM & _).
  rewrite (ensure_directory_under_file _ _ _ _
             (split_month_dir base_dir (date_of (clock_now w))) HnM
             (proj1 (month_dir_shape base_dir (date_of (clock_now w))))
             (proj1 (year_dir_shape base_dir (date_of (clock_now w)))));
    rewrite ?read_clock_fs; auto.
Qed.

Lemma create_backup_directory_month_is_file :
  is_Some (fs w !! Y) -> fs w !! M = Some File -> fs w !! D = None ->
  create_backup_directory base_dir w
  = (Raise (mkExn NotADirectoryError
              ("[Errno 20] Not a directory: " +:+ Os.quoted D)),
     set_trace (trace after_clock ++ [EvMkdir D]) after_clock).
Proof.
  subst Y M D after_clock today. intros HY HM HD.
  rewrite create_backup_directory_unfold. cbv zeta. unfold bind.
  rewrite ensure_directory_present by (rewrite read_clock_fs; assumption).
  rewrite ensure_directory_present by (rewrite read_clock_fs, HM; eauto).
  destruct (segment_facts _ (zfill_digits 2 (d_day (date_of (clock_now w))))
              (zfill_nonempty _ _)) as (_ & HnD & _).
  rewrite (ensure_directory_under_file _ _ _ _
             (split_day_dir base_dir (date_of (clock_now w))) HnD
             (day_dir_nonempty base_dir (date_of (clock_now w)))
             (proj1 (month_dir_shape base_dir (date_of (clock_now w)))));
    rewrite ?read_clock_fs; auto.
Qed.

Lemma create_backup_directory_base_denied :
  base_dir <> "" -> PyStr.endswith_sep base_dir = false ->
  fs w !! base_dir = Some (Dir false) -> fs w !! Y = None ->
  create_backup_directory base_dir w
  = (Raise (mkExn PermissionError
              ("[Errno 13] Permission denied: " +:+ Os.quoted Y)),
     set_trace (trace after_clock ++ [EvMkdir Y]) after_clock).
Proof.
  subst Y M D after_clock today. intros Hb He Hbase HY.
  rewrite create_backup_directory_unfold. cbv zeta. unfold bind.
  destruct (segment_facts _ (str_digits (d_year (date_of (clock_now w))))
              (str_nonempty _)) as (_ & HnY & _).
  rewrite (ensure_directory_denied _ _ _ _
             (split_year_dir base_dir (date_of (clock_now w)) Hb He) HnY
             (proj1 (year_dir_shape base_dir (date_of (clock_now w)))) Hb);
    rewrite ?read_clock_fs; auto.
Qed.

Lemma create_backup_directory_year_denied :
  fs w !! Y = Some (Dir false) -> fs w !! M = None ->
  create_backup_directory base_dir w
  = (Raise (mkExn PermissionError
              ("[Errno 13] Permission denied: " +:+ Os.quoted M)),
     set_trace (trace after_clock ++ [EvMkdir M]) after_clock).
Proof.
  subst Y M D after_clock today. intros HY HM.
  rewrite create_backup_directory_unfold. cbv zeta. unfold bind.
  rewrite ensure_directory_present by (rewrite read_clock_fs, HY; eauto).
  destruct (segment_facts _ (zfill_digits 2 (d_month (date_of (clock_now w))))
              (zfill_nonempty _ _)) as (_ & HnM & _).
  rewrite (ensure_directory_denied _ _ _ _
             (split_month_dir base_dir (date_of (clock_now w))) HnM
             (proj1 (month_dir_shape base_dir (date_of (clock_now w))))
             (proj1 (year_dir_shape base_dir (date_of (clock_now w)))));
    rewrite ?read_clock_fs; auto.
Qed.

Lemma create_backup_directory_month_denied :
  is_Some (fs w !! Y) -> fs w !! M = Some (Dir false) -> fs w !! D = None ->
  create_backup_directory base_dir w
  = (Raise (mkExn PermissionError
              ("[Errno 13] Permission denied: " +:+ Os.quoted D)),
     set_trace (trace after_clock ++ [EvMkdir D]) after_clock).
Proof.
  subst Y M D after_clock today. intros HY HM HD.
  rewrite create_backup_directory_unfold. cbv zeta. unfold bind.
  rewrite ensure_directory_present by (rewrite read_clock_fs; assumption).
  rewrite ensure_directory_present by (rewrite read_clock_fs, HM; eauto).
  destruct (segment_facts _ (zfill_digits 2 (d_day (date_of (clock_now w))))
              (zfill_nonempty _ _)) as (_ & HnD & _).
  rewrite (ensure_directory_denied _ _ _ _
             (split_day_dir base_dir (date_of (clock_now w))) HnD
             (day_dir_nonempty base_dir (date_of (clock_now w)))
             (proj1 (month_dir_shape base_dir (date_of (clock_now w)))));
    rewrite ?read_clock_fs; auto.
Qed.

End PrepareFails.

(** ** A run whose directory preparation fails *)

Lemma directory_failure_run (w : World) (e : exn) (w1 : World) :
  create_backup_directory "/path/to/backup" w = (Raise e, w1) ->
  perform_backup w = report_failure e w1 /\
  exists w' evs,
    perform_backup w = (Ok tt, w') /\
    trace w' = trace w ++ evs /\
    forallb (fun ev => negb (is_db_event ev)) evs = true /\
    notifications evs = [(failure_subject, failure_body e)] /\
    fs w' = fs w1.
Proof.
  intros Hdir.
  assert (Hrun : perform_backup w = report_failure e w1).
  { rewrite perform_backup_unfold.
    unfold perform_backup_flat, backup_steps, bind at 1. now rewrite Hdir. }
  split; [exact Hrun|].
  destruct (create_backup_directory_emits "/path/to/backup" w) as (ev1 & Ht1 & Hf1).
  rewrite Hdir in Ht1. simpl in Ht1.
  pose proof (perform_backup_returns w) as Hret.
  rewrite Hrun in *. unfold report_failure, bind, logging_error in *.
  assert (Hfs : keeps (same fs) (notify failure_subject (failure_body e))).
  { unfold notify, send_email_notification, smtp_session, Smtplib.with_SMTP,
      Smtplib.SMTP, Smtplib.scripted.
    frame. intros w0. simpl.
    match goal with |- context [bind Smtplib.starttls ?k w0] =>
      assert (Hb : keeps (same fs) (bind Smtplib.starttls k))
        by (unfold Smtplib.starttls, Smtplib.login, Smtplib.sendmail,
              Smtplib.scripted; frame);
      specialize (Hb w0); destruct (bind Smtplib.starttls k w0) as [r w2]
    end.
    assert (Hq : keeps (same fs) Smtplib.quit)
      by (unfold Smtplib.quit, Smtplib.scripted; frame).
    specialize (Hq w2). simpl in *.
    destruct (Smtplib.quit w2) as [[[]|e'] w3]; simpl in *;
      unfold same in *; congruence. }
  match goal with |- context [notify ?a ?b ?x] =>
    specialize (Hfs x);
    destruct (notify_once a b x) as (_ & sm & Hs & Hsm);
    destruct (notify a b x) as [r w'] end.
  simpl in *. subst r.
  exists w', (ev1 ++ EvNotify failure_subject (failure_body e)
                        "recipient@example.com" :: sm).
  split; [reflexivity|]. split; [now rewrite Hs, Ht1, <- app_assoc|].
  split; [|split; [|exact Hfs]].
  - rewrite forallb_app. simpl. apply andb_true_iff. split.
    + revert Hf1. apply forallb_weaken. intros [] H; simpl in *; congruence.
    + revert Hsm. apply forallb_weaken. intros [] H; simpl in *; congruence.
  - rewrite notifications_app. simpl.
    rewrite (notifications_quiet ev1), (notifications_quiet sm); [reflexivity| |].
    + revert Hsm. apply forallb_weaken. intros [] H; simpl in *; congruence.
    + revert Hf1. apply forallb_weaken. intros [] H; simpl in *; congruence.
Qed.

(** ** Naming the artifact *)

Section Stamp.
Import PyStr Strftime.

Lemma Ymd_length t : valid_datetime t -> String.length (Ymd t) = 8.
Proof.
  intros ((Hy & Hm & Hd) & _). simpl in *. unfold Ymd, pct_Y, pct_m, pct_d.
  rewrite !append_length.
  rewrite (proj1 (zfill4_roundtrip (year t) ltac:(lia))).
  rewrite (proj1 (zfill2_roundtrip (month t) ltac:(lia))).
  rewrite (proj1 (zfill2_roundtrip (day t) ltac:(lia))). reflexivity.
Qed.

Lemma HMS_length t : valid_datetime t -> String.length (HMS t) = 6.
Proof.
  intros (_ & Hh & Hm & Hs). unfold HMS, pct_H, pct_M, pct_S.
  rewrite !append_length.
  rewrite (proj1 (zfill2_roundtrip (hour t) ltac:(lia))).
  rewrite (proj1 (zfill2_roundtrip (minute t) ltac:(lia))).
  rewrite (proj1 (zfill2_roundtrip (second t) ltac:(lia))). reflexivity.
Qed.

(** The stamp is fifteen characters wide. *)
Lemma Ymd_HMS_length t : valid_datetime t -> String.length (Ymd_HMS t) = 15.
Proof.
  intros H. unfold Ymd_HMS. rewrite !append_length, Ymd_length, HMS_length by assumption.
  reflexivity.
Qed.

Lemma Ymd_inj t1 t2 :
  valid_datetime t1 -> valid_datetime t2 -> Ymd t1 = Ymd t2 ->
  date_of t1 = date_of t2.
Proof.
  intros ((Hy1 & Hm1 & Hd1) & _) ((Hy2 & Hm2 & Hd2) & _). simpl in *.
  unfold Ymd, pct_Y, pct_m, pct_d. intros H.
  apply append_inj in H as [HY H].
  2:{ rewrite (proj1 (zfill4_roundtrip (year t1) ltac:(lia))).
      now rewrite (proj1 (zfill4_roundtrip (year t2) ltac:(lia))). }
  apply append_inj in H as [HM HD].
  2:{ rewrite (proj1 (zfill2_roundtrip (month t1) ltac:(lia))).
      now rewrite (proj1 (zfill2_roundtrip (month t2) ltac:(lia))). }
  apply zfill4_inj in HY; [|lia..]. apply zfill2_inj in HM; [|lia..].
  apply zfill2_inj in HD; [|lia..]. unfold date_of. congruence.
Qed.

(** Two valid readings with the same stamp are the same reading. *)
Lemma Ymd_HMS_inj t1 t2 :
  valid_datetime t1 -> valid_datetime t2 -> Ymd_HMS t1 = Ymd_HMS t2 -> t1 = t2.
Proof.
  intros V1 V2 H. unfold Ymd_HMS in H.
  apply append_inj in H as [Hdate H];
    [|now rewrite !Ymd_length by assumption].
  apply append_inj_l in H.
  apply Ymd_inj in Hdate; [|assumption..].
  destruct V1 as (_ & Hh1 & Hm1 & Hs1), V2 as (_ & Hh2 & Hm2 & Hs2).
  unfold HMS, pct_H, pct_M, pct_S in H.
  apply append_inj in H as [HH H].
  2:{ rewrite (proj1 (zfill2_roundtrip (hour t1) ltac:(lia))).
      now rewrite (proj1 (zfill2_roundtrip (hour t2) ltac:(lia))). }
  apply append_inj in H as [HM HS].
  2:{ rewrite (proj1 (zfill2_roundtrip (minute t1) ltac:(lia))).
      now rewrite (proj1 (zfill2_roundtrip (minute t2) ltac:(lia))). }
  apply zfill2_inj in HH; [|lia..]. apply zfill2_inj in HM; [|lia..].
  apply zfill2_inj in HS; [|lia..].
  destruct t1, t2. unfold date_of in Hdate. simpl in *.
  inversion Hdate. congruence.
Qed.

(** [os.path.join] keeps apart what it is given apart, for a fixed
    directory and file names that start alike. *)
Lemma join_inj dir (f1 f2 : string) :
  startswith_sep f1 = startswith_sep f2 ->
  OsPath.join dir f1 = OsPath.join dir f2 -> f1 = f2.
Proof.
  unfold OsPath.join. intros <-.
  destruct (startswith_sep f1); [auto|].
  destruct (_ || _)%bool; intros H.
  - now apply append_inj_l in H.
  - now apply append_inj_l, append_inj_l in H.
Qed.

Lemma startswith_sep_app (a b : string) :
  a <> "" -> startswith_sep (a +:+ b) = startswith_sep a.
Proof. destruct a; [congruence|reflexivity]. Qed.

Lemma artifact_name_startswith database_name t1 t2 :
  startswith_sep (artifact_name database_name t1)
  = startswith_sep (artifact_name database_name t2).
Proof. unfold artifact_name. destruct database_name; reflexivity. Qed.

Lemma artifact_path_inj dir database_name t1 t2 :
  valid_datetime t1 -> valid_datetime t2 ->
  OsPath.join dir (artifact_name database_name t1)
  = OsPath.join dir (artifact_name database_name t2) ->
  t1 = t2.
Proof.
  intros V1 V2 H.
  apply join_inj in H; [|apply artifact_name_startswith].
  unfold artifact_name in H.
  apply append_inj_l, append_inj_l, append_inj_r in H.
  now apply Ymd_HMS_inj.
Qed.

End Stamp.

(** Case analysis on everything a computation looks at. *)
Ltac crunch :=
  repeat (simpl;
          match goal with
          | H : ?x = _ |- context [match ?x with _ => _ end] => rewrite H
          | |- context [match ?x with _ => _ end] =>
              lazymatch x with
              | context [match _ with _ => _ end] => fail
              | _ => destruct x eqn:?
              end
          end);
  simpl.

(** What [backup_database] returns, when it returns: the name is made
    from the reading of the clock it is started with. *)
Lemma backup_database_result connection database_name backup_dir w p w' :
  backup_database connection database_name backup_dir w = (Ok p, w') ->
  p = OsPath.join backup_dir (artifact_name database_name (clock_now w)).
Proof.
  unfold backup_database, Pyodbc.cursor, Pyodbc.execute, Pyodbc.commit,
    Pyodbc.scripted, Pyodbc.next_outcome, Pyodbc.require_open.
  exec. crunch; intros H; inversion H; reflexivity.
Qed.

(** On an open connection, with the driver accepting the next three
    calls, [backup_database] returns. *)
Lemma backup_database_returns connection database_name backup_dir w :
  conns w !! connection = Some ConnOpen ->
  Forall (fun o => o = None) (take 3 (db_outcomes w)) ->
  exists w',
    backup_database connection database_name backup_dir w
    = (Ok (OsPath.join backup_dir (artifact_name database_name (clock_now w))),
       w').
Proof.
  intros Hopen Hscript.
  unfold backup_database, Pyodbc.cursor, Pyodbc.execute, Pyodbc.commit,
    Pyodbc.scripted, Pyodbc.next_outcome, Pyodbc.require_open.
  exec.
  destruct (db_outcomes w) as [|o1 [|o2 [|o3 rest]]] eqn:Hdb; simpl in Hscript;
    repeat match goal with
           | H : Forall _ (_ :: _) |- _ => inversion H; subst; clear H
           end;
    crunch; try discriminate; eexists; reflexivity.
Qed.

(** ** The clock *)

Lemma mkdir_keeps_clock name : keeps (same clock_of) (Os.mkdir name).
Proof. unfold Os.mkdir. frame. Qed.
#[local] Hint Resolve mkdir_keeps_clock : frame.

Lemma makedirs_fuel_keeps_clock fuel name :
  keeps (same clock_of) (Os.makedirs_fuel fuel name).
Proof.
  revert name. induction fuel as [|fuel IH]; intros name; simpl; frame.
Qed.

Lemma makedirs_keeps_clock name : keeps (same clock_of) (Os.makedirs name).
Proof. apply makedirs_fuel_keeps_clock. Qed.
#[local] Hint Resolve makedirs_keeps_clock : frame.

Lemma ensure_directory_keeps_clock directory :
  keeps (same clock_of) (ensure_directory directory).
Proof. unfold ensure_directory. frame. Qed.
#[local] Hint Resolve ensure_directory_keeps_clock : frame.

(** [create_backup_directory] reads the clock once. *)
Lemma create_backup_directory_clock base_dir w :
  clock_of (snd (create_backup_directory base_dir w))
  = clock_of (snd (read_clock w)).
Proof.
  rewrite create_backup_directory_unfold. cbv zeta.
  match goal with |- clock_of (snd (?c ?x)) = _ =>
    assert (Hk : keeps (same clock_of) c) by frame; exact (Hk x) end.
Qed.

(** [connect_to_sql_server] does not read it. *)
Lemma connect_to_sql_server_keeps_clock server database username password :
  keeps (same clock_of)
    (connect_to_sql_server server database username password).
Proof.
  unfold connect_to_sql_server, Pyodbc.connect, Pyodbc.scripted. frame.
Qed.

(** The [except] suite run on the frame an exception left behind. *)
Ltac run_handler :=
  let H := fresh "H" in
  intros H; inversion H; subst; split; [|split];
  [ repeat constructor; eexists; reflexivity
  | reflexivity
  | unfold call; run_frame;
    match goal with
    | |- context [send_email_notification ?a ?b ?c ?d ?e ?f ?g ?h ?x] =>
        let Hs := fresh "Hs" in
        pose proof (send_email_notification_returns a b c d e f g h x) as Hs;
        destruct (send_email_notification a b c d e f g h x) as [? ?];
        cbn [fst snd] in *; subst;
        do 2 eexists; split; [reflexivity|split; reflexivity]
    end ].

(** * The claims *)

(** ** C1: one notification per run

    C1.  Every call of [perform_backup] returns, and between its start
    and its return exactly one call of [send_email_notification] is
    made.  When the four deciding steps (directory, connection, backup,
    close) all work and produce the artifact path [backup_path], the
    subject is "Backup Success: YOUR_DATABASE" and the body ends with
    [backup_path]; when one of them raises [e], the subject is
    "Backup Failed: YOUR_DATABASE" and the body ends with the text of
    [e]. *)
Theorem exactly_one_notification_per_run (w : World) :
  exists w',
    perform_backup w = (Ok tt, w') /\
    match fst (backup_steps w) with
    | Ok backup_path =>
        notifications (trace w')
        = notifications (trace w)
          ++ [("Backup Success: YOUR_DATABASE",
               "Backup of database YOUR_DATABASE completed successfully. Backup file: "
               +:+ backup_path)]
    | Raise e =>
        notifications (trace w')
        = notifications (trace w)
          ++ [("Backup Failed: YOUR_DATABASE",
               "An error occurred during the backup of database YOUR_DATABASE. Error: "
               +:+ exn_text e)]
    end.
Proof.
  exists (snd (perform_backup w)). split.
  { rewrite (surjective_pairing (perform_backup w)) at 1.
    now rewrite perform_backup_returns. }
  rewrite perform_backup_unfold. unfold perform_backup_flat.
  destruct (backup_steps_emits w) as (evs & Ht & Hf).
  assert (Hq : notifications evs = []).
  { apply notifications_quiet. revert Hf. apply forallb_weaken.
    intros [] H; simpl in *; congruence. }
  destruct (backup_steps w) as [[backup_path|e] w1]; simpl in *.
  - destruct (notify_once success_subject (success_body backup_path) w1)
      as (_ & sm & Hs & Hsm).
    rewrite Hs, Ht, !notifications_app, Hq, app_nil_r. simpl.
    rewrite (notifications_quiet sm); [reflexivity|].
    revert Hsm. apply forallb_weaken. intros [] H; simpl in *; congruence.
  - unfold report_failure, bind, logging_error.
    match goal with |- context [notify ?a ?b ?x] =>
      destruct (notify_once a b x) as (_ & sm & Hs & Hsm) end.
    rewrite Hs. simpl. rewrite Ht, !notifications_app, Hq, app_nil_r. simpl.
    rewrite (notifications_quiet sm); [reflexivity|].
    revert Hsm. apply forallb_weaken. intros [] H; simpl in *; congruence.
Qed.

(** ** C2: the connection on the error path

    C2.  The connection is closed on the success path only.  When the
    connection was opened and [backup_database] then raises,
    [perform_backup] returns to its caller with that connection still
    open: the [except] suite never reaches [connection.close()]. *)
Theorem connection_left_open_when_backup_fails
    (w : World) (day_dir : string) (w1 : World) (h : nat) (w2 : World)
    (e : exn) (w3 : World) :
  create_backup_directory "/path/to/backup" w = (Ok day_dir, w1) ->
  connect_to_sql_server "YOUR_SERVER" "YOUR_DATABASE" "YOUR_USERNAME"
    "YOUR_PASSWORD" w1 = (Ok h, w2) ->
  backup_database h "YOUR_DATABASE" day_dir w2 = (Raise e, w3) ->
  fst (perform_backup w) = Ok tt /\
  conns (snd (perform_backup w)) !! h = Some ConnOpen.
Proof.
  intros Hdir Hconn Hbak. split; [apply perform_backup_returns|].
  rewrite perform_backup_unfold.
  unfold perform_backup_flat, backup_steps, bind at 1. rewrite Hdir.
  unfold bind at 1. rewrite Hconn. unfold bind at 1. rewrite Hbak.
  unfold report_failure, bind, logging_error, notify.
  match goal with |- context [send_email_notification ?a ?b ?c ?d ?e ?f ?g ?h ?x] =>
    rewrite (send_email_notification_keeps_conns a b c d e f g h x) end.
  simpl.
  pose proof (backup_database_keeps_conns h "YOUR_DATABASE" day_dir w2) as Hk.
  unfold same in Hk. rewrite Hbak in Hk. simpl in Hk. rewrite Hk.
  eapply connect_to_sql_server_opens; eassumption.
Qed.

(** The BACKUP statement fails on an opened connection. *)
Lemma connection_left_open_when_backup_fails_witness :
  fst (perform_backup Sample.backup_fails) = Ok tt /\
  conns (snd (perform_backup Sample.backup_fails)) !! 0 = Some ConnOpen.
Proof.
  apply (connection_left_open_when_backup_fails Sample.backup_fails
           "/path/to/backup/2024/03/08"
           (snd (create_backup_directory "/path/to/backup" Sample.backup_fails))
           0
           (snd (connect_to_sql_server "YOUR_SERVER" "YOUR_DATABASE"
                   "YOUR_USERNAME" "YOUR_PASSWORD"
                   (snd (create_backup_directory "/path/to/backup"
                           Sample.backup_fails))))
           (mkExn PyodbcError "Operating system error 112 (disk full).")
           (snd (backup_database 0 "YOUR_DATABASE" "/path/to/backup/2024/03/08"
                   (snd (connect_to_sql_server "YOUR_SERVER" "YOUR_DATABASE"
                           "YOUR_USERNAME" "YOUR_PASSWORD"
                           (snd (create_backup_directory "/path/to/backup"
                                   Sample.backup_fails)))))));
    vm_compute; reflexivity.
Defined.

(** ** C3: nothing leaves the job

    C3.  [perform_backup] returns normally from every world, that is
    for every outcome of directory preparation, connection, backup and
    notification delivery; [send_email_notification] returns normally
    whatever the transport does, and when the SMTP session raises [e]
    it leaves one ERROR line with the text of [e] in the log and
    nothing else; every prefix of the scheduler loop therefore returns
    too. *)
Theorem no_error_leaves_the_job :
  (forall w, fst (perform_backup w) = Ok tt) /\
  (forall subject body from_email to_email smtp_server smtp_port smtp_user
          smtp_password w,
      fst (send_email_notification subject body from_email to_email
             smtp_server smtp_port smtp_user smtp_password w) = Ok tt) /\
  (forall subject body from_email to_email smtp_server smtp_port smtp_user
          smtp_password w e w1,
      smtp_session subject body from_email to_email smtp_server smtp_port
        smtp_user smtp_password (snd (emit (EvNotify subject body to_email) w))
      = (Raise e, w1) ->
      send_email_notification subject body from_email to_email smtp_server
        smtp_port smtp_user smtp_password w
      = (Ok tt,
         set_log (log w1 ++ [(ERROR, "Failed to send email notification: "
                                     +:+ exn_text e)]) w1)) /\
  (forall (job : Type) (should_run : job -> DateTime -> bool)
          (schedule_next_run : job -> DateTime -> job) n j w,
      exists j', fst (main_loop job should_run schedule_next_run n j w) = Ok j').
Proof.
  split; [exact perform_backup_returns|].
  split; [exact send_email_notification_returns|].
  split; [|intros; apply main_loop_returns].
  intros subject body from_email to_email smtp_server smtp_port smtp_user
    smtp_password w e w1 H.
  unfold send_email_notification, bind at 1, try_except.
  simpl in *. rewrite H. reflexivity.
Qed.

(** With the mail relay down the run still returns, and the refusal is
    in the log. *)
Lemma no_error_leaves_the_job_witness :
  fst (perform_backup Sample.relay_down) = Ok tt /\
  In (ERROR, "Failed to send email notification: [Errno 111] Connection refused")
     (log (snd (perform_backup Sample.relay_down))).
Proof.
  split.
  - exact (proj1 no_error_leaves_the_job Sample.relay_down).
  - vm_compute. tauto.
Defined.

(** ** C4: the partition path, and idempotence

    C4.  For every base directory and every date read from the clock,
    what [create_backup_directory] returns is the day directory
    base/YYYY/MM/DD of that date: the base directory, one separator
    unless the base is empty or already ends in one, the year in
    decimal, and month and day padded with zeros to two characters.  It
    returns that path without touching the file system when the three
    directories exist, creates them under an existing writable base
    directory when they are missing, and a call that has returned can
    be repeated for the same date with the same result and no further
    change. *)
Theorem create_backup_directory_path_and_idempotence
    (base_dir : string) (w : World) :
  let today := date_of (clock_now w) in
  let target := day_dir base_dir today in
  (forall p w', create_backup_directory base_dir w = (Ok p, w') -> p = target) /\
  target
  = (if (String.eqb base_dir "" || PyStr.endswith_sep base_dir)%bool
     then base_dir else base_dir +:+ "/")
    +:+ PyStr.str (d_year today)
    +:+ "/" +:+ PyStr.zfill 2 (PyStr.str (d_month today))
    +:+ "/" +:+ PyStr.zfill 2 (PyStr.str (d_day today)) /\
  (valid_date today ->
   String.length (PyStr.zfill 2 (PyStr.str (d_month today))) = 2 /\
   String.length (PyStr.zfill 2 (PyStr.str (d_day today))) = 2 /\
   (1000 <= d_year today -> String.length (PyStr.str (d_year today)) = 4)) /\
  (is_Some (fs w !! year_dir base_dir today) ->
   is_Some (fs w !! month_dir base_dir today) ->
   is_Some (fs w !! target) ->
   exists w',
     create_backup_directory base_dir w = (Ok target, w') /\
     fs w' = fs w /\ trace w' = trace w) /\
  (base_dir <> "" -> PyStr.endswith_sep base_dir = false ->
   fs w !! base_dir = Some (Dir true) ->
   fs w !! year_dir base_dir today = None ->
   fs w !! month_dir base_dir today = None ->
   fs w !! target = None ->
   exists w',
     create_backup_directory base_dir w = (Ok target, w') /\
     fs w' = <[target := Dir true]>
               (<[month_dir base_dir today := Dir true]>
                  (<[year_dir base_dir today := Dir true]> (fs w)))) /\
  (forall p w1,
     create_backup_directory base_dir w = (Ok p, w1) ->
     forall w2,
       fs w2 = fs w1 -> date_of (clock_now w2) = today ->
       exists w3,
         create_backup_directory base_dir w2 = (Ok p, w3) /\
         fs w3 = fs w2 /\ trace w3 = trace w2).
Proof.
  cbv zeta. split; [|split; [|split; [|split; [|split]]]].
  - apply create_backup_directory_result.
  - destruct (segment_facts _ (str_digits (d_year (date_of (clock_now w))))
                (str_nonempty _)) as (HsY & _).
    rewrite day_dir_eq, month_dir_eq. unfold year_dir.
    rewrite join_segment by assumption.
    destruct (_ || _)%bool; now rewrite ?append_assoc.
  - intros ([_ Hy] & [_ Hm] & [_ Hd]). simpl in *.
    split; [apply zfill2_roundtrip; lia|].
    split; [apply zfill2_roundtrip; lia|].
    intros Hy'. pose proof (str_year_width _ Hy) as Hw.
    destruct (Nat.leb_spec 1000 (year (clock_now w))); [|lia].
    rewrite <- Hw. now apply zfill4_roundtrip.
  - intros HY HM HD. eexists. split.
    + now apply create_backup_directory_present.
    + split; [apply read_clock_fs|apply read_clock_trace].
  - apply create_backup_directory_fresh.
  - intros p w1 H1 w2 Hfs Hdate.
    pose proof (create_backup_directory_result _ _ _ _ H1) as ->.
    destruct (create_backup_directory_ok _ _ _ _ H1) as (HY & HM & HD).
    rewrite <- Hfs, <- Hdate in HY, HM, HD. rewrite <- Hdate.
    eexists. split.
    + now apply create_backup_directory_present.
    + split; [apply read_clock_fs|apply read_clock_trace].
Qed.

(** On a fresh file system the first call creates the partition and the
    second returns the same path and changes nothing. *)
Lemma create_backup_directory_path_and_idempotence_witness :
  exists w3,
    create_backup_directory "/path/to/backup"
      (snd (create_backup_directory "/path/to/backup" Sample.all_fine))
    = (Ok "/path/to/backup/2024/03/08", w3) /\
    fs w3 = fs (snd (create_backup_directory "/path/to/backup" Sample.all_fine)) /\
    trace w3
    = trace (snd (create_backup_directory "/path/to/backup" Sample.all_fine)).
Proof.
  apply (proj2 (proj2 (proj2 (proj2 (proj2
           (create_backup_directory_path_and_idempotence
              "/path/to/backup" Sample.all_fine)))))
           "/path/to/backup/2024/03/08"
           (snd (create_backup_directory "/path/to/backup" Sample.all_fine))).
  - vm_compute. reflexivity.
  - reflexivity.
  - vm_compute. reflexivity.
Defined.

(** ** C5: when directory preparation fails

    C5, as the code has it.  On a file system where nothing lives below
    a regular file, [create_backup_directory] raises an [OSError]
    whenever the year or the month segment is a regular file
    ([NotADirectoryError]), and whenever the first missing segment
    would have to be created in a directory that may not be written
    ([PermissionError]).  Such an error ends the run at once: the run is
    the failure report of that error, with one failure notification,
    and the file system is left as the failed attempt left it. *)
Theorem create_backup_directory_failures (base_dir : string) (w : World) :
  let today := date_of (clock_now w) in
  let Y := year_dir base_dir today in
  let M := month_dir base_dir today in
  let D := day_dir base_dir today in
  partition_wf base_dir today (fs w) ->
  (fs w !! Y = Some File ->
   exists w',
     create_backup_directory base_dir w
     = (Raise (mkExn NotADirectoryError
                 ("[Errno 20] Not a directory: " +:+ Os.quoted M)), w')) /\
  (fs w !! M = Some File ->
   exists w',
     create_backup_directory base_dir w
     = (Raise (mkExn NotADirectoryError
                 ("[Errno 20] Not a directory: " +:+ Os.quoted D)), w')) /\
  (base_dir <> "" -> PyStr.endswith_sep base_dir = false ->
   fs w !! base_dir = Some (Dir false) -> fs w !! Y = None ->
   exists w',
     create_backup_directory base_dir w
     = (Raise (mkExn PermissionError
                 ("[Errno 13] Permission denied: " +:+ Os.quoted Y)), w')) /\
  (fs w !! Y = Some (Dir false) -> fs w !! M = None ->
   exists w',
     create_backup_directory base_dir w
     = (Raise (mkExn PermissionError
                 ("[Errno 13] Permission denied: " +:+ Os.quoted M)), w')) /\
  (fs w !! M = Some (Dir false) -> fs w !! D = None ->
   exists w',
     create_backup_directory base_dir w
     = (Raise (mkExn PermissionError
                 ("[Errno 13] Permission denied: " +:+ Os.quoted D)), w')) /\
  (forall e w1,
     base_dir = "/path/to/backup" ->
     create_backup_directory base_dir w = (Raise e, w1) ->
     exists w' evs,
       perform_backup w = (Ok tt, w') /\
       perform_backup w = report_failure e w1 /\
       trace w' = trace w ++ evs /\
       notifications evs
       = [("Backup Failed: YOUR_DATABASE",
           "An error occurred during the backup of database YOUR_DATABASE. Error: "
           +:+ exn_text e)] /\
       fs w' = fs w1).
Proof.
  cbv zeta. intros [HwfM HwfD].
  assert (Habsent : forall (a b : string),
            (is_Some (fs w !! b) -> exists wr, fs w !! a = Some (Dir wr)) ->
            fs w !! a = Some File -> fs w !! b = None).
  { intros a b Hwf Ha. destruct (fs w !! b) eqn:Hb; [|reflexivity].
    destruct Hwf as [wr Hwr]; [eauto|]. congruence. }
  split; [|split; [|split; [|split; [|split]]]].
  - intros HY. eexists. apply create_backup_directory_year_is_file; [assumption|].
    now apply (Habsent _ _ HwfM).
  - intros HM. eexists. apply create_backup_directory_month_is_file.
    + destruct HwfM as [wr Hwr]; [rewrite HM|rewrite Hwr]; eauto.
    + assumption.
    + now apply (Habsent _ _ HwfD).
  - intros Hb He Hbase HY. eexists.
    now apply create_backup_directory_base_denied.
  - intros HY HM. eexists. now apply create_backup_directory_year_denied.
  - intros HM HD. eexists. apply create_backup_directory_month_denied.
    + destruct HwfM as [wr Hwr]; [rewrite HM|rewrite Hwr]; eauto.
    + assumption.
    + assumption.
  - intros e w1 -> Hdir.
    destruct (directory_failure_run w e w1 Hdir)
      as (Hrun & w' & evs & Hp & Ht & _ & Hn & Hfs).
    exists w', evs. repeat split; assumption.
Qed.

(** The year segment is a regular file: [NotADirectoryError]. *)
Lemma create_backup_directory_failures_witness :
  exists w',
    create_backup_directory "/path/to/backup" Sample.year_is_file
    = (Raise (mkExn NotADirectoryError
                "[Errno 20] Not a directory: '/path/to/backup/2024/03'"), w').
Proof.
  refine (proj1 (create_backup_directory_failures "/path/to/backup"
                   Sample.year_is_file _) _).
  - split; vm_compute; intros [n Hn]; discriminate.
  - vm_compute. reflexivity.
Defined.

(** C5 as stated fails on the day segment: a regular file where the day
    directory should be is found "existing" and returned as the backup
    directory, and with a database that accepts the statement the run
    even reports success. *)
Lemma day_segment_file_goes_unnoticed :
  fs Sample.day_is_file
    !! day_dir "/path/to/backup" (date_of (clock_now Sample.day_is_file))
  = Some File /\
  fst (create_backup_directory "/path/to/backup" Sample.day_is_file)
  = Ok "/path/to/backup/2024/03/08" /\
  notifications (trace (snd (perform_backup Sample.day_is_file)))
  = [("Backup Success: YOUR_DATABASE",
      "Backup of database YOUR_DATABASE completed successfully. Backup file: /path/to/backup/2024/03/08/YOUR_DATABASE_backup_20240308_080001.bak")].
Proof. vm_compute. repeat split; reflexivity. Qed.

(** ** C6: fail-fast ordering

    C6.  When directory preparation raises [e], the run is exactly the
    failure report for [e]: no ODBC call is made (neither
    [connect_to_sql_server] nor [backup_database] starts), and the one
    notification of the run is the failure notification carrying the
    text of [e]. *)
Theorem directory_failure_skips_the_database (w : World) (e : exn) (w1 : World) :
  create_backup_directory "/path/to/backup" w = (Raise e, w1) ->
  perform_backup w = report_failure e w1 /\
  exists w' evs,
    perform_backup w = (Ok tt, w') /\
    trace w' = trace w ++ evs /\
    forallb (fun ev => negb (is_db_event ev)) evs = true /\
    notifications evs
    = [("Backup Failed: YOUR_DATABASE",
        "An error occurred during the backup of database YOUR_DATABASE. Error: "
        +:+ exn_text e)].
Proof.
  intros Hdir.
  destruct (directory_failure_run w e w1 Hdir)
    as (Hrun & w' & evs & Hp & Ht & Hdb & Hn & _).
  split; [exact Hrun|]. exists w', evs. repeat split; assumption.
Qed.

(** The year segment is a regular file: the run is the failure report. *)
Lemma directory_failure_skips_the_database_witness :
  exists w' evs,
    perform_backup Sample.year_is_file = (Ok tt, w') /\
    trace w' = trace Sample.year_is_file ++ evs /\
    forallb (fun ev => negb (is_db_event ev)) evs = true /\
    notifications evs
    = [("Backup Failed: YOUR_DATABASE",
        "An error occurred during the backup of database YOUR_DATABASE. Error: "
        +:+ "[Errno 20] Not a directory: '/path/to/backup/2024/03'")].
Proof.
  apply (directory_failure_skips_the_database Sample.year_is_file
           (mkExn NotADirectoryError
              "[Errno 20] Not a directory: '/path/to/backup/2024/03'")
           (snd (create_backup_directory "/path/to/backup" Sample.year_is_file))).
  vm_compute. reflexivity.
Defined.

(** ** C7: the artifact path

    C7, as the code has it.  [backup_database] names the artifact
    '{database}_backup_{YYYYMMDD_HHMMSS}.bak' from the reading of the
    clock it is started with and joins that name onto the directory it
    is given; on an open connection with a driver that accepts the
    statement it returns that path.  The stamp of a valid reading is
    fifteen characters wide, and two runs whose readings differ, by a
    second or more, never get the same path. *)
Theorem backup_artifact_path
    (connection : nat) (database_name backup_dir : string) (w : World) :
  let t := clock_now w in
  let filename := database_name +:+ "_backup_" +:+ Strftime.Ymd_HMS t +:+ ".bak" in
  (forall p w',
     backup_database connection database_name backup_dir w = (Ok p, w') ->
     p = OsPath.join backup_dir filename) /\
  (conns w !! connection = Some ConnOpen ->
   Forall (fun o => o = None) (take 3 (db_outcomes w)) ->
   exists w',
     backup_database connection database_name backup_dir w
     = (Ok (OsPath.join backup_dir filename), w')) /\
  (backup_dir <> "" -> PyStr.endswith_sep backup_dir = false ->
   PyStr.startswith_sep database_name = false ->
   OsPath.join backup_dir filename = backup_dir +:+ "/" +:+ filename) /\
  (valid_datetime t -> String.length (Strftime.Ymd_HMS t) = 15) /\
  (forall t',
     valid_datetime t -> valid_datetime t' -> t' <> t ->
     OsPath.join backup_dir
       (database_name +:+ "_backup_" +:+ Strftime.Ymd_HMS t' +:+ ".bak")
     <> OsPath.join backup_dir filename).
Proof.
  cbv zeta. split; [|split; [|split; [|split]]].
  - apply backup_database_result.
  - apply backup_database_returns.
  - intros Hne He Hs. unfold OsPath.join. rewrite He.
    destruct (String.eqb_spec backup_dir ""); [contradiction|].
    destruct database_name; [reflexivity|]. simpl in *. now rewrite Hs.
  - apply Ymd_HMS_length.
  - intros t' V V' Hne H. apply Hne.
    eapply artifact_path_inj; eassumption.
Qed.

(** A second later the path is another one. *)
Lemma backup_artifact_path_witness :
  OsPath.join "/path/to/backup/2024/03/08"
    ("YOUR_DATABASE" +:+ "_backup_"
     +:+ Strftime.Ymd_HMS (mkDateTime 2024 3 8 8 0 1) +:+ ".bak")
  <> OsPath.join "/path/to/backup/2024/03/08"
       ("YOUR_DATABASE" +:+ "_backup_"
        +:+ Strftime.Ymd_HMS (clock_now Sample.all_fine) +:+ ".bak").
Proof.
  apply (proj2 (proj2 (proj2 (proj2
           (backup_artifact_path 0 "YOUR_DATABASE" "/path/to/backup/2024/03/08"
              Sample.all_fine))))).
  - vm_compute. repeat split; lia.
  - vm_compute. repeat split; lia.
  - discriminate.
Defined.

(** C7 as stated fails for two runs within one second: both get the
    same artifact path. *)
Lemma same_second_runs_collide :
  fst (backup_steps Sample.same_second)
  = Ok "/path/to/backup/2024/03/08/YOUR_DATABASE_backup_20240308_080000.bak" /\
  fst (backup_steps (snd (perform_backup Sample.same_second)))
  = Ok "/path/to/backup/2024/03/08/YOUR_DATABASE_backup_20240308_080000.bak".
Proof. vm_compute. split; reflexivity. Qed.

(** ** C9: the handler's names are bound

    C9.  Whatever exception leaves the [try] suite of [perform_backup],
    the frame it leaves behind binds every name the [except] suite
    reads (the ten configuration assignments run before the first call
    that can raise), and the [except] suite then completes: building
    the failure subject and body never fails on an unbound name. *)
Theorem handler_names_are_bound
    (w : World) (e : exn) (frame1 : Locals) (w1 : World) :
  perform_backup_try ([], w) = (Raise e, (frame1, w1)) ->
  Forall (fun name => is_Some (lookup_local name frame1)) handler_reads /\
  lookup_local "database" frame1 = Some (VStr "YOUR_DATABASE") /\
  exists frame2 w2,
    perform_backup_except e (frame1, w1) = (Ok tt, (frame2, w2)) /\
    lookup_local "subject" frame2 = Some (VStr "Backup Failed: YOUR_DATABASE") /\
    lookup_local "body" frame2
    = Some (VStr ("An error occurred during the backup of database YOUR_DATABASE. Error: "
                  +:+ exn_text e)).
Proof.
  unfold perform_backup_try, perform_backup_except,
    call_send_email_notification, bind.
  run_frame.
  destruct (create_backup_directory "/path/to/backup" w) as [[day_dir|e1] w2];
    run_frame; [|run_handler].
  destruct (connect_to_sql_server _ _ _ _ w2) as [[connection|e1] w3];
    run_frame; [|run_handler].
  destruct (backup_database connection _ day_dir w3) as [[backup_path|e1] w4];
    run_frame; [|run_handler].
  destruct (Pyodbc.close connection w4) as [[[]|e1] w5]; run_frame;
    [|run_handler].
  unfold call. run_frame.
  match goal with |- context [send_email_notification ?a ?b ?c ?d ?e ?f ?g ?h ?x] =>
    pose proof (send_email_notification_returns a b c d e f g h x) as Hs;
    destruct (send_email_notification a b c d e f g h x) as [r w6] end.
  simpl in Hs. subst r. run_frame. discriminate.
Qed.

(** The server refuses the login: the frame left behind binds the
    names, and the handler completes. *)
Lemma handler_names_are_bound_witness :
  Forall (fun name =>
            is_Some (lookup_local name
                       (fst (snd (perform_backup_try ([], Sample.login_refused))))))
    handler_reads /\
  lookup_local "database"
    (fst (snd (perform_backup_try ([], Sample.login_refused))))
  = Some (VStr "YOUR_DATABASE") /\
  exists frame2 w2,
    perform_backup_except
      (mkExn PyodbcError "Login failed for user 'YOUR_USERNAME'.")
      (fst (snd (perform_backup_try ([], Sample.login_refused))),
       snd (snd (perform_backup_try ([], Sample.login_refused))))
    = (Ok tt, (frame2, w2)) /\
    lookup_local "subject" frame2 = Some (VStr "Backup Failed: YOUR_DATABASE") /\
    lookup_local "body" frame2
    = Some (VStr ("An error occurred during the backup of database YOUR_DATABASE. Error: "
                  +:+ exn_text
                        (mkExn PyodbcError "Login failed for user 'YOUR_USERNAME'."))).
Proof.
  refine (handler_names_are_bound Sample.login_refused _ _ _ _).
  vm_compute. reflexivity.
Defined.

(** ** C10: two readings of the clock

    C10.  In a run that gets as far as naming the artifact, the
    partition directory is made from the reading of the clock the run
    starts with and the file name from the next reading: the two are
    read separately, by [create_backup_directory] and by
    [backup_database].  When the two readings fall on different days,
    the YYYYMMDD part of the file name is not the date of the directory
    the artifact is written into. *)
Theorem partition_and_filename_read_the_clock_separately
    (w : World) (t2 : DateTime) (rest : list DateTime)
    (backup_path : string) (w' : World) :
  clock_next w = t2 :: rest ->
  backup_steps w = (Ok backup_path, w') ->
  let today := date_of (clock_now w) in
  backup_path
  = OsPath.join (day_dir "/path/to/backup" today)
      ("YOUR_DATABASE" +:+ "_backup_" +:+ Strftime.Ymd t2 +:+ "_"
       +:+ Strftime.HMS t2 +:+ ".bak") /\
  (valid_datetime (clock_now w) -> valid_datetime t2 ->
   date_of t2 <> today ->
   Strftime.Ymd t2
   <> PyStr.str (d_year today) +:+ PyStr.zfill 2 (PyStr.str (d_month today))
      +:+ PyStr.zfill 2 (PyStr.str (d_day today))).
Proof.
  intros Hnext Hrun. cbv zeta. split.
  - revert Hrun. unfold backup_steps, bind.
    destruct (create_backup_directory _ w) as [[dir|e] w1] eqn:Hdir;
      [|discriminate].
    destruct (connect_to_sql_server _ _ _ _ w1) as [[h|e] w2] eqn:Hconn;
      [|discriminate].
    destruct (backup_database h _ dir w2) as [[p|e] w3] eqn:Hbak;
      [|discriminate].
    destruct (Pyodbc.close h w3) as [[[]|e] w4]; [|discriminate].
    unfold logging_info, ret. intros H. injection H as <- _.
    apply backup_database_result in Hbak. rewrite Hbak.
    apply create_backup_directory_result in Hdir as Hd. rewrite Hd.
    pose proof (connect_to_sql_server_keeps_clock "YOUR_SERVER" "YOUR_DATABASE"
                  "YOUR_USERNAME" "YOUR_PASSWORD" w1) as Hc.
    rewrite Hconn in Hc.
    pose proof (create_backup_directory_clock "/path/to/backup" w) as Hk.
    rewrite Hdir in Hk. unfold same in Hc. simpl in Hc, Hk.
    assert (Ht : clock_now w2 = t2).
    { apply (f_equal fst) in Hc, Hk. simpl in Hc, Hk. rewrite Hc, Hk.
      unfold read_clock. now rewrite Hnext. }
    rewrite Ht. unfold artifact_name, Strftime.Ymd_HMS.
    now rewrite !append_assoc.
  - intros V1 V2 Hne H. apply Hne. clear Hne Hrun Hnext.
    destruct V1 as ((Hy1 & Hm1 & Hd1) & _). simpl in *.
    pose proof (Ymd_length t2 V2) as Hlen.
    destruct V2 as ((Hy2 & Hm2 & Hd2) & _). simpl in *.
    pose proof (str_year_width (year (clock_now w)) ltac:(lia)) as Hw.
    destruct (1000 <=? year (clock_now w))%nat.
    + rewrite <- Hw in H. unfold Strftime.Ymd, Strftime.pct_Y, Strftime.pct_m,
        Strftime.pct_d in H.
      apply append_inj in H as [HY H].
      2:{ rewrite (proj1 (zfill4_roundtrip (year t2) ltac:(lia))).
          now rewrite (proj1 (zfill4_roundtrip (year (clock_now w)) ltac:(lia))). }
      apply append_inj in H as [HM HD].
      2:{ rewrite (proj1 (zfill2_roundtrip (month t2) ltac:(lia))).
          now rewrite (proj1 (zfill2_roundtrip (month (clock_now w)) ltac:(lia))). }
      apply zfill4_inj in HY; [|lia..]. apply zfill2_inj in HM; [|lia..].
      apply zfill2_inj in HD; [|lia..]. unfold date_of. congruence.
    + apply (f_equal String.length) in H. rewrite Hlen in H.
      rewrite !append_length in H.
      rewrite (proj1 (zfill2_roundtrip (month (clock_now w)) ltac:(lia))) in H.
      rewrite (proj1 (zfill2_roundtrip (day (clock_now w)) ltac:(lia))) in H.
      lia.
Qed.

(** Over midnight: the directory is that of the 8th, the name says the
    9th. *)
Lemma partition_and_filename_read_the_clock_separately_witness :
  fst (backup_steps Sample.over_midnight)
  = Ok (OsPath.join (day_dir "/path/to/backup" (mkDate 2024 3 8))
          ("YOUR_DATABASE" +:+ "_backup_"
           +:+ Strftime.Ymd (mkDateTime 2024 3 9 0 0 1) +:+ "_"
           +:+ Strftime.HMS (mkDateTime 2024 3 9 0 0 1) +:+ ".bak")) /\
  Strftime.Ymd (mkDateTime 2024 3 9 0 0 1)
  <> PyStr.str 2024 +:+ PyStr.zfill 2 (PyStr.str 3) +:+ PyStr.zfill 2 (PyStr.str 8).
Proof.
  destruct (partition_and_filename_read_the_clock_separately
              Sample.over_midnight (mkDateTime 2024 3 9 0 0 1) []
              "/path/to/backup/2024/03/08/YOUR_DATABASE_backup_20240309_000001.bak"
              (snd (backup_steps Sample.over_midnight)))
    as [Hpath Hstamp].
  - reflexivity.
  - vm_compute. reflexivity.
  - split.
    + vm_compute. reflexivity.
    + apply Hstamp.
      * vm_compute. repeat split; lia.
      * vm_compute. repeat split; lia.
      * discriminate.
Defined.

(** * Further properties *)

(** ** Connecting *)

(** X1.  [connect_to_sql_server] makes one call of [pyodbc.connect], with
    the connection string built from its four arguments.  When the
    driver accepts the call, the new connection is returned, open, after
    the connections there were, and one INFO line is logged.  When the
    driver raises, the same exception is raised again to the caller after
    one ERROR line "Failed to connect to SQL Server: <text>" is logged,
    and no connection is added. *)
Theorem connect_to_sql_server_logs_and_reraises
    (server database username password : string) (w : World) :
  let cs := connection_string_of server database username password in
  match hd None (db_outcomes w) with
  | None =>
      exists w',
        connect_to_sql_server server database username password w
        = (Ok (length (conns w)), w') /\
        conns w' = conns w ++ [ConnOpen] /\
        log w' = log w ++ [(INFO, "Connected to SQL Server successfully.")] /\
        trace w' = trace w ++ [EvConnect cs]
  | Some msg =>
      exists w',
        connect_to_sql_server server database username password w
        = (Raise (mkExn PyodbcError msg), w') /\
        conns w' = conns w /\
        log w' = log w ++ [(ERROR, "Failed to connect to SQL Server: " +:+ msg)] /\
        trace w' = trace w ++ [EvConnect cs]
  end.
Proof.
  cbv zeta. unfold connect_to_sql_server, Pyodbc.connect, Pyodbc.scripted,
    Pyodbc.next_outcome.
  exec. simpl.
  destruct (db_outcomes w) as [|[msg|] rest]; simpl; eexists;
    repeat split; reflexivity.
Qed.

(** ** Backing up *)

Lemma backup_database_shape connection database_name backup_dir w :
  let path := OsPath.join backup_dir (artifact_name database_name (clock_now w)) in
  let sql := backup_statement database_name path in
  exists evs,
    trace (snd (backup_database connection database_name backup_dir w))
    = trace w ++ evs /\
    conns (snd (backup_database connection database_name backup_dir w)) = conns w /\
    fs (snd (backup_database connection database_name backup_dir w)) = fs w /\
    match fst (backup_database connection database_name backup_dir w) with
    | Ok p =>
        p = path /\
        evs = [EvCursor connection; EvExecute connection sql; EvCommit connection] /\
        log (snd (backup_database connection database_name backup_dir w))
        = log w ++ [(INFO, "Backup of database " +:+ database_name
                           +:+ " completed successfully. Saved to " +:+ path)]
    | Raise e =>
        (evs = [EvCursor connection]
         \/ evs = [EvCursor connection; EvExecute connection sql]
         \/ evs = [EvCursor connection; EvExecute connection sql;
                   EvCommit connection]) /\
        log (snd (backup_database connection database_name backup_dir w))
        = log w ++ [(ERROR, "Failed to back up the database: " +:+ exn_text e)]
    end.
Proof.
  cbv zeta.
  unfold backup_database, Pyodbc.cursor, Pyodbc.execute, Pyodbc.commit,
    Pyodbc.scripted, Pyodbc.next_outcome, Pyodbc.require_open.
  exec. crunch;
    eexists; (split; [rewrite <- ?app_assoc; simpl; reflexivity|]);
    repeat split; auto.
Qed.

(** X2.  [backup_database] talks to the driver in a fixed order:
    [cursor()], then [execute] of the BACKUP statement for the path it
    has computed, then [commit()].  It stops at the first call that
    raises, so what it has done is a prefix of these three calls, and all
    three when it returns.  It opens and closes no connection, and when
    it raises it has logged one ERROR line "Failed to back up the
    database: <text>" with the text of the exception it raises. *)
Theorem backup_database_calls_in_order
    (connection : nat) (database_name backup_dir : string) (w : World) :
  let run := backup_database connection database_name backup_dir w in
  let path := OsPath.join backup_dir (artifact_name database_name (clock_now w)) in
  let sql := backup_statement database_name path in
  exists evs,
    trace (snd run) = trace w ++ evs /\
    conns (snd run) = conns w /\
    (evs = [EvCursor connection]
     \/ evs = [EvCursor connection; EvExecute connection sql]
     \/ evs = [EvCursor connection; EvExecute connection sql; EvCommit connection]) /\
    (forall p, fst run = Ok p ->
               evs = [EvCursor connection; EvExecute connection sql;
                      EvCommit connection]) /\
    (forall e, fst run = Raise e ->
               log (snd run)
               = log w ++ [(ERROR, "Failed to back up the database: "
                                   +:+ exn_text e)]).
Proof.
  cbv zeta.
  destruct (backup_database_shape connection database_name backup_dir w)
    as (evs & Ht & Hc & _ & Hr).
  exists evs. split; [exact Ht|]. split; [exact Hc|].
  destruct (fst (backup_database connection database_name backup_dir w))
    as [p|e].
  - destruct Hr as (_ & -> & _). split; [auto|]. split; [auto|discriminate].
  - destruct Hr as (Hs & Hl). split; [exact Hs|]. split; [discriminate|].
    intros e' H. now inversion H; subst.
Qed.

(** ** Notifying *)

Lemma send_email_notification_shape
    subject body from_email to_email smtp_server smtp_port smtp_user
    smtp_password w :
  let run := send_email_notification subject body from_email to_email
               smtp_server smtp_port smtp_user smtp_password w in
  let sent := (INFO, "Email notification sent successfully.") in
  exists evs lines,
    trace (snd run) = trace w ++ EvNotify subject body to_email :: evs /\
    log (snd run) = log w ++ lines /\
    conns (snd run) = conns w /\ fs (snd run) = fs w /\
    ((evs = [EvSmtpOpen smtp_server smtp_port] /\ ~ In sent lines)
     \/ (evs = [EvSmtpOpen smtp_server smtp_port; EvStartTls; EvSmtpQuit]
         /\ ~ In sent lines)
     \/ (evs = [EvSmtpOpen smtp_server smtp_port; EvStartTls;
                EvLogin smtp_user smtp_password; EvSmtpQuit]
         /\ ~ In sent lines)
     \/ (evs = [EvSmtpOpen smtp_server smtp_port; EvStartTls;
                EvLogin smtp_user smtp_password;
                EvSendmail from_email to_email subject body; EvSmtpQuit])).
Proof.
  cbv zeta.
  unfold send_email_notification, smtp_session, Smtplib.with_SMTP,
    Smtplib.SMTP, Smtplib.starttls, Smtplib.login, Smtplib.sendmail,
    Smtplib.quit, Smtplib.scripted, Smtplib.next_outcome.
  exec. crunch;
    do 2 eexists;
    (split; [rewrite <- ?app_assoc; simpl; reflexivity|]);
    (split; [rewrite <- ?app_assoc; simpl; reflexivity|]);
    (split; [reflexivity|]); (split; [reflexivity|]);
    first [ left; split; [reflexivity|simpl; intuition congruence]
          | right; left; split; [reflexivity|simpl; intuition congruence]
          | right; right; left; split; [reflexivity|simpl; intuition congruence]
          | right; right; right; reflexivity ].
Qed.

(** X3.  [send_email_notification] always returns.  The login is only
    sent after the session was opened and STARTTLS was sent; [sendmail]
    is only called after the login, and then the relay has seen the five
    steps in order; the line "Email notification sent successfully." is
    only logged when [sendmail] was called. *)
Theorem sendmail_only_after_tls_and_login
    (subject body from_email to_email smtp_server : string) (smtp_port : Z)
    (smtp_user smtp_password : string) (w : World) :
  let run := send_email_notification subject body from_email to_email
               smtp_server smtp_port smtp_user smtp_password w in
  exists evs lines,
    fst run = Ok tt /\
    trace (snd run) = trace w ++ EvNotify subject body to_email :: evs /\
    log (snd run) = log w ++ lines /\
    (In (EvLogin smtp_user smtp_password) evs ->
     exists rest,
       evs = EvSmtpOpen smtp_server smtp_port :: EvStartTls
             :: EvLogin smtp_user smtp_password :: rest) /\
    (In (EvSendmail from_email to_email subject body) evs ->
     evs = [EvSmtpOpen smtp_server smtp_port; EvStartTls;
            EvLogin smtp_user smtp_password;
            EvSendmail from_email to_email subject body; EvSmtpQuit]) /\
    (In (INFO, "Email notification sent successfully.") lines ->
     In (EvSendmail from_email to_email subject body) evs).
Proof.
  cbv zeta.
  destruct (send_email_notification_shape subject body from_email to_email
              smtp_server smtp_port smtp_user smtp_password w)
    as (evs & lines & Ht & Hl & _ & _ & Hs).
  exists evs, lines.
  split; [apply send_email_notification_returns|].
  split; [exact Ht|]. split; [exact Hl|].
  destruct Hs as [[-> Hn] | [[-> Hn] | [[-> Hn] | -> ]]]; simpl;
    repeat split; try tauto; try reflexivity;
    intros H; repeat (destruct H as [H|H]; try discriminate H);
    try contradiction; eauto.
Qed.

(** X4.  The [with smtplib.SMTP(...)] block of
    [send_email_notification]: the constructor is the first thing called.
    If it raises, nothing else is sent to the relay and the failure is
    logged as "Failed to send email notification: <text>".  If it
    returns, STARTTLS is attempted and QUIT is the last thing sent, once,
    however the block ended: the session is never left open. *)
Theorem smtp_session_is_closed_on_every_path
    (subject body from_email to_email smtp_server : string) (smtp_port : Z)
    (smtp_user smtp_password : string) (w : World) :
  let run := send_email_notification subject body from_email to_email
               smtp_server smtp_port smtp_user smtp_password w in
  exists evs,
    trace (snd run)
    = trace w ++ EvNotify subject body to_email
                 :: EvSmtpOpen smtp_server smtp_port :: evs /\
    match hd None (smtp_outcomes w) with
    | Some msg =>
        evs = [] /\
        log (snd run)
        = log w ++ [(ERROR, "Failed to send email notification: " +:+ msg)]
    | None =>
        exists mid,
          evs = EvStartTls :: mid ++ [EvSmtpQuit] /\ ~ In EvSmtpQuit mid
    end.
Proof.
  cbv zeta.
  unfold send_email_notification, smtp_session, Smtplib.with_SMTP,
    Smtplib.SMTP, Smtplib.starttls, Smtplib.login, Smtplib.sendmail,
    Smtplib.quit, Smtplib.scripted, Smtplib.next_outcome.
  exec. simpl.
  destruct (smtp_outcomes w) as [|[msg|] rest] eqn:Ho; crunch;
    (eexists; split; [rewrite <- ?app_assoc; simpl; reflexivity|]);
    first
      [ split; reflexivity
      | exists []; split; [reflexivity|simpl; intuition discriminate]
      | exists [EvLogin smtp_user smtp_password];
        split; [reflexivity|simpl; intuition discriminate]
      | exists [EvLogin smtp_user smtp_password;
                EvSendmail from_email to_email subject body];
        split; [reflexivity|simpl; intuition discriminate] ].
Qed.

(** ** Closing *)

Lemma close_shape h w :
  trace (snd (Pyodbc.close h w)) = trace w ++ [EvClose h] /\
  fs (snd (Pyodbc.close h w)) = fs w /\
  log (snd (Pyodbc.close h w)) = log w /\
  match fst (Pyodbc.close h w) with
  | Ok _ =>
      conns w !! h = Some ConnOpen /\
      conns (snd (Pyodbc.close h w)) = <[h := ConnClosed]> (conns w)
  | Raise e => conns (snd (Pyodbc.close h w)) = conns w
  end.
Proof.
  unfold Pyodbc.close, Pyodbc.scripted, Pyodbc.next_outcome,
    Pyodbc.require_open.
  exec. crunch; repeat split; auto.
Qed.

Lemma connect_to_sql_server_shape server database username password w :
  trace (snd (connect_to_sql_server server database username password w))
  = trace w ++ [EvConnect (connection_string_of server database username password)] /\
  fs (snd (connect_to_sql_server server database username password w)) = fs w /\
  match fst (connect_to_sql_server server database username password w) with
  | Ok h =>
      h = length (conns w) /\
      conns (snd (connect_to_sql_server server database username password w))
      = conns w ++ [ConnOpen]
  | Raise e =>
      conns (snd (connect_to_sql_server server database username password w))
      = conns w
  end.
Proof.
  unfold connect_to_sql_server, Pyodbc.connect, Pyodbc.scripted,
    Pyodbc.next_outcome.
  exec. crunch; repeat split; auto.
Qed.

(** ** Counting events *)

Lemma count_events_app P t1 t2 :
  count_events P (t1 ++ t2) = count_events P t1 + count_events P t2.
Proof. unfold count_events. now rewrite List.filter_app, length_app. Qed.

Lemma count_events_none P Q evs :
  (forall ev, Q ev = true -> P ev = false) ->
  forallb Q evs = true -> count_events P evs = 0.
Proof.
  intros HQ. unfold count_events. induction evs as [|ev evs IH]; [reflexivity|].
  simpl. intros [Hev Hevs]%andb_true_iff.
  rewrite (HQ ev Hev). now apply IH.
Qed.

(** ** Whole runs *)

(** The steps up to the backup add no notification, and leave the
    trace of the world they started in as a prefix. *)
Lemma quiet_of_fs evs :
  forallb is_fs_event evs = true -> notifications evs = [].
Proof.
  intros H. apply notifications_quiet. revert H. apply forallb_weaken.
  intros [] H; simpl in *; congruence.
Qed.

Lemma quiet_of_db evs :
  forallb is_db_event evs = true -> notifications evs = [].
Proof.
  intros H. apply notifications_quiet. revert H. apply forallb_weaken.
  intros [] H; simpl in *; congruence.
Qed.

Lemma quiet_of_smtp evs :
  forallb is_smtp_event evs = true -> notifications evs = [].
Proof.
  intros H. apply notifications_quiet. revert H. apply forallb_weaken.
  intros [] H; simpl in *; congruence.
Qed.

(** [notify] leaves connections and files alone. *)
Lemma notify_keeps subject body w :
  conns (snd (notify subject body w)) = conns w /\
  fs (snd (notify subject body w)) = fs w.
Proof.
  unfold notify.
  destruct (send_email_notification_shape subject body "smtp_user"
              "recipient@example.com" "smtp.example.com" 587 "smtp_user"
              "smtp_password" w) as (_ & _ & _ & _ & Hc & Hf & _).
  now split.
Qed.

(** Preparing the directory touches no connection. *)
Lemma create_backup_directory_keeps_conns base_dir :
  keeps (same conns) (create_backup_directory base_dir).
Proof.
  unfold create_backup_directory, date_today.
  assert (Hm : forall fuel name, keeps (same conns) (Os.makedirs_fuel fuel name)).
  { induction fuel as [|fuel IH]; intros name; simpl; unfold Os.mkdir; frame. }
  assert (Hmk : forall name, keeps (same conns) (Os.makedirs name))
    by (intros name; apply Hm).
  frame.
Qed.

(** X5.  In a run whose directory, connection, backup and close steps
    all worked, [connection.close()] is called before
    [send_email_notification]: nothing is sent to the mail relay and no
    notification is attempted before the close, the notification that
    follows it is the success one with the artifact path, and at the end
    of the run the connection is closed. *)
Theorem connection_closed_before_success_notification
    (w : World) (backup_path : string) (w1 : World) :
  backup_steps w = (Ok backup_path, w1) ->
  exists pre post,
    trace (snd (perform_backup w))
    = trace w ++ pre
      ++ EvClose (length (conns w))
      :: EvNotify "Backup Success: YOUR_DATABASE"
           ("Backup of database YOUR_DATABASE completed successfully. Backup file: "
            +:+ backup_path) "recipient@example.com"
      :: post /\
    notifications pre = [] /\
    count_events is_smtp_event pre = 0 /\
    conns (snd (perform_backup w)) !! length (conns w) = Some ConnClosed.
Proof.
  intros Hrun. rewrite perform_backup_unfold. unfold perform_backup_flat.
  rewrite Hrun. revert Hrun. unfold backup_steps, bind.
  destruct (create_backup_directory_emits "/path/to/backup" w) as (e1 & T1 & F1).
  pose proof (create_backup_directory_keeps_conns "/path/to/backup" w) as C1.
  unfold same in C1.
  destruct (create_backup_directory "/path/to/backup" w) as [[dir|e] w2];
    [|discriminate].
  destruct (connect_to_sql_server_shape "YOUR_SERVER" "YOUR_DATABASE"
              "YOUR_USERNAME" "YOUR_PASSWORD" w2) as (T2 & _ & S2).
  destruct (connect_to_sql_server _ _ _ _ w2) as [[h|e] w3]; [|discriminate].
  destruct (backup_database_shape h "YOUR_DATABASE" dir w3)
    as (e3 & T3 & C3 & _ & S3).
  destruct (backup_database h _ dir w3) as [[p|e] w4]; [|discriminate].
  destruct (close_shape h w4) as (T4 & _ & _ & S4).
  destruct (Pyodbc.close h w4) as [[[]|e] w5]; [|discriminate].
  unfold logging_info, ret. intros H. injection H as <- <-.
  simpl in *. destruct S2 as [-> S2], S3 as (_ & -> & _), S4 as [O4 S4].
  destruct (notify_once success_subject (success_body p)
              (set_log (log w5 ++ [(INFO, "Database connection closed.")]) w5))
    as (_ & sm & Hs & Hsm).
  destruct (notify_keeps success_subject (success_body p)
              (set_log (log w5 ++ [(INFO, "Database connection closed.")]) w5))
    as [Hc _].
  rewrite C1 in *.
  eexists (e1 ++ [EvConnect _; EvCursor _; EvExecute _ _; EvCommit _]), sm.
  split; [|split; [|split]].
  - rewrite Hs. simpl. rewrite T4, T3, T2, T1. rewrite <- !app_assoc. reflexivity.
  - rewrite notifications_app, (quiet_of_fs e1 F1). reflexivity.
  - rewrite count_events_app.
    rewrite (count_events_none is_smtp_event is_fs_event e1);
      [reflexivity|intros [] H; simpl in *; congruence|exact F1].
  - rewrite Hc. simpl. rewrite S4, C3, S2.
    apply list_lookup_insert_eq. rewrite length_app. simpl. lia.
Qed.

(** A run in which everything works. *)
Lemma connection_closed_before_success_notification_witness :
  exists pre post,
    trace (snd (perform_backup Sample.all_fine))
    = trace Sample.all_fine ++ pre
      ++ EvClose (length (conns Sample.all_fine))
      :: EvNotify "Backup Success: YOUR_DATABASE"
           ("Backup of database YOUR_DATABASE completed successfully. Backup file: "
            +:+ "/path/to/backup/2024/03/08/YOUR_DATABASE_backup_20240308_080001.bak")
           "recipient@example.com"
      :: post /\
    notifications pre = [] /\
    count_events is_smtp_event pre = 0 /\
    conns (snd (perform_backup Sample.all_fine)) !! length (conns Sample.all_fine)
    = Some ConnClosed.
Proof.
  refine (connection_closed_before_success_notification Sample.all_fine _
            (snd (backup_steps Sample.all_fine)) _).
  vm_compute. reflexivity.
Defined.

(** X6.  When the backup was taken (the BACKUP statement was executed
    and committed) and [connection.close()] then raises, the run is
    reported as failed: its one notification is "Backup Failed: ..." with
    the text of the error of [close], and the connection is still open
    when the run ends. *)
Theorem failed_close_turns_success_into_failure
    (w : World) (dir : string) (w1 : World) (h : nat) (w2 : World)
    (backup_path : string) (w3 : World) (e : exn) (w4 : World) :
  create_backup_directory "/path/to/backup" w = (Ok dir, w1) ->
  connect_to_sql_server "YOUR_SERVER" "YOUR_DATABASE" "YOUR_USERNAME"
    "YOUR_PASSWORD" w1 = (Ok h, w2) ->
  backup_database h "YOUR_DATABASE" dir w2 = (Ok backup_path, w3) ->
  Pyodbc.close h w3 = (Raise e, w4) ->
  In (EvCommit h) (trace (snd (perform_backup w))) /\
  notifications (trace (snd (perform_backup w)))
  = notifications (trace w)
    ++ [("Backup Failed: YOUR_DATABASE",
         "An error occurred during the backup of database YOUR_DATABASE. Error: "
         +:+ exn_text e)] /\
  conns (snd (perform_backup w)) !! h = Some ConnOpen.
Proof.
  intros Hdir Hconn Hbak Hclose.
  assert (Hrun : perform_backup w = report_failure e w4).
  { rewrite perform_backup_unfold.
    unfold perform_backup_flat, backup_steps, bind at 1. rewrite Hdir.
    unfold bind at 1. rewrite Hconn. unfold bind at 1. rewrite Hbak.
    unfold bind at 1. now rewrite Hclose. }
  rewrite Hrun. unfold report_failure, bind, logging_error.
  destruct (create_backup_directory_emits "/path/to/backup" w) as (e1 & T1 & F1).
  rewrite Hdir in T1.
  destruct (connect_to_sql_server_shape "YOUR_SERVER" "YOUR_DATABASE"
              "YOUR_USERNAME" "YOUR_PASSWORD" w1) as (T2 & _ & _).
  rewrite Hconn in T2.
  destruct (backup_database_shape h "YOUR_DATABASE" dir w2)
    as (e3 & T3 & C3 & _ & S3).
  rewrite Hbak in T3, C3, S3. destruct S3 as (_ & -> & _).
  destruct (close_shape h w3) as (T4 & _ & _ & S4).
  rewrite Hclose in T4, S4.
  match goal with |- context [notify ?a ?b ?x] =>
    destruct (notify_once a b x) as (_ & sm & Hs & Hsm);
    destruct (notify_keeps a b x) as [Hc _] end.
  cbn [fst snd] in *. rewrite Hs, Hc.
  change (trace (set_log ?l ?x)) with (trace x).
  change (conns (set_log ?l ?x)) with (conns x).
  split; [|split].
  - rewrite T4, T3. rewrite !in_app_iff. simpl. tauto.
  - rewrite T4, T3, T2, T1. rewrite !notifications_app. simpl.
    rewrite (quiet_of_fs e1 F1), (quiet_of_smtp sm Hsm), !app_nil_r. reflexivity.
  - rewrite S4, C3. eapply connect_to_sql_server_opens. exact Hconn.
Qed.

(** A run in which only closing the connection fails. *)
Lemma failed_close_turns_success_into_failure_witness :
  In (EvCommit 0) (trace (snd (perform_backup Scenario.close_fails))) /\
  notifications (trace (snd (perform_backup Scenario.close_fails)))
  = notifications (trace Scenario.close_fails)
    ++ [("Backup Failed: YOUR_DATABASE",
         "An error occurred during the backup of database YOUR_DATABASE. Error: "
         +:+ exn_text (mkExn PyodbcError "Communication link failure"))] /\
  conns (snd (perform_backup Scenario.close_fails)) !! 0 = Some ConnOpen.
Proof.
  refine (failed_close_turns_success_into_failure Scenario.close_fails
            "/path/to/backup/2024/03/08"
            (snd (create_backup_directory "/path/to/backup" Scenario.close_fails))
            0
            (snd (connect_to_sql_server "YOUR_SERVER" "YOUR_DATABASE"
                    "YOUR_USERNAME" "YOUR_PASSWORD"
                    (snd (create_backup_directory "/path/to/backup"
                            Scenario.close_fails))))
            "/path/to/backup/2024/03/08/YOUR_DATABASE_backup_20240308_080001.bak"
            (snd (backup_database 0 "YOUR_DATABASE" "/path/to/backup/2024/03/08"
                    (snd (connect_to_sql_server "YOUR_SERVER" "YOUR_DATABASE"
                            "YOUR_USERNAME" "YOUR_PASSWORD"
                            (snd (create_backup_directory "/path/to/backup"
                                    Scenario.close_fails))))))
            (mkExn PyodbcError "Communication link failure")
            (snd (Pyodbc.close 0
                    (snd (backup_database 0 "YOUR_DATABASE"
                            "/path/to/backup/2024/03/08"
                            (snd (connect_to_sql_server "YOUR_SERVER"
                                    "YOUR_DATABASE" "YOUR_USERNAME" "YOUR_PASSWORD"
                                    (snd (create_backup_directory
                                            "/path/to/backup"
                                            Scenario.close_fails))))))))
            _ _ _ _); vm_compute; reflexivity.
Defined.

Lemma perform_backup_counts (w : World) :
  exists evs,
    trace (snd (perform_backup w)) = trace w ++ evs /\
    count_events is_connect_event evs <= 1 /\
    count_events is_execute_event evs <= 1 /\
    count_events is_notify_event evs = 1.
Proof.
  rewrite perform_backup_unfold. unfold perform_backup_flat.
  assert (Hsteps : exists evs,
            trace (snd (backup_steps w)) = trace w ++ evs /\
            count_events is_connect_event evs <= 1 /\
            count_events is_execute_event evs <= 1 /\
            count_events is_notify_event evs = 0).
  { unfold backup_steps, bind.
    destruct (create_backup_directory_emits "/path/to/backup" w) as (e1 & T1 & F1).
    assert (K1 : forall P, (forall ev, is_fs_event ev = true -> P ev = false) ->
                           count_events P e1 = 0).
    { intros P HP. now apply (count_events_none P is_fs_event). }
    destruct (create_backup_directory _ w) as [[dir|e] w1]; simpl in T1.
    2:{ exists e1. split; [assumption|].
        rewrite !K1; [lia|intros [] H; simpl in *; congruence..]. }
    destruct (connect_to_sql_server_shape "YOUR_SERVER" "YOUR_DATABASE"
                "YOUR_USERNAME" "YOUR_PASSWORD" w1) as (T2 & _ & _).
    destruct (connect_to_sql_server _ _ _ _ w1) as [[h|e] w2]; simpl in T2.
    2:{ eexists. split; [cbn [fst snd]; rewrite T2, T1, <- app_assoc; reflexivity|].
        rewrite !count_events_app, !K1;
          [unfold count_events in *; simpl; lia|intros [] H; simpl in *; congruence..]. }
    destruct (backup_database_shape h "YOUR_DATABASE" dir w2)
      as (e3 & T3 & _ & _ & S3).
    assert (K3 : count_events is_connect_event e3 = 0 /\
                 count_events is_execute_event e3 <= 1 /\
                 count_events is_notify_event e3 = 0).
    { destruct (fst (backup_database h "YOUR_DATABASE" dir w2)).
      - destruct S3 as (_ & -> & _). unfold count_events. simpl. lia.
      - destruct S3 as ([-> |[-> | ->]] & _); unfold count_events; simpl; lia. }
    destruct K3 as (K3a & K3b & K3c).
    destruct (backup_database h _ dir w2) as [[p|e] w3]; simpl in T3.
    2:{ eexists. split; [cbn [fst snd]; rewrite T3, T2, T1, <- !app_assoc; reflexivity|].
        rewrite !count_events_app, !K1, K3a, K3c;
          [unfold count_events in *; simpl; lia|intros [] H; simpl in *; congruence..]. }
    destruct (close_shape h w3) as (T4 & _).
    destruct (Pyodbc.close h w3) as [[[]|e] w4]; simpl in T4;
      (eexists; split; [simpl; rewrite T4, T3, T2, T1, <- !app_assoc; reflexivity|];
       rewrite !count_events_app, !K1, K3a, K3c;
       [unfold count_events in *; simpl; lia|intros [] H; simpl in *; congruence..]). }
  destruct Hsteps as (evs & Ht & Hc & Hx & Hn).
  assert (Hnotify : forall a b x,
            exists sm, trace (snd (notify a b x))
                       = trace x ++ EvNotify a b "recipient@example.com" :: sm /\
                       count_events is_connect_event sm = 0 /\
                       count_events is_execute_event sm = 0 /\
                       count_events is_notify_event sm = 0).
  { intros a b x. destruct (notify_once a b x) as (_ & sm & Hs & Hsm).
    exists sm. split; [assumption|].
    repeat split; apply (count_events_none _ is_smtp_event); auto;
      intros [] H; simpl in *; congruence. }
  destruct (backup_steps w) as [[p|e] w1]; simpl in Ht.
  - destruct (Hnotify success_subject (success_body p) w1)
      as (sm & Hs & S1 & S2 & S3).
    exists (evs ++ EvNotify success_subject (success_body p)
                     "recipient@example.com" :: sm).
    split; [now rewrite Hs, Ht, <- app_assoc|].
    rewrite !count_events_app.
    change (EvNotify ?a ?b ?c :: sm) with ([EvNotify a b c] ++ sm).
    rewrite !count_events_app, S1, S2, S3, Hn.
    unfold count_events in *. simpl. lia.
  - unfold report_failure, bind, logging_error.
    match goal with |- context [notify ?a ?b ?x] =>
      destruct (Hnotify a b x) as (sm & Hs & S1 & S2 & S3) end.
    exists (evs ++ EvNotify failure_subject (failure_body e)
                     "recipient@example.com" :: sm).
    split; [rewrite Hs; simpl; now rewrite Ht, <- app_assoc|].
    rewrite !count_events_app.
    change (EvNotify ?a ?b ?c :: sm) with ([EvNotify a b c] ++ sm).
    rewrite !count_events_app, S1, S2, S3, Hn.
    unfold count_events in *. simpl. lia.
Qed.

(** X7.  Nothing is retried: a run of [perform_backup] calls
    [pyodbc.connect] at most once, executes at most one BACKUP statement
    and calls [send_email_notification] exactly once. *)
Theorem one_connect_one_backup_one_notification (w : World) :
  exists evs,
    trace (snd (perform_backup w)) = trace w ++ evs /\
    count_events is_connect_event evs <= 1 /\
    count_events is_execute_event evs <= 1 /\
    count_events is_notify_event evs = 1.
Proof. apply perform_backup_counts. Qed.

(** ** The file system *)

Lemma fs_gains_dirs_refl w : fs_gains_dirs w w.
Proof. split; auto. Qed.

Lemma fs_gains_dirs_trans a b c :
  fs_gains_dirs a b -> fs_gains_dirs b c -> fs_gains_dirs a c.
Proof.
  intros [G1 N1] [G2 N2]. split.
  - intros path n H. apply G2, G1, H.
  - intros path n H. destruct (N2 path n H) as [H'|H']; [|now right].
    apply N1, H'.
Qed.

Lemma fs_gains_dirs_same w w' : fs w' = fs w -> fs_gains_dirs w w'.
Proof. intros H. unfold fs_gains_dirs. rewrite H. split; auto. Qed.

Lemma mkdir_gains_dirs name : keeps fs_gains_dirs (Os.mkdir name).
Proof.
  intros w. unfold Os.mkdir. exec. simpl.
  destruct (String.eqb name ""); [now apply fs_gains_dirs_same|].
  destruct (Os.parent_node _ _) as [[[]|]|]; try now apply fs_gains_dirs_same.
  - destruct (fs w !! name) eqn:Hn; [now apply fs_gains_dirs_same|].
    split; simpl; intros path n H.
    + rewrite lookup_insert_ne; [assumption|congruence].
    + destruct (decide (name = path)) as [->|Hne].
      * rewrite lookup_insert_eq in H. right. congruence.
      * rewrite lookup_insert_ne in H by assumption. now left.
  - destruct (fs w !! name); now apply fs_gains_dirs_same.
Qed.

(** Frame proofs for a relation given with its own reflexivity and
    transitivity. *)
Ltac frame_for Hrefl Htrans leaf :=
  repeat lazymatch goal with
    | |- keeps _ (bind _ _) => apply keeps_bind; [exact Htrans| |intros ?]
    | |- keeps _ (try_except _ _) =>
        apply keeps_try_except; [exact Htrans| |intros ?]
    | |- keeps _ (for_each _ _) =>
        apply keeps_for_each; [exact Hrefl|exact Htrans|intros ?]
    | |- keeps _ (ret _) => apply keeps_ret; exact Hrefl
    | |- keeps _ (raise _) => apply keeps_raise; exact Hrefl
    | |- keeps _ (if ?b then _ else _) => destruct b
    | |- keeps _ (match ?x with _ => _ end) => destruct x
    | |- keeps _ _ => solve [leaf]
    end.

Ltac gains_dirs_leaf :=
  first
    [ apply mkdir_gains_dirs
    | assumption
    | let w := fresh "w" in
      intros w; apply fs_gains_dirs_same;
      unfold logging_info, logging_error, read_clock, Os.path_exists, emit;
      simpl; repeat (match goal with
                     | |- context [match ?x with _ => _ end] => destruct x; simpl
                     end); reflexivity ].

Lemma makedirs_fuel_gains_dirs fuel name :
  keeps fs_gains_dirs (Os.makedirs_fuel fuel name).
Proof.
  revert name. induction fuel as [|fuel IH]; intros name; simpl;
    frame_for fs_gains_dirs_refl fs_gains_dirs_trans
      ltac:(first [apply IH | gains_dirs_leaf]).
Qed.

Lemma create_backup_directory_gains_dirs base_dir :
  keeps fs_gains_dirs (create_backup_directory base_dir).
Proof.
  unfold create_backup_directory, date_today, Os.makedirs.
  frame_for fs_gains_dirs_refl fs_gains_dirs_trans
    ltac:(first [apply makedirs_fuel_gains_dirs | gains_dirs_leaf]).
Qed.

(** X8.  What the script itself does to the file system (the backup
    file is written by the server, not by the script): [perform_backup]
    removes and replaces nothing.  Every path keeps the node it had, and
    a path that is new after the run is a directory. *)
Theorem perform_backup_only_adds_directories (w : World) :
  let w' := snd (perform_backup w) in
  (forall path n, fs w !! path = Some n -> fs w' !! path = Some n) /\
  (forall path n, fs w' !! path = Some n ->
                  fs w !! path = Some n \/ n = Dir true).
Proof.
  cbv zeta. change (fs_gains_dirs w (snd (perform_backup w))).
  rewrite perform_backup_unfold. unfold perform_backup_flat.
  assert (Hsteps : fs_gains_dirs w (snd (backup_steps w))).
  { unfold backup_steps, bind.
    pose proof (create_backup_directory_gains_dirs "/path/to/backup" w) as G1.
    destruct (create_backup_directory _ w) as [[dir|e] w1]; [|exact G1].
    destruct (connect_to_sql_server_shape "YOUR_SERVER" "YOUR_DATABASE"
                "YOUR_USERNAME" "YOUR_PASSWORD" w1) as (_ & F2 & _).
    destruct (connect_to_sql_server _ _ _ _ w1) as [[h|e] w2]; simpl in *.
    2:{ eapply fs_gains_dirs_trans; [exact G1|apply fs_gains_dirs_same; simpl; congruence]. }
    destruct (backup_database_shape h "YOUR_DATABASE" dir w2)
      as (_ & _ & _ & F3 & _).
    destruct (backup_database h _ dir w2) as [[p|e] w3]; simpl in *.
    2:{ eapply fs_gains_dirs_trans; [exact G1|].
        apply fs_gains_dirs_same. simpl. congruence. }
    destruct (close_shape h w3) as (_ & F4 & _).
    destruct (Pyodbc.close h w3) as [[[]|e] w4]; simpl in *;
      (eapply fs_gains_dirs_trans; [exact G1|];
       apply fs_gains_dirs_same; simpl; congruence). }
  destruct (backup_steps w) as [[p|e] w1]; simpl in Hsteps.
  - eapply fs_gains_dirs_trans; [exact Hsteps|].
    apply fs_gains_dirs_same, notify_keeps.
  - unfold report_failure, bind, logging_error.
    eapply fs_gains_dirs_trans; [exact Hsteps|].
    apply fs_gains_dirs_same.
    match goal with |- context [notify ?a ?b ?x] =>
      now rewrite (proj2 (notify_keeps a b x)) end.
Qed.

(** ** Creating the missing levels *)

Lemma read_clock_log w : log (snd (read_clock w)) = log w.
Proof. unfold read_clock. now destruct (clock_next w). Qed.

(** A missing directory under a writable parent: one [mkdir], one line
    in the log. *)
Lemma ensure_directory_creates_exact directory head tail w :
  OsPath.split directory = (head, tail) -> tail <> "" -> directory <> "" ->
  fs w !! directory = None ->
  Os.parent_node w head = Some (Dir true) ->
  head = "" \/ is_Some (fs w !! head) ->
  exists w',
    ensure_directory directory w = (Ok tt, w') /\
    fs w' = <[directory := Dir true]> (fs w) /\
    trace w' = trace w ++ [EvMkdir directory] /\
    log w' = log w ++ [(INFO, "Created directory: " +:+ directory)].
Proof.
  intros Hsplit Htail Hne Hnone Hparent Hhead.
  unfold ensure_directory, bind at 1, Os.path_exists.
  rewrite bool_decide_eq_false_2 by (rewrite Hnone; intros [? ?]; discriminate).
  simpl. unfold bind.
  rewrite (makedirs_parent_present directory head tail w Hsplit Htail Hhead).
  rewrite mkdir_under_dir; [|assumption|now rewrite Hsplit|assumption].
  unfold logging_info. eexists. split; [reflexivity|]. repeat split.
Qed.

Section Levels.

Variable base_dir : string.
Variable w : World.

Let today := date_of (clock_now w).
Let Y := year_dir base_dir today.
Let M := month_dir base_dir today.
Let D := day_dir base_dir today.

Let created (directory : string) : log_level * string :=
  (INFO, "Created directory: " +:+ directory).

(** First backup of a day in a month that has its directory. *)
Lemma create_backup_directory_new_day :
  is_Some (fs w !! Y) -> fs w !! M = Some (Dir true) -> fs w !! D = None ->
  exists w',
    create_backup_directory base_dir w = (Ok D, w') /\
    fs w' = <[D := Dir true]> (fs w) /\
    trace w' = trace w ++ [EvMkdir D] /\
    log w' = log w ++ [created D].
Proof.
  subst Y M D created today. intros HY HM HD.
  rewrite create_backup_directory_unfold. cbv zeta. unfold bind.
  rewrite ensure_directory_present by (rewrite read_clock_fs; assumption).
  rewrite ensure_directory_present by (rewrite read_clock_fs, HM; eauto).
  destruct (segment_facts _ (zfill_digits 2 (d_day (date_of (clock_now w))))
              (zfill_nonempty _ _)) as (_ & HnD & _).
  destruct (ensure_directory_creates_exact _ _ _ (snd (read_clock w))
              (split_day_dir base_dir (date_of (clock_now w))) HnD
              (day_dir_nonempty base_dir (date_of (clock_now w))))
    as (w3 & E3 & F3 & T3 & L3).
  { now rewrite read_clock_fs. }
  { unfold Os.parent_node. rewrite read_clock_fs.
    destruct (String.eqb_spec (month_dir base_dir (date_of (clock_now w))) "");
      [|assumption].
    now destruct (month_dir_shape base_dir (date_of (clock_now w))). }
  { right. rewrite read_clock_fs, HM. eauto. }
  rewrite E3. exists w3. split; [reflexivity|].
  now rewrite F3, T3, L3, read_clock_fs, read_clock_trace, read_clock_log.
Qed.

(** First backup of a month in a year that has its directory. *)
Lemma create_backup_directory_new_month :
  fs w !! Y = Some (Dir true) -> fs w !! M = None -> fs w !! D = None ->
  exists w',
    create_backup_directory base_dir w = (Ok D, w') /\
    fs w' = <[D := Dir true]> (<[M := Dir true]> (fs w)) /\
    trace w' = trace w ++ [EvMkdir M; EvMkdir D] /\
    log w' = log w ++ [created M; created D].
Proof.
  subst Y M D created today. intros HY HM HD.
  rewrite create_backup_directory_unfold. cbv zeta. unfold bind.
  rewrite ensure_directory_present by (rewrite read_clock_fs, HY; eauto).
  destruct (segment_facts _ (zfill_digits 2 (d_month (date_of (clock_now w))))
              (zfill_nonempty _ _)) as (_ & HnM & _).
  destruct (segment_facts _ (zfill_digits 2 (d_day (date_of (clock_now w))))
              (zfill_nonempty _ _)) as (_ & HnD & _).
  destruct (ensure_directory_creates_exact _ _ _ (snd (read_clock w))
              (split_month_dir base_dir (date_of (clock_now w))) HnM
              (proj1 (month_dir_shape base_dir (date_of (clock_now w)))))
    as (w2 & E2 & F2 & T2 & L2).
  { now rewrite read_clock_fs. }
  { unfold Os.parent_node. rewrite read_clock_fs.
    destruct (String.eqb_spec (year_dir base_dir (date_of (clock_now w))) "");
      [|assumption].
    now destruct (year_dir_shape base_dir (date_of (clock_now w))). }
  { right. rewrite read_clock_fs, HY. eauto. }
  rewrite E2. rewrite read_clock_fs in F2.
  destruct (ensure_directory_creates_exact _ _ _ w2
              (split_day_dir base_dir (date_of (clock_now w))) HnD
              (day_dir_nonempty base_dir (date_of (clock_now w))))
    as (w3 & E3 & F3 & T3 & L3).
  { rewrite F2, lookup_insert_ne; [assumption|].
    intros E. symmetry in E. now apply day_dir_ne_month_dir in E. }
  { unfold Os.parent_node. rewrite F2, lookup_insert_eq.
    destruct (String.eqb_spec (month_dir base_dir (date_of (clock_now w))) "");
      [|reflexivity].
    now destruct (month_dir_shape base_dir (date_of (clock_now w))). }
  { right. rewrite F2, lookup_insert_eq. eauto. }
  rewrite E3. exists w3. split; [reflexivity|].
  rewrite F3, T3, L3, F2, T2, L2, read_clock_trace, read_clock_log.
  now rewrite <- !app_assoc.
Qed.

(** First backup of a year under a writable base directory. *)
Lemma create_backup_directory_new_year :
  base_dir <> "" -> PyStr.endswith_sep base_dir = false ->
  fs w !! base_dir = Some (Dir true) ->
  fs w !! Y = None -> fs w !! M = None -> fs w !! D = None ->
  exists w',
    create_backup_directory base_dir w = (Ok D, w') /\
    trace w' = trace w ++ [EvMkdir Y; EvMkdir M; EvMkdir D] /\
    log w' = log w ++ [created Y; created M; created D].
Proof.
  subst Y M D created today. intros Hb He Hbase HY HM HD.
  rewrite create_backup_directory_unfold. cbv zeta. unfold bind.
  destruct (segment_facts _ (str_digits (d_year (date_of (clock_now w))))
              (str_nonempty _)) as (_ & HnY & _).
  destruct (segment_facts _ (zfill_digits 2 (d_month (date_of (clock_now w))))
              (zfill_nonempty _ _)) as (_ & HnM & _).
  destruct (segment_facts _ (zfill_digits 2 (d_day (date_of (clock_now w))))
              (zfill_nonempty _ _)) as (_ & HnD & _).
  destruct (ensure_directory_creates_exact _ base_dir _ (snd (read_clock w))
              (split_year_dir base_dir (date_of (clock_now w)) Hb He) HnY
              (proj1 (year_dir_shape base_dir (date_of (clock_now w)))))
    as (w1 & E1 & F1 & T1 & L1).
  { now rewrite read_clock_fs. }
  { unfold Os.parent_node. rewrite read_clock_fs.
    destruct (String.eqb_spec base_dir ""); [contradiction|assumption]. }
  { right. rewrite read_clock_fs, Hbase. eauto. }
  rewrite E1. rewrite read_clock_fs in F1.
  destruct (ensure_directory_creates_exact _ _ _ w1
              (split_month_dir base_dir (date_of (clock_now w))) HnM
              (proj1 (month_dir_shape base_dir (date_of (clock_now w)))))
    as (w2 & E2 & F2 & T2 & L2).
  { rewrite F1, lookup_insert_ne; [assumption|].
    intros E. symmetry in E. now apply month_dir_ne_year_dir in E. }
  { unfold Os.parent_node. rewrite F1, lookup_insert_eq.
    destruct (String.eqb_spec (year_dir base_dir (date_of (clock_now w))) "");
      [|reflexivity].
    now destruct (year_dir_shape base_dir (date_of (clock_now w))). }
  { right. rewrite F1, lookup_insert_eq. eauto. }
  rewrite E2.
  destruct (ensure_directory_creates_exact _ _ _ w2
              (split_day_dir base_dir (date_of (clock_now w))) HnD
              (day_dir_nonempty base_dir (date_of (clock_now w))))
    as (w3 & E3 & F3 & T3 & L3).
  { rewrite F2, F1, !lookup_insert_ne; [assumption| |].
    - intros E. symmetry in E. now apply day_dir_ne_year_dir in E.
    - intros E. symmetry in E. now apply day_dir_ne_month_dir in E. }
  { unfold Os.parent_node. rewrite F2, lookup_insert_eq.
    destruct (String.eqb_spec (month_dir base_dir (date_of (clock_now w))) "");
      [|reflexivity].
    now destruct (month_dir_shape base_dir (date_of (clock_now w))). }
  { right. rewrite F2, lookup_insert_eq. eauto. }
  rewrite E3. exists w3. split; [reflexivity|].
  rewrite T3, L3, T2, L2, T1, L1, read_clock_trace, read_clock_log.
  now rewrite <- !app_assoc.
Qed.

End Levels.

(** X9.  [create_backup_directory] creates the levels that are missing
    and only those, from the top down, and logs one "Created directory:
    ..." line for each: nothing when year, month and day are there; the
    day in a month that is a directory; the month and the day in a year
    that is a directory; the year, the month and the day under a writable
    base directory (given without a trailing separator).  In each case
    it returns the day directory. *)
Theorem create_backup_directory_creates_missing_levels
    (base_dir : string) (w : World) :
  let today := date_of (clock_now w) in
  let Y := year_dir base_dir today in
  let M := month_dir base_dir today in
  let D := day_dir base_dir today in
  let created directory := (INFO, "Created directory: " +:+ directory) in
  (is_Some (fs w !! Y) -> is_Some (fs w !! M) -> is_Some (fs w !! D) ->
   exists w',
     create_backup_directory base_dir w = (Ok D, w') /\
     trace w' = trace w /\ log w' = log w) /\
  (is_Some (fs w !! Y) -> fs w !! M = Some (Dir true) -> fs w !! D = None ->
   exists w',
     create_backup_directory base_dir w = (Ok D, w') /\
     trace w' = trace w ++ [EvMkdir D] /\
     log w' = log w ++ [created D]) /\
  (fs w !! Y = Some (Dir true) -> fs w !! M = None -> fs w !! D = None ->
   exists w',
     create_backup_directory base_dir w = (Ok D, w') /\
     trace w' = trace w ++ [EvMkdir M; EvMkdir D] /\
     log w' = log w ++ [created M; created D]) /\
  (base_dir <> "" -> PyStr.endswith_sep base_dir = false ->
   fs w !! base_dir = Some (Dir true) ->
   fs w !! Y = None -> fs w !! M = None -> fs w !! D = None ->
   exists w',
     create_backup_directory base_dir w = (Ok D, w') /\
     trace w' = trace w ++ [EvMkdir Y; EvMkdir M; EvMkdir D] /\
     log w' = log w ++ [created Y; created M; created D]).
Proof.
  cbv zeta. split; [|split; [|split]].
  - intros HY HM HD. eexists. split.
    + now apply create_backup_directory_present.
    + split; [apply read_clock_trace|apply read_clock_log].
  - intros HY HM HD.
    destruct (create_backup_directory_new_day base_dir w HY HM HD)
      as (w' & E & _ & T & L).
    exists w'. repeat split; assumption.
  - intros HY HM HD.
    destruct (create_backup_directory_new_month base_dir w HY HM HD)
      as (w' & E & _ & T & L).
    exists w'. repeat split; assumption.
  - apply create_backup_directory_new_year.
Qed.

(** A new month in a year that is there. *)
Lemma create_backup_directory_creates_missing_levels_witness :
  exists w',
    create_backup_directory "/path/to/backup" Scenario.new_month
    = (Ok (day_dir "/path/to/backup" (date_of (clock_now Scenario.new_month))), w') /\
    trace w'
    = trace Scenario.new_month
      ++ [EvMkdir (month_dir "/path/to/backup"
                     (date_of (clock_now Scenario.new_month)));
          EvMkdir (day_dir "/path/to/backup"
                     (date_of (clock_now Scenario.new_month)))] /\
    log w'
    = log Scenario.new_month
      ++ [(INFO, "Created directory: "
                 +:+ month_dir "/path/to/backup"
                       (date_of (clock_now Scenario.new_month)));
          (INFO, "Created directory: "
                 +:+ day_dir "/path/to/backup"
                       (date_of (clock_now Scenario.new_month)))].
Proof.
  refine (proj1 (proj2 (proj2
            (create_backup_directory_creates_missing_levels
               "/path/to/backup" Scenario.new_month))) _ _ _);
    vm_compute; reflexivity.
Defined.

(** ** The scheduler loop *)

(** The events of a run: file system, ODBC, the notification call and
    SMTP; nothing of the scheduler's own. *)
Lemma perform_backup_emits_run_events :
  keeps (trace_grows (fun ev => negb (is_job_event ev || is_sleep_event ev)))
    perform_backup.
Proof.
  intros w. rewrite perform_backup_unfold. unfold perform_backup_flat.
  destruct (backup_steps_emits w) as (evs & Ht & Hf).
  assert (Hsteps : trace_grows
                     (fun ev => negb (is_job_event ev || is_sleep_event ev)) w
                     (snd (backup_steps w))).
  { exists evs. split; [assumption|]. revert Hf. apply forallb_weaken.
    intros [] H; simpl in *; congruence. }
  assert (Hnotify : forall a b x,
            trace_grows (fun ev => negb (is_job_event ev || is_sleep_event ev))
              x (snd (notify a b x))).
  { intros a b x. destruct (notify_once a b x) as (_ & sm & Hs & Hsm).
    exists (EvNotify a b "recipient@example.com" :: sm). split; [assumption|].
    simpl. revert Hsm. apply forallb_weaken.
    intros [] H; simpl in *; congruence. }
  destruct (backup_steps w) as [[backup_path|e] w1]; simpl in *.
  - eapply trace_grows_trans; [exact Hsteps|apply Hnotify].
  - unfold report_failure, bind, logging_error.
    eapply trace_grows_trans; [exact Hsteps|].
    match goal with |- context [notify ?a ?b ?x] =>
      destruct (Hnotify a b x) as (sm & Hs & Hsm) end.
    exists sm. split; assumption.
Qed.

Section Rounds.

Variable job : Type.
Variable should_run : job -> DateTime -> bool.
Variable schedule_next_run : job -> DateTime -> job.

Lemma run_pending_no_sleep j w :
  exists evs,
    trace (snd (run_pending job should_run schedule_next_run j w))
    = trace w ++ evs /\
    count_events is_sleep_event evs = 0 /\
    count_events is_run_event evs <= 1 /\
    count_events is_notify_event evs = count_events is_run_event evs.
Proof.
  unfold run_pending, bind, datetime_now.
  assert (Hclock : forall x, read_clock x = (Ok (clock_now x), snd (read_clock x)))
    by (intros x; unfold read_clock; now destruct (clock_next x)).
  rewrite (Hclock w).
  destruct (should_run j (clock_now w)).
  - unfold emit at 1.
    match goal with |- context [perform_backup ?x] =>
      destruct (perform_backup_emits_run_events x) as (evs & Ht & Hq);
      destruct (perform_backup_counts x) as (evs' & Ht' & _ & _ & Hn);
      pose proof (perform_backup_returns x) as Hret;
      destruct (perform_backup x) as [r w2] end.
    simpl in Hret, Ht, Ht'. subst r.
    assert (evs' = evs) by (rewrite Ht in Ht'; now apply app_inv_head in Ht').
    subst evs'.
    unfold emit. rewrite Hclock. simpl.
    rewrite read_clock_trace. simpl. rewrite Ht, read_clock_trace.
    exists ([EvRunJob] ++ evs ++ [EvJobDone]). split.
    + now rewrite <- !app_assoc.
    + rewrite !count_events_app, Hn.
      rewrite !(count_events_none _
                  (fun ev => negb (is_job_event ev || is_sleep_event ev)) evs);
        [unfold count_events; simpl; lia
        |intros [] H; simpl in *; congruence
        |assumption
        |intros [] H; simpl in *; congruence
        |assumption].
  - simpl. rewrite read_clock_trace. exists []. rewrite app_nil_r.
    unfold count_events. simpl. repeat split; lia.
Qed.

End Rounds.

(** X10.  [n] rounds of the loop of [main], whatever the schedule says:
    [time.sleep] is called exactly [n] times and always with 60; the job
    is started at most [n] times, that is at most once a round; and as
    many notifications are attempted as jobs were started. *)
Theorem main_loop_sleeps_once_a_round
    (job : Type) (should_run : job -> DateTime -> bool)
    (schedule_next_run : job -> DateTime -> job)
    (n : nat) (j : job) (w : World) :
  exists evs,
    trace (snd (main_loop job should_run schedule_next_run n j w))
    = trace w ++ evs /\
    count_events is_sleep_event evs = n /\
    (forall s, In (EvSleep s) evs -> s = 60) /\
    count_events is_run_event evs <= n /\
    count_events is_notify_event evs = count_events is_run_event evs.
Proof.
  revert j w. induction n as [|n IH]; intros j w; simpl.
  - exists []. rewrite app_nil_r. unfold count_events. simpl.
    repeat split; try lia; try tauto.
  - unfold bind at 1.
    destruct (run_pending_no_sleep job should_run schedule_next_run j w)
      as (ev1 & Ht1 & Hs1 & Hj1 & Hn1).
    destruct (run_pending_returns should_run schedule_next_run j w) as (j1 & Hj).
    destruct (run_pending _ _ _ j w) as [r w1]. simpl in *. subst r.
    unfold bind at 1, time_sleep, emit.
    match goal with |- context [main_loop _ _ _ n j1 ?x] =>
      destruct (IH j1 x) as (ev2 & Ht2 & Hs2 & H60 & Hj2 & Hn2) end.
    simpl in Ht2. exists (ev1 ++ [EvSleep 60] ++ ev2). split.
    + rewrite Ht2, Ht1. now rewrite <- !app_assoc.
    + rewrite !count_events_app, Hs1, Hs2, Hn1, Hn2. split; [|split; [|split]].
      * unfold count_events. simpl. lia.
      * intros s Hin. rewrite !in_app_iff in Hin. simpl in Hin.
        destruct Hin as [Hin|[[Hin|[]]|Hin]].
        -- exfalso. clear -Hin Hs1. unfold count_events in Hs1.
           assert (In (EvSleep s) (List.filter is_sleep_event ev1))
             by (apply List.filter_In; now split).
           destruct (List.filter is_sleep_event ev1); [contradiction|discriminate].
        -- now inversion Hin.
        -- now apply H60.
      * unfold count_events in *. simpl. lia.
      * unfold count_events in *. simpl. lia.
Qed.

(** X11.  While the job is not due, the loop of [main] only sleeps:
    [n] rounds return with [n] calls of [time.sleep(60)] in the trace and
    nothing else, the job unchanged, and no change to files, connections
    or the log. *)
Theorem main_loop_never_due_only_sleeps
    (job : Type) (should_run : job -> DateTime -> bool)
    (schedule_next_run : job -> DateTime -> job)
    (n : nat) (j : job) (w : World) :
  (forall j' t, should_run j' t = false) ->
  exists w',
    main_loop job should_run schedule_next_run n j w = (Ok j, w') /\
    trace w' = trace w ++ repeat (EvSleep 60) n /\
    fs w' = fs w /\ conns w' = conns w /\ log w' = log w.
Proof.
  intros Hnever. revert w. induction n as [|n IH]; intros w; simpl.
  - exists w. rewrite app_nil_r. repeat split.
  - unfold bind at 1, run_pending, bind at 1, datetime_now.
    assert (Hclock : read_clock w = (Ok (clock_now w), snd (read_clock w)))
      by (unfold read_clock; now destruct (clock_next w)).
    rewrite Hclock, Hnever. unfold ret, bind at 1, time_sleep, emit.
    match goal with |- context [main_loop _ _ _ n j ?x] =>
      destruct (IH x) as (w' & E & T & F & C & L) end.
    exists w'. split; [exact E|]. simpl in *.
    rewrite T, F, C, L, read_clock_trace, read_clock_fs, read_clock_log.
    rewrite <- app_assoc. repeat split.
    unfold read_clock. now destruct (clock_next w).
Qed.

Lemma main_loop_never_due_only_sleeps_witness :
  exists w',
    main_loop unit Scenario.never_due Scenario.keep_job 3 tt Sample.all_fine
    = (Ok tt, w') /\
    trace w' = trace Sample.all_fine ++ repeat (EvSleep 60) 3 /\
    fs w' = fs Sample.all_fine /\ conns w' = conns Sample.all_fine /\
    log w' = log Sample.all_fine.
Proof.
  apply (main_loop_never_due_only_sleeps unit Scenario.never_due
           Scenario.keep_job 3 tt Sample.all_fine).
  reflexivity.
Defined.

(** ** Start-up *)

(** Running the plumbing of a start-up computation. *)
Ltac boot_exec :=
  cbv beta iota zeta
    delta [Boot.bind Boot.ret Boot.try_except_class Boot.for_each
           Boot.logging_info Boot.logging_error Boot.print Boot.executable
           Boot.check_call Boot.install_package Boot.check_library
           Boot.check_libraries Boot.REQUIRED_LIBRARIES Boot.given
           Boot.import_module Boot.class_eqb Boot.err_cls
           Boot.set_host_log Boot.set_stdout Boot.next_exit Boot.after_child].

(** X12.  [install_package] asks for one child, [sys.executable -m pip
    install <package>].  When the child exits with 0, one INFO line is
    logged.  When it exits with another status, the [CalledProcessError]
    is caught: the function returns, after one ERROR line in the log and
    one line on standard output.  When the child cannot be started, the
    [OSError] is not caught: it leaves [install_package], with no child
    started and nothing logged or printed. *)
Theorem install_package_swallows_only_a_failed_pip
    (package_name : string) (h : Boot.Host) :
  let argv := Boot.pip_install h package_name in
  match Boot.next_exit h with
  | Boot.ExitZero =>
      exists h',
        Boot.install_package package_name h = (Boot.Returned tt, h') /\
        Boot.spawned h' = Boot.spawned h ++ [argv] /\
        Boot.host_log h'
        = Boot.host_log h
          ++ [(INFO, package_name +:+ " installed successfully.")] /\
        Boot.stdout h' = Boot.stdout h
  | Boot.ExitNonZero returncode =>
      exists h' text,
        Boot.install_package package_name h = (Boot.Returned tt, h') /\
        Boot.spawned h' = Boot.spawned h ++ [argv] /\
        Boot.host_log h'
        = Boot.host_log h
          ++ [(ERROR, "Failed to install " +:+ package_name +:+ ": " +:+ text)] /\
        Boot.stdout h'
        = Boot.stdout h
          ++ ["Failed to install " +:+ package_name
              +:+ ". Please install it manually."]
  | Boot.CannotStart reason =>
      exists h',
        Boot.install_package package_name h
        = (Boot.Raised (Boot.mkError Boot.OSError reason), h') /\
        Boot.spawned h' = Boot.spawned h /\
        Boot.host_log h' = Boot.host_log h /\
        Boot.stdout h' = Boot.stdout h
  end.
Proof.
  cbv zeta. unfold Boot.pip_install. boot_exec. simpl.
  destruct (Boot.children h) as [|[[|rc|reason] after] rest]; simpl.
  - eexists. repeat split.
  - eexists. repeat split.
  - do 2 eexists. repeat split.
  - eexists. repeat split.
Qed.

Ltac in_list := solve [simpl; repeat first [left; reflexivity | right]].

(** Everything [check_libraries] can do, by what it finds. *)
Lemma check_libraries_cases (h : Boot.Host) :
  exists lines out,
    Boot.host_log (snd (Boot.check_libraries h)) = Boot.host_log h ++ lines /\
    Boot.stdout (snd (Boot.check_libraries h)) = Boot.stdout h ++ out /\
    forallb (fun line =>
               negb (Boot.ends_with
                       "should be available in your Python installation." line))
      out = true /\
    match fst (Boot.check_libraries h) with
    | Boot.Returned _ =>
        In (INFO, "smtplib is installed.") lines /\
        In (INFO, "email is installed.") lines /\
        Boot.spawned (snd (Boot.check_libraries h))
        = Boot.spawned h ++ Boot.pip_calls h
    | Boot.Raised e =>
        Boot.err_cls e = Boot.OSError /\
        exists done failed rest,
          Boot.spawned (snd (Boot.check_libraries h)) = Boot.spawned h ++ done /\
          Boot.pip_calls h = done ++ failed :: rest
    end.
Proof.
  unfold Boot.pip_calls, Boot.importable_at_schedule, Boot.pip_install.
  boot_exec. simpl.
  destruct (bool_decide ("pyodbc" ∈ Boot.importable h)) eqn:Hp; simpl.
  - destruct (bool_decide ("schedule" ∈ Boot.importable h)) eqn:Hs; simpl.
    + exists [(INFO, "pyodbc is installed."); (INFO, "smtplib is installed.");
              (INFO, "email is installed."); (INFO, "schedule is installed.")],
             [].
      rewrite <- !app_assoc, !app_nil_r. simpl. repeat split; tauto.
    + destruct (Boot.children h) as [|[[|rc|reason] after] rest]; simpl;
        do 2 eexists;
        (split; [rewrite <- ?app_assoc; simpl; reflexivity|]);
        (split; [rewrite <- ?app_assoc; simpl;
                 first [reflexivity|symmetry; apply app_nil_r]|]);
        (split; [vm_compute; reflexivity|]);
        first [ split; [in_list|split; [in_list|reflexivity]]
              | split; [reflexivity|];
                exists [], [Boot.sys_executable h; "-m"; "pip"; "install";
                            "schedule"], [];
                split; [symmetry; apply app_nil_r|reflexivity] ].
  - destruct (Boot.children h) as [|[[|rc|reason] after] rest]; simpl;
      [ destruct (bool_decide ("schedule" ∈ Boot.importable h)) eqn:Hs
      | destruct (bool_decide ("schedule" ∈ after)) eqn:Hs
      | destruct (bool_decide ("schedule" ∈ after)) eqn:Hs
      | ]; simpl;
      try (destruct rest as [|[[|rc'|reason'] after'] rest']; simpl);
      do 2 eexists;
      (split; [rewrite <- ?app_assoc; simpl; reflexivity|]);
      (split; [rewrite <- ?app_assoc; simpl;
               first [reflexivity|symmetry; apply app_nil_r]|]);
      (split; [vm_compute; reflexivity|]);
      first
        [ split; [in_list|split; [in_list|rewrite <- ?app_assoc; reflexivity]]
        | split; [reflexivity|];
          first
            [ exists [Boot.pip_install h "pyodbc"],
                     (Boot.pip_install h "schedule"), [];
              split; reflexivity
            | exists [], (Boot.pip_install h "pyodbc"); eexists;
              split; [symmetry; apply app_nil_r|reflexivity] ] ].
Qed.

(** X13.  The entries of [REQUIRED_LIBRARIES] without a pip name,
    [smtplib] and [email], are never imported by [check_libraries]:
    whenever it returns it has logged "smtplib is installed." and "email
    is installed.", whether they can be imported or not; and the line
    "... is a standard library and should be available in your Python
    installation." is never printed. *)
Theorem standard_library_entries_are_never_checked (h : Boot.Host) :
  exists lines out,
    Boot.host_log (snd (Boot.check_libraries h)) = Boot.host_log h ++ lines /\
    Boot.stdout (snd (Boot.check_libraries h)) = Boot.stdout h ++ out /\
    forallb (fun line =>
               negb (Boot.ends_with
                       "should be available in your Python installation." line))
      out = true /\
    (fst (Boot.check_libraries h) = Boot.Returned tt ->
     In (INFO, "smtplib is installed.") lines /\
     In (INFO, "email is installed.") lines).
Proof.
  destruct (check_libraries_cases h) as (lines & out & Hl & Ho & Hdead & Hr).
  exists lines, out. repeat split; try assumption;
    rewrite H in Hr; tauto.
Qed.

Lemma standard_library_entries_are_never_checked_witness :
  In (INFO, "smtplib is installed.")
     (Boot.host_log (snd (Boot.check_libraries Boot.only_pyodbc_and_schedule))) /\
  In (INFO, "email is installed.")
     (Boot.host_log (snd (Boot.check_libraries Boot.only_pyodbc_and_schedule))).
Proof.
  destruct (standard_library_entries_are_never_checked
              Boot.only_pyodbc_and_schedule)
    as (lines & out & Hl & _ & _ & Hr).
  rewrite Hl. destruct Hr as [H1 H2]; [vm_compute; reflexivity|].
  split; apply in_or_app; right; assumption.
Defined.

Lemma check_libraries_all_found (h : Boot.Host) :
  "pyodbc" ∈ Boot.importable h -> "schedule" ∈ Boot.importable h ->
  Boot.check_libraries h
  = (Boot.Returned tt,
     Boot.mkHost (Boot.importable h) (Boot.import_error h)
       (Boot.sys_executable h) (Boot.children h) (Boot.root_handlers h)
       (Boot.open_error h)
       (Boot.host_log h
        ++ [(INFO, "pyodbc is installed."); (INFO, "smtplib is installed.");
            (INFO, "email is installed."); (INFO, "schedule is installed.")])
       (Boot.stdout h) (Boot.spawned h)).
Proof.
  intros Hp Hs. boot_exec. simpl.
  rewrite (bool_decide_eq_true_2 _ Hp). simpl.
  rewrite (bool_decide_eq_true_2 _ Hs). simpl.
  now rewrite <- !app_assoc.
Qed.

(** X14.  With [pyodbc] and [schedule] importable, [check_libraries]
    returns after logging four INFO lines, one per entry in the order of
    the table; it prints nothing and starts no child process. *)
Theorem check_libraries_with_everything_installed (h : Boot.Host) :
  "pyodbc" ∈ Boot.importable h -> "schedule" ∈ Boot.importable h ->
  Boot.check_libraries h
  = (Boot.Returned tt,
     Boot.mkHost (Boot.importable h) (Boot.import_error h)
       (Boot.sys_executable h) (Boot.children h) (Boot.root_handlers h)
       (Boot.open_error h)
       (Boot.host_log h
        ++ [(INFO, "pyodbc is installed."); (INFO, "smtplib is installed.");
            (INFO, "email is installed."); (INFO, "schedule is installed.")])
       (Boot.stdout h) (Boot.spawned h)).
Proof.
  intros Hp Hs. boot_exec. simpl.
  rewrite (bool_decide_eq_true_2 _ Hp). simpl.
  rewrite (bool_decide_eq_true_2 _ Hs). simpl.
  now rewrite <- !app_assoc.
Qed.

Lemma check_libraries_with_everything_installed_witness :
  Boot.check_libraries Boot.everything_there
  = (Boot.Returned tt,
     Boot.mkHost (Boot.importable Boot.everything_there)
       (Boot.import_error Boot.everything_there)
       (Boot.sys_executable Boot.everything_there)
       (Boot.children Boot.everything_there)
       (Boot.root_handlers Boot.everything_there)
       (Boot.open_error Boot.everything_there)
       (Boot.host_log Boot.everything_there
        ++ [(INFO, "pyodbc is installed."); (INFO, "smtplib is installed.");
            (INFO, "email is installed."); (INFO, "schedule is installed.")])
       (Boot.stdout Boot.everything_there) (Boot.spawned Boot.everything_there)).
Proof.
  apply (check_libraries_with_everything_installed Boot.everything_there);
    vm_compute; reflexivity.
Defined.

(** Pip exits with 0 for [pyodbc] and with 1 for [schedule]: both are
    asked for, in this order, and the check returns. *)
Example check_libraries_nothing_installed :
  fst (Boot.check_libraries Boot.nothing_installed) = Boot.Returned tt /\
  Boot.spawned (snd (Boot.check_libraries Boot.nothing_installed))
  = [["/usr/bin/python3"; "-m"; "pip"; "install"; "pyodbc"];
     ["/usr/bin/python3"; "-m"; "pip"; "install"; "schedule"]] /\
  Boot.stdout (snd (Boot.check_libraries Boot.nothing_installed))
  = ["pyodbc is not installed. Attempting to install...";
     "schedule is not installed. Attempting to install...";
     "Failed to install schedule. Please install it manually."].
Proof. vm_compute. repeat split; reflexivity. Qed.

(** X15.  [check_libraries] asks pip for exactly the modules it could
    not import, in the order of the table: for [pyodbc] when it cannot be
    imported, then for [schedule] when it cannot be imported at its turn
    (after the child for [pyodbc], if there was one); once each, whether
    pip succeeds or fails, and for nothing else.  The only exception that
    can leave it is the [OSError] of a child that could not be started,
    and then the children started before are the calls that come before
    that one: no [ImportError], no [CalledProcessError]. *)
Theorem check_libraries_asks_pip_once_per_missing_module (h : Boot.Host) :
  let pyodbc_there := bool_decide ("pyodbc" ∈ Boot.importable h) in
  let importable_then :=
    if pyodbc_there then Boot.importable h
    else match Boot.children h with
         | c :: _ => Boot.importable_after c
         | [] => Boot.importable h
         end in
  let schedule_there := bool_decide ("schedule" ∈ importable_then) in
  let calls :=
    (if pyodbc_there then [] else [Boot.pip_install h "pyodbc"])
    ++ (if schedule_there then [] else [Boot.pip_install h "schedule"]) in
  match fst (Boot.check_libraries h) with
  | Boot.Returned _ =>
      Boot.spawned (snd (Boot.check_libraries h)) = Boot.spawned h ++ calls
  | Boot.Raised e =>
      Boot.err_cls e = Boot.OSError /\
      exists done failed rest,
        Boot.spawned (snd (Boot.check_libraries h)) = Boot.spawned h ++ done /\
        calls = done ++ failed :: rest
  end.
Proof.
  cbv zeta.
  destruct (check_libraries_cases h) as (lines & out & _ & _ & _ & Hr).
  unfold Boot.pip_calls, Boot.importable_at_schedule, Boot.after_child in Hr.
  cbn [Boot.importable] in Hr.
  destruct (fst (Boot.check_libraries h)); [tauto|exact Hr].
Qed.

(** ** Loading the module *)

Lemma imports_all_found names h :
  Forall (fun name => name ∈ Boot.importable h) names ->
  Boot.for_each names Boot.import_module h = (Boot.Returned tt, h).
Proof.
  induction 1 as [|name names Hn _ IH]; [reflexivity|].
  simpl. unfold Boot.bind, Boot.import_module at 1.
  now rewrite (bool_decide_eq_true_2 _ Hn).
Qed.

Lemma imports_first_missing names h :
  Exists (fun name => ~ (name ∈ Boot.importable h)) names ->
  exists before name after,
    names = before ++ name :: after /\
    Forall (fun name => name ∈ Boot.importable h) before /\
    ~ (name ∈ Boot.importable h) /\
    Boot.for_each names Boot.import_module h
    = (Boot.Raised (Boot.mkError Boot.ImportError (Boot.import_error h name)),
       h).
Proof.
  induction names as [|name names IH]; intros Hex; [inversion Hex|].
  simpl. unfold Boot.bind, Boot.import_module at 1.
  destruct (decide (name ∈ Boot.importable h)) as [Hin|Hout].
  - rewrite (bool_decide_eq_true_2 _ Hin).
    inversion Hex as [? ? Hhd|? ? Htl]; subst; [contradiction|].
    destruct (IH Htl) as (before & missing & after & -> & Hb & Hn & Hr).
    exists (name :: before), missing, after.
    split; [reflexivity|]. split; [now constructor|]. split; assumption.
  - rewrite (bool_decide_eq_false_2 _ Hout).
    exists [], name, names.
    split; [reflexivity|]. split; [constructor|]. split; [assumption|reflexivity].
Qed.

(** X16.  Loading the module (the [import] statements at its top,
    [logging.basicConfig], then [check_libraries()]) never starts pip and
    prints nothing.  It ends in one of three ways.  The first module of
    the [import] statements that cannot be imported stops the load with
    its [ImportError].  With all of them importable, a log file that
    cannot be opened stops it with the [OSError] of [basicConfig], unless
    the root logger had a handler already.  In both cases nothing has
    been logged.  Otherwise [check_libraries] finds everything installed
    and the load returns after its four INFO lines. *)
Theorem loading_the_module_never_calls_pip (h : Boot.Host) :
  let run := Boot.load_module h in
  let all_there :=
    Forall (fun name => name ∈ Boot.importable h) Boot.top_level_imports in
  Boot.spawned (snd run) = Boot.spawned h /\
  Boot.stdout (snd run) = Boot.stdout h /\
  match fst run with
  | Boot.Returned _ =>
      all_there /\
      (Boot.root_handlers h = true
       \/ Boot.open_error h "database_backup.log" = None) /\
      Boot.host_log (snd run)
      = Boot.host_log h
        ++ [(INFO, "pyodbc is installed."); (INFO, "smtplib is installed.");
            (INFO, "email is installed."); (INFO, "schedule is installed.")]
  | Boot.Raised e =>
      Boot.host_log (snd run) = Boot.host_log h /\
      ((exists before name after,
          Boot.top_level_imports = before ++ name :: after /\
          Forall (fun name => name ∈ Boot.importable h) before /\
          ~ (name ∈ Boot.importable h) /\
          e = Boot.mkError Boot.ImportError (Boot.import_error h name))
       \/ (all_there /\
           Boot.root_handlers h = false /\
           exists reason,
             Boot.open_error h "database_backup.log" = Some reason /\
             e = Boot.mkError Boot.OSError reason))
  end.
Proof.
  cbv zeta.
  destruct (decide (Forall (fun name => name ∈ Boot.importable h)
                      Boot.top_level_imports)) as [Hf|He].
  - assert (Hp : "pyodbc" ∈ Boot.importable h).
    { rewrite Forall_forall in Hf. apply Hf. unfold Boot.top_level_imports.
      repeat first [left; reflexivity | right]. }
    assert (Hs : "schedule" ∈ Boot.importable h).
    { rewrite Forall_forall in Hf. apply Hf. unfold Boot.top_level_imports.
      repeat first [left; reflexivity | right]. }
    assert (E : Boot.load_module h
                = Boot.bind (Boot.basicConfig "database_backup.log")
                    (fun _ => Boot.check_libraries) h).
    { unfold Boot.load_module, Boot.bind at 1.
      now rewrite (imports_all_found _ _ Hf). }
    rewrite E. unfold Boot.bind, Boot.basicConfig.
    destruct (Boot.root_handlers h) eqn:Hroot.
    + rewrite (check_libraries_all_found h Hp Hs). simpl.
      repeat split; auto.
    + destruct (Boot.open_error h "database_backup.log") as [reason|] eqn:Hopen.
      * simpl. repeat split. right. repeat split; auto.
        exists reason. now split.
      * rewrite check_libraries_all_found by assumption. simpl.
        repeat split; auto.
  - apply not_Forall_Exists in He; [|intros name; apply _].
    destruct (imports_first_missing _ _ He)
      as (before & name & after & Hsplit & Hb & Hout & Hr).
    assert (E : Boot.load_module h
                = (Boot.Raised (Boot.mkError Boot.ImportError
                                  (Boot.import_error h name)), h)).
    { unfold Boot.load_module, Boot.bind at 1. now rewrite Hr. }
    rewrite E. cbn [fst snd]. do 3 (split; [reflexivity|]).
    left. exists before, name, after. repeat split; assumption.
Qed.

(** A host on which the log file cannot be opened. *)
Example load_module_log_file_denied :
  Boot.load_module
    (Boot.mkHost (list_to_set Boot.top_level_imports) Boot.no_module_named
       "/usr/bin/python3" [] false
       (fun _ => Some "[Errno 13] Permission denied: 'database_backup.log'")
       [] [] [])
  = (Boot.Raised
       (Boot.mkError Boot.OSError
          "[Errno 13] Permission denied: 'database_backup.log'"),
     Boot.mkHost (list_to_set Boot.top_level_imports) Boot.no_module_named
       "/usr/bin/python3" [] false
       (fun _ => Some "[Errno 13] Permission denied: 'database_backup.log'")
       [] [] []).
Proof. vm_compute. reflexivity. Qed.
